(** * podcast_mcp: the RSS parser and its tool boundary

    A shallow embedding of [jupiterbroadcasting_mcp/rss_parser.py]
    (class [PodcastRSSParser]) and of the paginating tool
    [podcast_mcp/server.py:search_episodes], followed by the properties
    of the date normaliser, the feed cache, the query engine and the
    episode lookup.

    Conventions.
    - A Python [str] is a [string]; a character is a code point below
      256, so the character classes below are the Unicode ones
      restricted to that range.
    - Python integers are [Z].
    - An exception is a value of [exn]; a call that may raise returns a
      [result].
    - Output on stdout, calls of [datetime.strptime] and calls of the
      fetch and XML collaborators are recorded, in order, in an event
      log.
    - The library functions the parser calls ([re], [datetime],
      [datetime.strptime], list slicing, [lxml] lookups) are modelled
      as CPython 3.11 and lxml define them, for the arguments the
      parser passes. *)

From Stdlib Require Import ZArith NArith Strings.String Strings.Ascii List Bool Lia.
From stdpp Require Import base option list gmap strings.

Import ListNotations.
Local Set Warnings "-register-all".
Local Open Scope string_scope.
Local Open Scope Z_scope.

(** ** Characters and strings as Python sees them *)

Module PyStr.

Definition code (c : ascii) : N := N_of_ascii c.

Definition between (lo hi : N) (c : ascii) : bool :=
  ((lo <=? code c) && (code c <=? hi))%N.

(** [str.isspace] on one character, which is also the class [\s] of
    [re] and what [str.strip] removes. *)
Definition isspace (c : ascii) : bool :=
  between 9 13 c || between 28 32 c || (code c =? 133)%N || (code c =? 160)%N.

(** The class [\d]: the decimal digits. *)
Definition isdecimal (c : ascii) : bool := between 48 57 c.

(** The class [\w]: alphanumeric characters and the underscore. *)
Definition isword (c : ascii) : bool :=
  isdecimal c || between 65 90 c || between 97 122 c || (code c =? 95)%N
  || (code c =? 170)%N || between 178 179 c || (code c =? 181)%N
  || between 185 186 c || between 188 190 c
  || between 192 214 c || between 216 246 c || between 248 255 c.

Definition isupper (c : ascii) : bool :=
  between 65 90 c || between 192 214 c || between 216 222 c.

Definition lower_char (c : ascii) : ascii :=
  if isupper c then ascii_of_N (code c + 32) else c.

Definition chars (s : string) : list ascii := list_ascii_of_string s.
Definition str (l : list ascii) : string := string_of_list_ascii l.

(** [str.lower] *)
Definition lower (s : string) : string := str (map lower_char (chars s)).

Fixpoint lstrip (l : list ascii) : list ascii :=
  match l with
  | c :: l' => if isspace c then lstrip l' else l
  | [] => []
  end.

(** [str.strip] *)
Definition strip (s : string) : string :=
  str (rev (lstrip (rev (lstrip (chars s))))).

Fixpoint is_prefix (p l : list ascii) : bool :=
  match p, l with
  | [], _ => true
  | a :: p', b :: l' => Ascii.eqb a b && is_prefix p' l'
  | _ :: _, [] => false
  end.

(** [str.startswith] *)
Definition startswith (s p : string) : bool := is_prefix (chars p) (chars s).

Fixpoint occurs (p l : list ascii) : bool :=
  is_prefix p l || match l with [] => false | _ :: l' => occurs p l' end.

(** [needle in haystack] on strings. *)
Definition contains (needle haystack : string) : bool :=
  occurs (chars needle) (chars haystack).

(** [s[n:]] for a non-negative literal [n]. *)
Definition drop_prefix (n : nat) (s : string) : string := str (drop n (chars s)).

Definition digit_val (c : ascii) : Z := Z.of_N (code c) - 48.

Definition digits_val (l : list ascii) : Z :=
  fold_left (fun acc c => 10 * acc + digit_val c) l 0.

(** [int(s)] for the strings reaching it here: decimal digits,
    possibly surrounded by blanks; anything else is a [ValueError],
    rendered as [None]. *)
Definition int (s : list ascii) : option Z :=
  match chars (strip (str s)) with
  | [] => None
  | ds => if forallb isdecimal ds then Some (digits_val ds) else None
  end.

End PyStr.

(** ** The fragment of [re] the parser relies on

    Patterns are syntax trees; matching is backtracking with the
    priorities of [re]: the left alternative first, repetitions greedy.
    [Sens r] is the scoped flag group [(?-i:r)]. *)

Module Re.

Inductive regex : Type :=
| Eps                                (* the empty pattern *)
| Chr (c : ascii)                    (* a literal character *)
| Cls (p : ascii -> bool)            (* a character class *)
| Cat (r1 r2 : regex)                (* r1 r2 *)
| Alt (r1 r2 : regex)                (* r1|r2 *)
| Plus (p : ascii -> bool)           (* [class]+ *)
| Grp (name : string) (r : regex)    (* a capturing group *)
| Sens (r : regex)                   (* (?-i:r) *)
| Eos.                               (* $ *)

(** The groups captured so far, the latest first. *)
Definition groups := list (string * list ascii).

(** [m.group(name)], [None] for a group that took no part. *)
Definition group (name : string) (g : groups) : option (list ascii) :=
  snd <$> List.find (fun p => String.eqb (fst p) name) g.

Definition orelse {R} (a b : option R) : option R :=
  match a with Some x => Some x | None => b end.

Section Matcher.
Context {R : Type}.

(** Greedy [p*]: the longest run first, then shorter ones. *)
Fixpoint star (p : ascii -> bool) (s : list ascii)
         (k : list ascii -> option R) : option R :=
  match s with
  | c :: s' => if p c then orelse (star p s' k) (k s) else k s
  | [] => k s
  end.

(** The text matched between the position [s] and the later position
    [s']. *)
Definition captured (s s' : list ascii) : list ascii :=
  take (length s - length s') s.

(** Equality of characters, up to case under [re.IGNORECASE]. *)
Definition chr_eq (icase : bool) (c d : ascii) : bool :=
  if icase then Ascii.eqb (PyStr.lower_char c) (PyStr.lower_char d)
  else Ascii.eqb c d.

(** Matching [r] at the head of [s]: [k] is what remains to be matched,
    given the text left and the groups; a failure of [k] makes the
    matcher try the next way of matching [r].  [$] matches at the end
    and before a final newline. *)
Fixpoint run (icase : bool) (r : regex) (s : list ascii) (g : groups)
         (k : list ascii -> groups -> option R) : option R :=
  match r with
  | Eps => k s g
  | Chr c =>
      match s with
      | d :: s' => if chr_eq icase c d then k s' g else None
      | [] => None
      end
  | Cls p =>
      match s with
      | d :: s' => if p d then k s' g else None
      | [] => None
      end
  | Cat r1 r2 => run icase r1 s g (fun s' g' => run icase r2 s' g' k)
  | Alt r1 r2 => orelse (run icase r1 s g k) (run icase r2 s g k)
  | Plus p =>
      match s with
      | d :: s' => if p d then star p s' (fun s'' => k s'' g) else None
      | [] => None
      end
  | Grp name r1 =>
      run icase r1 s g (fun s' g' => k s' ((name, captured s s') :: g'))
  | Sens r1 => run false r1 s g k
  | Eos =>
      match s with
      | [] => k s g
      | [c] => if Ascii.eqb c "010"%char then k s g else None
      | _ => None
      end
  end.
End Matcher.

(** [pattern.match(s)]: the groups and the text left after the match. *)
Definition rmatch (icase : bool) (r : regex) (s : list ascii)
  : option (groups * list ascii) :=
  run icase r s [] (fun s' g => Some (g, s')).

(** [re.search(pattern, s)]: the leftmost match. *)
Fixpoint search (r : regex) (s : list ascii) : option groups :=
  match rmatch false r s with
  | Some (g, _) => Some g
  | None => match s with [] => None | _ :: s' => search r s' end
  end.

(** [re.sub(pattern, repl, s)] for a pattern that never matches the
    empty string; [skip] counts the characters of the current match
    still to be dropped. *)
Fixpoint sub_from (r : regex) (repl : groups -> list ascii)
         (skip : nat) (s : list ascii) : list ascii :=
  match skip with
  | S n => match s with [] => [] | _ :: s' => sub_from r repl n s' end
  | O =>
      match rmatch false r s with
      | Some (g, rest) =>
          match s with
          | [] => repl g
          | _ :: s' =>
              (repl g ++ sub_from r repl (length s - length rest - 1) s')%list
          end
      | None =>
          match s with
          | [] => []
          | c :: s' => c :: sub_from r repl O s'
          end
      end
  end.

Definition sub (r : regex) (repl : groups -> list ascii) (s : list ascii)
  : list ascii := sub_from r repl O s.

(** Helpers to write patterns. *)
Definition seq (rs : list regex) : regex := fold_right Cat Eps rs.
Definition opt (r : regex) : regex := Alt r Eps.
Definition lit (s : string) : regex := seq (map Chr (PyStr.chars s)).
Definition range (lo hi : ascii) : ascii -> bool :=
  PyStr.between (PyStr.code lo) (PyStr.code hi).
Definition oneof (s : string) : ascii -> bool :=
  fun c => existsb (Ascii.eqb c) (PyStr.chars s).
Definition alts (rs : list regex) : regex :=
  match rs with
  | [] => Eps
  | r :: rs' => fold_left Alt rs' r
  end.

End Re.


(** ** Exceptions and results *)

(** The exception classes that occur; all derive from [Exception]. *)
Inductive exn_kind : Set :=
| ValueError | TypeError | AttributeError | KeyError
| OSError | RequestException | XMLSyntaxError.

Record exn : Set := Exn { kind : exn_kind; message : string }.

Inductive result (A : Type) : Type :=
| Ok (a : A)
| Raise (e : exn).

Arguments Ok {A} a.
Arguments Raise {A} e.

(** [isinstance(e, k)] *)
Definition is_kind (k : exn_kind) (e : exn) : bool :=
  match k, kind e with
  | ValueError, ValueError | TypeError, TypeError
  | AttributeError, AttributeError | KeyError, KeyError
  | OSError, OSError | RequestException, RequestException
  | XMLSyntaxError, XMLSyntaxError => true
  | _, _ => false
  end.

Definition bind_result {A B} (r : result A) (f : A -> result B) : result B :=
  match r with
  | Ok a => f a
  | Raise e => Raise e
  end.

Notation "x <-? r ; k" := (bind_result r (fun x => k))
  (at level 100, r at next level, right associativity).

(** ** [datetime]: construction, time zones, comparison

    The messages of the library's [ValueError]s are abbreviated: every
    handler in the parser discards them. *)

Module Datetime.

(** A [tzinfo] is a fixed-offset [timezone]; its offset is kept in
    microseconds. *)
Record datetime : Set := mk {
  year : Z; month : Z; day : Z;
  hour : Z; minute : Z; second : Z; microsecond : Z;
  tzinfo : option Z
}.

(** [timezone.utc] *)
Definition utc : Z := 0.

(** The calendar arithmetic of the [datetime] module. *)
Definition is_leap (y : Z) : bool :=
  ((y mod 4 =? 0) && (negb (y mod 100 =? 0) || (y mod 400 =? 0)))%Z.

Definition days_in_month (y m : Z) : Z :=
  if (m =? 2)%Z then (if is_leap y then 29 else 28)
  else if ((m =? 4) || (m =? 6) || (m =? 9) || (m =? 11))%Z then 30
  else 31.

Definition days_before_year (y : Z) : Z :=
  let p := y - 1 in p * 365 + p / 4 - p / 100 + p / 400.

Fixpoint days_before_month_nat (y : Z) (m : nat) : Z :=
  match m with
  | O => 0
  | S k => days_before_month_nat y k + days_in_month y (Z.of_nat (S k))
  end.

Definition days_before_month (y m : Z) : Z :=
  days_before_month_nat y (Z.to_nat (m - 1)).

(** [date.toordinal]: 1 for 0001-01-01. *)
Definition ymd2ord (y m d : Z) : Z :=
  days_before_year y + days_before_month y m + d.

Definition value_error {A} (msg : string) : result A := Raise (Exn ValueError msg).

(** The field checks of [date(year, month, day)]. *)
Definition check_date_fields (y m d : Z) : result unit :=
  if negb ((1 <=? y) && (y <=? 9999)) then value_error "year is out of range"
  else if negb ((1 <=? m) && (m <=? 12)) then value_error "month must be in 1..12"
  else if negb ((1 <=? d) && (d <=? days_in_month y m))
       then value_error "day is out of range for month"
  else Ok tt.

Definition check_time_fields (h mi s us : Z) : result unit :=
  if negb ((0 <=? h) && (h <=? 23)) then value_error "hour must be in 0..23"
  else if negb ((0 <=? mi) && (mi <=? 59)) then value_error "minute must be in 0..59"
  else if negb ((0 <=? s) && (s <=? 59)) then value_error "second must be in 0..59"
  else if negb ((0 <=? us) && (us <=? 999999))
       then value_error "microsecond must be in 0..999999"
  else Ok tt.

(** [datetime(year, month, day, hour, minute, second, microsecond, tzinfo)] *)
Definition make (y m d h mi s us : Z) (tz : option Z) : result datetime :=
  _ <-? check_date_fields y m d;
  _ <-? check_time_fields h mi s us;
  Ok (mk y m d h mi s us tz).

Definition day_us : Z := 86400 * 1000000.

(** [timezone(timedelta(microseconds=off))]: the offset must lie
    strictly between minus and plus one day. *)
Definition timezone (off : Z) : result Z :=
  if (- day_us <? off) && (off <? day_us) then Ok off
  else value_error "offset must be strictly between -24h and 24h".

(** [dt.replace(tzinfo=tz)] *)
Definition replace_tzinfo (dt : datetime) (tz : option Z) : datetime :=
  mk (year dt) (month dt) (day dt) (hour dt) (minute dt) (second dt)
     (microsecond dt) tz.

(** The wall-clock fields as microseconds since ordinal 0. *)
Definition naive_us (dt : datetime) : Z :=
  ((ymd2ord (year dt) (month dt) (day dt) * 86400
    + hour dt * 3600 + minute dt * 60 + second dt) * 1000000)
  + microsecond dt.

(** The point in time of an aware value, on the UTC scale. *)
Definition instant_us (dt : datetime) : Z :=
  naive_us dt - default 0 (tzinfo dt).

(** [a < b] and [a > b]: two naive values compare by their fields, two
    aware values by their points in time, a naive and an aware value
    cannot be ordered. *)
Definition cmp (a b : datetime) : result comparison :=
  match tzinfo a, tzinfo b with
  | None, None => Ok (naive_us a ?= naive_us b)
  | Some _, Some _ => Ok (instant_us a ?= instant_us b)
  | _, _ => Raise (Exn TypeError "can't compare offset-naive and offset-aware datetimes")
  end.

(** [a < b] *)
Definition lt (a b : datetime) : result bool :=
  c <-? cmp a b; Ok (match c with Lt => true | _ => false end).

(** [a > b] *)
Definition gt (a b : datetime) : result bool :=
  c <-? cmp a b; Ok (match c with Gt => true | _ => false end).

End Datetime.


(** ** [datetime.strptime]

    The directive table, the translation of a format into a pattern and
    the conversion of the matched groups follow CPython's
    [Lib/_strptime.py] for the directives the parser's layouts use, in
    the C locale.  The names [%Z] accepts depend on the process's local
    time zone, which is a parameter. *)

Module Strptime.

Import Re.

(** [time.tzname] and [time.daylight] of the process. *)
Record local_zone : Set := LocalZone {
  tzname_std : string;
  tzname_dst : string;
  daylight : bool
}.

(** [LocaleTime.a_weekday] and [LocaleTime.a_month] (without its empty
    first entry) in the C locale. *)
Definition a_weekday : list string :=
  ["mon"; "tue"; "wed"; "thu"; "fri"; "sat"; "sun"].

Definition a_month : list string :=
  ["jan"; "feb"; "mar"; "apr"; "may"; "jun";
   "jul"; "aug"; "sep"; "oct"; "nov"; "dec"].

(** [LocaleTime.timezone], flattened. *)
Definition zone_names (lz : local_zone) : list string :=
  (["utc"; "gmt"; PyStr.lower (tzname_std lz)]
   ++ (if daylight lz then [PyStr.lower (tzname_dst lz)] else []))%list.

(** [sorted(names, key=len, reverse=True)], stable. *)
Fixpoint insert_by_len (x : string) (l : list string) : list string :=
  match l with
  | [] => [x]
  | y :: l' =>
      if (String.length y <=? String.length x)%nat then x :: l
      else y :: insert_by_len x l'
  end.

Definition sort_by_len (l : list string) : list string :=
  fold_right insert_by_len [] l.

(** [TimeRE.__seqToRE] *)
Definition seqToRE (names : list string) (directive : string) : regex :=
  let sorted := sort_by_len names in
  if forallb (String.eqb "") sorted then Eps
  else Grp directive (alts (map lit sorted)).

(** [\d] and [[lo-hi]] *)
Definition d : regex := Cls PyStr.isdecimal.
Definition cr (lo hi : ascii) : regex := Cls (range lo hi).

(** The patterns of the directives. *)
Definition re_d : regex :=
  Grp "d" (alts [Cat (Chr "3") (cr "0" "1"); Cat (cr "1" "2") d;
                 Cat (Chr "0") (cr "1" "9"); cr "1" "9";
                 Cat (Chr " ") (cr "1" "9")]).

Definition re_H : regex :=
  Grp "H" (alts [Cat (Chr "2") (cr "0" "3"); Cat (cr "0" "1") d; d]).

Definition re_m : regex :=
  Grp "m" (alts [Cat (Chr "1") (cr "0" "2"); Cat (Chr "0") (cr "1" "9");
                 cr "1" "9"]).

Definition re_M : regex := Grp "M" (alts [Cat (cr "0" "5") d; d]).

Definition re_S : regex :=
  Grp "S" (alts [Cat (Chr "6") (cr "0" "1"); Cat (cr "0" "5") d; d]).

Definition re_Y : regex := Grp "Y" (seq [d; d; d; d]).

Definition re_z : regex :=
  Grp "z"
    (Alt (seq [Cls (oneof "+-"); d; d; opt (Chr ":"); cr "0" "5"; d;
               opt (seq [opt (Chr ":"); cr "0" "5"; d;
                         opt (seq [Chr "."; d; opt d; opt d; opt d; opt d;
                                   opt d])])])
         (Sens (Chr "Z"))).

Definition re_a : regex := seqToRE a_weekday "a".

Definition re_b : regex := seqToRE a_month "b".

Definition re_Z (lz : local_zone) : regex := seqToRE (zone_names lz) "Z".

(** The pattern of one directive; [None] for a directive outside the
    table. *)
Definition directive (lz : local_zone) (c : ascii) : option regex :=
  if Ascii.eqb c "d" then Some re_d
  else if Ascii.eqb c "H" then Some re_H
  else if Ascii.eqb c "m" then Some re_m
  else if Ascii.eqb c "M" then Some re_M
  else if Ascii.eqb c "S" then Some re_S
  else if Ascii.eqb c "Y" then Some re_Y
  else if Ascii.eqb c "z" then Some re_z
  else if Ascii.eqb c "a" then Some re_a
  else if Ascii.eqb c "b" then Some re_b
  else if Ascii.eqb c "Z" then Some (re_Z lz)
  else None.

(** [TimeRE.pattern]: a run of blanks in the format stands for [\s+],
    [%x] for the pattern of the directive [x], any other character for
    itself.  [in_ws] tells that the previous character was a blank. *)
Fixpoint pattern (lz : local_zone) (in_ws : bool) (fmt : list ascii)
  : result regex :=
  match fmt with
  | [] => Ok Eps
  | c :: rest =>
      if Ascii.eqb c "%" then
        match rest with
        | [] => Raise (Exn ValueError "stray % in format")
        | x :: rest' =>
            match directive lz x with
            | None => Raise (Exn ValueError "bad directive in format")
            | Some r => p <-? pattern lz false rest'; Ok (Cat r p)
            end
        end
      else if PyStr.isspace c then
        p <-? pattern lz true rest;
        Ok (if in_ws then p else Cat (Plus PyStr.isspace) p)
      else
        p <-? pattern lz false rest; Ok (Cat (Chr c) p)
  end.

(** [l.index(x)] *)
Definition index_of (x : string) (l : list string) : option nat :=
  fst <$> list_find (fun y => String.eqb y x) l.

(** [l[a:b]] for literal bounds *)
Definition slice (a b : nat) (l : list ascii) : list ascii :=
  take (b - a) (drop a l).

Definition int_or_error (s : list ascii) : result Z :=
  match PyStr.int s with
  | Some n => Ok n
  | None => Raise (Exn ValueError "invalid literal for int() with base 10")
  end.

Definition int_group (name : string) (dflt : Z) (g : groups) : result Z :=
  match group name g with
  | Some s => int_or_error s
  | None => Ok dflt
  end.

Definition pad_right (n : nat) (s : list ascii) : list ascii :=
  (s ++ repeat "0"%char (n - length s))%list.

(** The conversion of a matched [%z]: the offset in microseconds. *)
Definition gmtoff_of (z0 : list ascii) : result Z :=
  if String.eqb (PyStr.str z0) "Z" then Ok 0
  else
    z <-? (if String.eqb (PyStr.str (slice 3 4 z0)) ":" then
             let z1 := (take 3 z0 ++ drop 4 z0)%list in
             if (5 <? length z1)%nat then
               if negb (String.eqb (PyStr.str (slice 5 6 z1)) ":")
               then Raise (Exn ValueError "Inconsistent use of : in offset")
               else Ok (take 5 z1 ++ drop 6 z1)%list
             else Ok z1
           else Ok z0);
    hours <-? int_or_error (slice 1 3 z);
    minutes <-? int_or_error (slice 3 5 z);
    seconds <-? (match slice 5 7 z with [] => Ok 0 | s => int_or_error s end);
    fraction <-? int_or_error (pad_right 6 (drop 8 z));
    let off := (hours * 3600 + minutes * 60 + seconds) * 1000000 + fraction in
    Ok (if PyStr.is_prefix ["-"%char] z then - off else off).

(** The month: from [%b] through the table of names, else from [%m]. *)
Definition month_of (g : groups) : result Z :=
  match group "b" g with
  | Some s =>
      match index_of (PyStr.lower (PyStr.str s)) a_month with
      | Some i => Ok (Z.of_nat i + 1)
      | None => Raise (Exn ValueError "not in list")
      end
  | None => int_group "m" 1 g
  end.

(** [datetime.strptime(data_string, format)].  The weekday and the zone
    name are matched but do not reach the value; a year is present in
    every layout of the parser, 1900 is the library's default. *)
Definition strptime (lz : local_zone) (data_string format : string)
  : result Datetime.datetime :=
  re <-? pattern lz false (PyStr.chars format);
  match rmatch true re (PyStr.chars data_string) with
  | None => Raise (Exn ValueError "time data does not match format")
  | Some (g, _ :: _) => Raise (Exn ValueError "unconverted data remains")
  | Some (g, []) =>
      year <-? int_group "Y" 1900 g;
      month <-? month_of g;
      day <-? int_group "d" 1 g;
      hour <-? int_group "H" 0 g;
      minute <-? int_group "M" 0 g;
      second <-? int_group "S" 0 g;
      gmtoff <-? (match group "z" g with
                  | Some z => off <-? gmtoff_of z; Ok (Some off)
                  | None => Ok None
                  end);
      _ <-? Datetime.check_date_fields year month day;
      tz <-? (match gmtoff with
              | Some off => t <-? Datetime.timezone off; Ok (Some t)
              | None => Ok None
              end);
      Datetime.make year month day hour minute second 0 tz
  end.

End Strptime.


(** ** XML trees as [lxml.etree] presents them

    A namespaced tag is in Clark notation, [{uri}local].  [text] is
    [None] for an element without text.  Comments and processing
    instructions carry no tag a lookup could match and are left out. *)

Module Etree.

Inductive Element : Type :=
  mkElement (tag : string) (attrib : list (string * string))
            (text : option string) (children : list Element).

Definition tag (e : Element) : string :=
  match e with mkElement t _ _ _ => t end.
Definition attrib (e : Element) : list (string * string) :=
  match e with mkElement _ a _ _ => a end.
Definition text (e : Element) : option string :=
  match e with mkElement _ _ x _ => x end.
Definition children (e : Element) : list Element :=
  match e with mkElement _ _ _ c => c end.

(** The element and everything below it, in document order. *)
Fixpoint iter (e : Element) : list Element :=
  match e with
  | mkElement _ _ _ cs => e :: concat (map iter cs)
  end.

Definition descendants (e : Element) : list Element :=
  concat (map iter (children e)).

Definition has_tag (name : string) (e : Element) : bool :=
  String.eqb (tag e) name.

(** [e.find(name)] and [e.findall(name)]: direct children. *)
Definition find (name : string) (e : Element) : option Element :=
  List.find (has_tag name) (children e).
Definition findall (name : string) (e : Element) : list Element :=
  List.filter (has_tag name) (children e).

(** [e.find('.//' + name)] and [e.findall('.//' + name)]: descendants
    at any depth. *)
Definition find_deep (name : string) (e : Element) : option Element :=
  List.find (has_tag name) (descendants e).
Definition findall_deep (name : string) (e : Element) : list Element :=
  List.filter (has_tag name) (descendants e).

(** [root.xpath('//' + name)]: every element of the document with that
    name, the root included. *)
Definition xpath_all (name : string) (root : Element) : list Element :=
  List.filter (has_tag name) (iter root).

Fixpoint assoc (k : string) (l : list (string * string)) : option string :=
  match l with
  | [] => None
  | (k', v) :: l' => if String.eqb k' k then Some v else assoc k l'
  end.

(** [e.get(key)] and [e.get(key, default)] *)
Definition get (e : Element) (key : string) : option string :=
  assoc key (attrib e).
Definition get_default (e : Element) (key dflt : string) : string :=
  default dflt (get e key).

End Etree.

(** ** Python values held by an episode record *)

Inductive pyval : Type :=
| PyNone
| PyInt (n : Z)
| PyStr (s : string)
| PyList (l : list pyval)
| PyDict (d : list (string * pyval)).

Definition of_opt_str (o : option string) : pyval :=
  match o with
  | Some s => PyStr s
  | None => PyNone
  end.

(** Truth value of a Python object. *)
Definition truthy (v : pyval) : bool :=
  match v with
  | PyNone => false
  | PyInt n => negb (n =? 0)
  | PyStr s => negb (String.eqb s "")
  | PyList l => match l with [] => false | _ => true end
  | PyDict d => match d with [] => false | _ => true end
  end.

(** [type(v).__name__] *)
Definition type_name (v : pyval) : string :=
  match v with
  | PyNone => "NoneType"
  | PyInt _ => "int"
  | PyStr _ => "str"
  | PyList _ => "list"
  | PyDict _ => "dict"
  end.

(** The [AttributeError] of a method call on a value without that
    method. *)
Definition no_attribute (v : pyval) (name : string) : exn :=
  Exn AttributeError
      ("'" ++ type_name v ++ "' object has no attribute '" ++ name ++ "'").

(** [a or b] *)
Definition py_or (a b : pyval) : pyval := if truthy a then a else b.

(** A [dict] with string keys, in insertion order. *)
Module Dict.

Definition t := list (string * pyval).

Fixpoint get (k : string) (d : t) : option pyval :=
  match d with
  | [] => None
  | (k', v) :: d' => if String.eqb k' k then Some v else get k d'
  end.

(** [d[k] = v] *)
Fixpoint set (k : string) (v : pyval) (d : t) : t :=
  match d with
  | [] => [(k, v)]
  | (k', v') :: d' =>
      if String.eqb k' k then (k, v) :: d' else (k', v') :: set k v d'
  end.

(** [d.get(k)]: [None] for a missing key. *)
Definition get_or_none (k : string) (d : t) : pyval := default PyNone (get k d).

(** [d.get(k, dflt)] *)
Definition get_default (k : string) (dflt : pyval) (d : t) : pyval :=
  default dflt (get k d).

(** [d[k].append(v)] on a key holding a list. *)
Definition append (k : string) (v : pyval) (d : t) : t :=
  match get k d with
  | Some (PyList l) => set k (PyList (l ++ [v])%list) d
  | _ => d
  end.

Definition keys (d : t) : list string := map fst d.

End Dict.


(** ** Effects: the event log, the collaborators, the parser's state *)

Inductive event : Type :=
| EvStrptime (data_string format : string)
| EvPrint (line : string)
| EvOpen (path : string)
| EvGet (url : string)
| EvFromstring (content : string).

(** The collaborators.  A read or a download is asked at a point of the
    run, given by the number of events logged before it, so the same
    locator may answer differently later on. *)
Record World : Type := {
  open_read : nat -> string -> result string;
  requests_get : nat -> string -> result string;
  fromstring : string -> result Etree.Element
}.

(** What a [PodcastRSSParser] changes while it runs: its cache and the
    event log. *)
Record state : Type := State {
  _cached_feeds : gmap string Etree.Element;
  log : list event
}.

(** Code that only writes to the log: the events and the outcome. *)
Definition Out (A : Type) : Type := list event * result A.

(** [return a], [raise e] and sequencing, the logs appended. *)
Definition out_ret {A} (a : A) : Out A := ([], Ok a).

Definition out_raise {A} (e : exn) : Out A := ([], Raise e).

Definition out_bind {A B} (m : Out A) (f : A -> Out B) : Out B :=
  match m with
  | (evs, Ok a) => let '(evs', r) := f a in ((evs ++ evs')%list, r)
  | (evs, Raise e) => (evs, Raise e)
  end.

Notation "x <~ m ;; k" := (out_bind m (fun x => k))
  (at level 100, m at next level, right associativity).

Definition emit (ev : event) : Out unit := ([ev], Ok tt).

Definition print (line : string) : Out unit := emit (EvPrint line).

Definition out_lift {A} (r : result A) : Out A := ([], r).

(** [try: body except kinds: handler] *)
Definition out_try {A} (body : Out A) (catches : exn -> bool)
           (handler : exn -> Out A) : Out A :=
  match body with
  | (evs, Ok a) => (evs, Ok a)
  | (evs, Raise e) =>
      if catches e then let '(evs', r) := handler e in ((evs ++ evs')%list, r)
      else (evs, Raise e)
  end.

(** Code that also reads and updates the parser's state. *)
Definition M (A : Type) : Type := state -> result A * state.

(** [return a], [raise e] and sequencing. *)
Definition ret {A} (a : A) : M A := fun st => (Ok a, st).

Definition raise {A} (e : exn) : M A := fun st => (Raise e, st).

Definition bind {A B} (m : M A) (f : A -> M B) : M B :=
  fun st =>
    match m st with
    | (Ok a, st') => f a st'
    | (Raise e, st') => (Raise e, st')
    end.

Notation "x <- m ;; k" := (bind m (fun x => k))
  (at level 100, m at next level, right associativity).

Definition lift {A} (r : result A) : M A := fun st => (r, st).

(** Running log-only code inside stateful code. *)
Definition logging {A} (m : Out A) : M A :=
  fun st => (snd m, State (_cached_feeds st) (log st ++ fst m)%list).

(** [try: body except kinds: handler] *)
Definition try_except {A} (body : M A) (catches : exn -> bool)
           (handler : exn -> M A) : M A :=
  fun st =>
    match body st with
    | (Ok a, st') => (Ok a, st')
    | (Raise e, st') => if catches e then handler e st' else (Raise e, st')
    end.

(** [self._cached_feeds[k] = v] *)
Definition cache_store (k : string) (v : Etree.Element) : M unit :=
  fun st => (Ok tt, State (<[k := v]> (_cached_feeds st)) (log st)).


(** ** [class PodcastRSSParser] *)

Module PodcastRSSParser.

Import Re.
Import Datetime(datetime).

Definition NS_PODCAST : string := "{https://podcastindex.org/namespace/1.0}".
Definition NS_ITUNES : string := "{http://www.itunes.com/dtds/podcast-1.0.dtd}".

(** The layouts of [_parse_date], in the order they are tried. *)
Definition formats : list string :=
  [ "%a, %d %b %Y %H:%M:%S %z";
    "%a, %d %b %Y %H:%M:%S %Z";
    "%a, %d %b %Y %H:%M:%S";
    "%Y-%m-%dT%H:%M:%S%z";
    "%Y-%m-%dT%H:%M:%SZ";
    "%Y-%m-%dT%H:%M:%S";
    "%Y-%m-%d %H:%M:%S";
    "%Y-%m-%d";
    "%d %b %Y %H:%M:%S %z";
    "%d %b %Y" ].

(** [\d] and [[+-]] *)
Definition digit : regex := Cls PyStr.isdecimal.
Definition sign : regex := Cls (oneof "+-").

(** [[+-]\d{4}$] *)
Definition offset_tail : regex := seq [sign; digit; digit; digit; digit; Eos].

(** [([+-]\d{2})(\d{2})$] and its replacement [\1:\2] *)
Definition offset_split : regex :=
  seq [Grp "1" (seq [sign; digit; digit]); Grp "2" (seq [digit; digit]); Eos].

Definition offset_with_colon (g : groups) : list ascii :=
  (default [] (group "1" g) ++ ":"%char :: default [] (group "2" g))%list.

(** [(\d{1,2})\s+(\w{3})\s+(\d{4})] *)
Definition day_month_year : regex :=
  seq [Grp "1" (Cat digit (opt digit)); Plus PyStr.isspace;
       Grp "2" (seq [Cls PyStr.isword; Cls PyStr.isword; Cls PyStr.isword]);
       Plus PyStr.isspace;
       Grp "3" (seq [digit; digit; digit; digit])].

Definition month_map : list (string * Z) :=
  [("Jan", 1); ("Feb", 2); ("Mar", 3); ("Apr", 4); ("May", 5); ("Jun", 6);
   ("Jul", 7); ("Aug", 8); ("Sep", 9); ("Oct", 10); ("Nov", 11); ("Dec", 12)].

Definition month_lookup (m : string) : option Z :=
  snd <$> List.find (fun p => String.eqb (fst p) m) month_map.

Section Parser.

Context (lz : Strptime.local_zone) (W : World) (feeds : list (string * string)).

(** The loop over [formats]: the first layout that parses wins, a
    [ValueError] moves on to the next one. *)
Fixpoint try_formats (date_string : string) (fmts : list string)
  : Out (option datetime) :=
  match fmts with
  | [] => out_ret None
  | fmt :: rest =>
      out_try
        (_ <~ emit (EvStrptime date_string fmt) ;;
         dt <~ out_lift (Strptime.strptime lz date_string fmt) ;;
         out_ret (Some dt))
        (is_kind ValueError)
        (fun _ => try_formats date_string rest)
  end.

(** The last resort: a day, a month abbreviation and a year anywhere
    in the string. *)
Definition extract_date_part (date_string : string) : Out (option datetime) :=
  match search day_month_year (PyStr.chars date_string) with
  | None => out_ret None
  | Some g =>
      out_try
        (match group "1" g, group "2" g, group "3" g with
         | Some day, Some month, Some year =>
             match month_lookup (PyStr.str month) with
             | Some m =>
                 y <~ out_lift (Strptime.int_or_error year) ;;
                 dd <~ out_lift (Strptime.int_or_error day) ;;
                 dt <~ out_lift (Datetime.make y m dd 0 0 0 0 None) ;;
                 out_ret (Some dt)
             | None => out_ret None
             end
         | _, _, _ => out_ret None
         end)
        (fun e => is_kind ValueError e || is_kind KeyError e)
        (fun _ => out_ret None)
  end.

Definition _parse_date (date_string : string) : Out (option datetime) :=
  if String.eqb date_string "" then out_ret None
  else
    let date_string := PyStr.strip date_string in
    let date_string :=
      match search offset_tail (PyStr.chars date_string) with
      | Some _ =>
          PyStr.str (sub offset_split offset_with_colon (PyStr.chars date_string))
      | None => date_string
      end in
    parsed_dt <~ try_formats date_string formats ;;
    parsed_dt <~ match parsed_dt with
                 | None => extract_date_part date_string
                 | Some _ => out_ret parsed_dt
                 end ;;
    match parsed_dt with
    | None =>
        _ <~ print ("Warning: Could not parse date: " ++ date_string) ;;
        out_ret None
    | Some dt =>
        out_ret (Some (match Datetime.tzinfo dt with
                       | None => Datetime.replace_tzinfo dt (Some Datetime.utc)
                       | Some _ => dt
                       end))
    end.

(** The same call on a value taken from a record: a falsy value is
    answered at once, a truthy one that is not a string has no
    [strip]. *)
Definition _parse_date_of (v : pyval) : Out (option datetime) :=
  match v with
  | PyStr s => _parse_date s
  | _ => if truthy v then out_raise (no_attribute v "strip") else out_ret None
  end.

(** [open(path, 'rb').read()] *)
Definition read_file (file_path : string) : M string :=
  fun st =>
    (open_read W (length (log st)) file_path,
     State (_cached_feeds st) (log st ++ [EvOpen file_path])%list).

(** [requests.get(url, timeout=30)], [raise_for_status()] and the body
    of the response. *)
Definition http_get (url : string) : M string :=
  fun st =>
    (requests_get W (length (log st)) url,
     State (_cached_feeds st) (log st ++ [EvGet url])%list).

(** The body of the [try] in [_get_feed]. *)
Definition fetch_feed (feed_url : string) : M Etree.Element :=
  content <- (if PyStr.startswith feed_url "file://" then
                let file_path := PyStr.drop_prefix 7 feed_url in
                read_file file_path
              else http_get feed_url) ;;
  _ <- logging (emit (EvFromstring content)) ;;
  lift (fromstring W content).

Definition _get_feed (show_name : string) : M (option Etree.Element) :=
  match Etree.assoc show_name feeds with
  | None => ret None
  | Some feed_url =>
      fun st =>
        match _cached_feeds st !! show_name with
        | Some root => (Ok (Some root), st)
        | None =>
            try_except
              (root <- fetch_feed feed_url ;;
               _ <- cache_store show_name root ;;
               ret (Some root))
              (fun _ => true)
              (fun e =>
                 _ <- logging (print ("Error parsing feed for " ++ show_name
                                      ++ ": " ++ message e)) ;;
                 ret None)
              st
        end
  end.

Definition get_shows : list string := map fst feeds.

(** *** [_parse_episode] *)

Definition get_text (element : option Etree.Element) : pyval :=
  match element with
  | Some e => of_opt_str (Etree.text e)
  | None => PyStr ""
  end.

Definition get_cdata_content (element : option Etree.Element) : pyval :=
  match element with
  | Some e =>
      match Etree.text e with
      | Some t => if truthy (PyStr t) then PyStr (PyStr.strip t) else PyStr ""
      | None => PyStr ""
      end
  | None => PyStr ""
  end.

Definition enclosure_entry (enclosure : Etree.Element) : pyval :=
  PyDict [("url", PyStr (Etree.get_default enclosure "url" ""));
          ("type", PyStr (Etree.get_default enclosure "type" ""));
          ("length", PyStr (Etree.get_default enclosure "length" "0"))].

Definition add_enclosure (episode_data : Dict.t) (enclosure : Etree.Element)
  : Dict.t :=
  Dict.append "enclosures" (enclosure_entry enclosure) episode_data.

Definition add_person (episode_data : Dict.t) (person : Etree.Element)
  : Dict.t :=
  let role := Etree.get_default person "role" "" in
  if String.eqb role "host" then
    match Etree.text person with
    | Some person_name =>
        if truthy (PyStr person_name)
        then Dict.append "hosts" (PyStr (PyStr.strip person_name)) episode_data
        else episode_data
    | None => episode_data
    end
  else episode_data.

Definition add_transcript (episode_data : Dict.t) (transcript : Etree.Element)
  : Dict.t :=
  let transcript_url := Etree.get transcript "url" in
  let transcript_type := Etree.get_default transcript "type" "" in
  if truthy (of_opt_str transcript_url) then
    Dict.append "transcript_urls"
      (PyDict [("url", of_opt_str transcript_url);
               ("type", PyStr transcript_type);
               ("language",
                PyStr (Etree.get_default transcript "language" "en-us"))])
      episode_data
  else episode_data.

Definition first_transcript_url (episode_data : Dict.t) : pyval :=
  match Dict.get_or_none "transcript_urls" episode_data with
  | PyList (PyDict t :: _) => Dict.get_or_none "url" t
  | _ => PyNone
  end.

Definition _parse_episode (show_name : string) (item : Etree.Element) : Dict.t :=
  let title_elem := Etree.find "title" item in
  let guid_elem := Etree.find "guid" item in
  let link_elem := Etree.find "link" item in
  let pubdate_elem := Etree.find "pubDate" item in
  let description_elem := Etree.find "description" item in
  let duration_elem := Etree.find_deep (NS_ITUNES ++ "duration") item in
  let episode_num_elem := Etree.find_deep (NS_PODCAST ++ "episode") item in
  let episode_data : Dict.t :=
    [("show_name", PyStr show_name);
     ("id", py_or (get_text guid_elem) (get_text episode_num_elem));
     ("episode_number", get_text episode_num_elem);
     ("title", get_text title_elem);
     ("description", get_cdata_content description_elem);
     ("published_date", get_text pubdate_elem);
     ("link", get_text link_elem);
     ("duration", get_text duration_elem);
     ("hosts", PyList []);
     ("transcript_urls", PyList []);
     ("enclosures", PyList []);
     ("chapters_url", PyNone)] in
  let episode_data :=
    fold_left add_enclosure (Etree.findall "enclosure" item) episode_data in
  let episode_data :=
    fold_left add_person
              (Etree.findall_deep (NS_PODCAST ++ "person") item) episode_data in
  let episode_data :=
    fold_left add_transcript
              (Etree.findall_deep (NS_PODCAST ++ "transcript") item) episode_data in
  let episode_data :=
    Dict.set "transcript_url"
             (if truthy (Dict.get_or_none "transcript_urls" episode_data)
              then first_transcript_url episode_data
              else PyNone)
             episode_data in
  match Etree.find_deep (NS_PODCAST ++ "chapters") item with
  | Some chapters_elem =>
      Dict.set "chapters_url" (of_opt_str (Etree.get chapters_elem "url"))
               episode_data
  | None => episode_data
  end.

(** *** [search_episodes] *)

Definition of_opt_list (o : option (list string)) : pyval :=
  match o with
  | Some l => PyList (map PyStr l)
  | None => PyNone
  end.

(** [v.lower()] *)
Definition lower_of (v : pyval) : result string :=
  match v with
  | PyStr s => Ok (PyStr.lower s)
  | _ => Raise (no_attribute v "lower")
  end.

Fixpoint lower_all (l : list pyval) : result (list string) :=
  match l with
  | [] => Ok []
  | v :: l' => s <-? lower_of v; r <-? lower_all l'; Ok (s :: r)
  end.

(** [[h.lower() for h in v]] *)
Definition lowered (v : pyval) : result (list string) :=
  match v with
  | PyList l => lower_all l
  | PyStr s => Ok (map (fun c => PyStr.lower (String c "")) (PyStr.chars s))
  | PyDict d => Ok (map (fun kv => PyStr.lower (fst kv)) d)
  | _ => Raise (Exn TypeError ("'" ++ type_name v ++ "' object is not iterable"))
  end.

(** [any(host.lower() in [h.lower() for h in episode_hosts]
         for host in hosts)] *)
Fixpoint any_host (hosts : list string) (episode_hosts : pyval) : result bool :=
  match hosts with
  | [] => Ok false
  | host :: rest =>
      names <-? lowered episode_hosts;
      if existsb (String.eqb (PyStr.lower host)) names then Ok true
      else any_host rest episode_hosts
  end.

(** One date test of the loop body: [true] when the record is to be
    skipped.  [beyond] is [<] for [since_dt] and [>] for [before_dt]. *)
Definition date_skips (bound : option datetime)
           (beyond : datetime -> datetime -> result bool)
           (episode_data : Dict.t) : Out bool :=
  match bound with
  | Some bound_dt =>
      if truthy (Dict.get_or_none "published_date" episode_data) then
        episode_dt <~
          _parse_date_of (Dict.get_or_none "published_date" episode_data) ;;
        match episode_dt with
        | Some dt => out_lift (beyond dt bound_dt)
        | None => out_ret false
        end
      else out_ret false
  | None => out_ret false
  end.

Definition hosts_skip (hosts : option (list string)) (episode_data : Dict.t)
  : Out bool :=
  if truthy (of_opt_list hosts) then
    let episode_hosts := Dict.get_default "hosts" (PyList []) episode_data in
    found <~ out_lift (any_host (default [] hosts) episode_hosts) ;;
    out_ret (negb found)
  else out_ret false.

Definition text_skips (text_search : option string) (episode_data : Dict.t)
  : Out bool :=
  if truthy (of_opt_str text_search) then
    let search_text := PyStr.lower (default "" text_search) in
    title <~
      out_lift (lower_of (Dict.get_default "title" (PyStr "") episode_data)) ;;
    description <~
      out_lift (lower_of (Dict.get_default "description" (PyStr "")
                                           episode_data)) ;;
    out_ret (negb (PyStr.contains search_text title)
             && negb (PyStr.contains search_text description))
  else out_ret false.

(** The filters of the loop body, in order; [true] stands for
    [continue]. *)
Definition skips (since_dt before_dt : option datetime)
           (hosts : option (list string)) (text_search : option string)
           (episode_data : Dict.t) : Out bool :=
  s1 <~ date_skips since_dt Datetime.lt episode_data ;;
  if s1 then out_ret true else
  s2 <~ date_skips before_dt Datetime.gt episode_data ;;
  if s2 then out_ret true else
  s3 <~ hosts_skip hosts episode_data ;;
  if s3 then out_ret true else
  text_skips text_search episode_data.

Fixpoint items_loop (since_dt before_dt : option datetime)
         (hosts : option (list string)) (text_search : option string)
         (show : string) (items : list Etree.Element) (results : list Dict.t)
  : M (list Dict.t) :=
  match items with
  | [] => ret results
  | item :: rest =>
      let episode_data := _parse_episode show item in
      skip <- logging (skips since_dt before_dt hosts text_search
                             episode_data) ;;
      items_loop since_dt before_dt hosts text_search show rest
                 (if skip then results else (results ++ [episode_data])%list)
  end.

Fixpoint shows_loop (since_dt before_dt : option datetime)
         (hosts : option (list string)) (text_search : option string)
         (shows_to_search : list string) (results : list Dict.t)
  : M (list Dict.t) :=
  match shows_to_search with
  | [] => ret results
  | show :: rest =>
      feed_root <- _get_feed show ;;
      match feed_root with
      | None => shows_loop since_dt before_dt hosts text_search rest results
      | Some root =>
          results' <- items_loop since_dt before_dt hosts text_search show
                                 (Etree.xpath_all "item" root) results ;;
          shows_loop since_dt before_dt hosts text_search rest results'
      end
  end.

Definition NO_PARAMETER : string :=
  "At least one search parameter must be provided".

Definition search_episodes (show_name since_date before_date : option string)
           (hosts : option (list string)) (text_search : option string)
  : M (list Dict.t) :=
  if negb (existsb truthy [of_opt_str show_name; of_opt_str since_date;
                           of_opt_str before_date; of_opt_list hosts;
                           of_opt_str text_search])
  then raise (Exn ValueError NO_PARAMETER)
  else
    let shows_to_search :=
      if truthy (of_opt_str show_name) then [default "" show_name]
      else get_shows in
    since_dt <- (if truthy (of_opt_str since_date)
                 then logging (_parse_date (default "" since_date))
                 else ret None) ;;
    before_dt <- (if truthy (of_opt_str before_date)
                  then logging (_parse_date (default "" before_date))
                  else ret None) ;;
    shows_loop since_dt before_dt hosts text_search shows_to_search [].

(** *** [get_episode] *)

Definition text_is (element : option Etree.Element) (s : string) : bool :=
  match element with
  | Some e =>
      match Etree.text e with
      | Some t => String.eqb t s
      | None => false
      end
  | None => false
  end.

Fixpoint episode_loop (show_name episode_number : string)
         (items : list Etree.Element) : option Dict.t :=
  match items with
  | [] => None
  | item :: rest =>
      let guid_elem := Etree.find "guid" item in
      if text_is guid_elem episode_number
      then Some (_parse_episode show_name item)
      else
        let episode_elem := Etree.find_deep (NS_PODCAST ++ "episode") item in
        if text_is episode_elem episode_number
        then Some (_parse_episode show_name item)
        else episode_loop show_name episode_number rest
  end.

Definition get_episode (show_name episode_number : string) : M (option Dict.t) :=
  feed_root <- _get_feed show_name ;;
  match feed_root with
  | None => ret None
  | Some root =>
      ret (episode_loop show_name episode_number (Etree.xpath_all "item" root))
  end.

(** *** [get_transcript] *)

Definition get_transcript (show_name episode_number : string)
  : M (option string) :=
  episode <- get_episode show_name episode_number ;;
  match episode with
  | None => ret None
  | Some ep =>
      if negb (truthy (PyDict ep)) then ret None
      else
        let transcript_url := Dict.get_or_none "transcript_url" ep in
        if negb (truthy transcript_url) then ret None
        else
          try_except
            (match transcript_url with
             | PyStr url => text <- http_get url ;; ret (Some text)
             | _ => raise (Exn RequestException "Invalid URL")
             end)
            (fun _ => true)
            (fun e =>
               _ <- logging (print ("Error fetching transcript: " ++ message e)) ;;
               ret None)
  end.

End Parser.

End PodcastRSSParser.


(** ** The tool boundary: [podcast_mcp/server.py]

    The module imports [PodcastRSSParser] from its own package, whose
    [rss_parser] is not among the sources; the class of that name in
    [jupiterbroadcasting_mcp/rss_parser.py], embedded above, stands for
    it. *)

Module Server.

Definition FEEDS : list (string * string) :=
  [("Linux Unplugged", "https://feeds.jupiterbroadcasting.com/lup");
   ("This Week in Bitcoin",
    "https://serve.podhome.fm/rss/55b53584-4219-4fb0-b916-075ce23f714e");
   ("The Launch",
    "https://serve.podhome.fm/rss/04b078f9-b3e8-4363-a576-98e668231306");
   ("Self-Hosted", "https://feeds.fireside.fm/selfhosted/rss");
   ("Jupiter Extras", "https://extras.show/rss")].

(** One bound of [l[start:stop]] for a list of length [n]: a negative
    index counts from the end, and the result is clipped to [0..n]. *)
Definition adjust_index (n i : Z) : Z :=
  if i <? 0 then Z.max 0 (i + n) else Z.min i n.

(** [l[start:stop]] *)
Definition py_slice {A} (l : list A) (start stop : Z) : list A :=
  let n := Z.of_nat (length l) in
  let a := adjust_index n start in
  let b := adjust_index n stop in
  take (Z.to_nat (b - a)) (drop (Z.to_nat a) l).

(** Lines 68 to 81: the page cut out of the results and the counts
    reported with it. *)
Definition paginate (results : list Dict.t) (page per_page : Z) : pyval :=
  let total := Z.of_nat (length results) in
  let total_pages :=
    if 0 <? per_page then (total + per_page - 1) / per_page else 0 in
  let start_idx := (page - 1) * per_page in
  let end_idx := start_idx + per_page in
  PyDict [("episodes", PyList (map PyDict (py_slice results start_idx end_idx)));
          ("pagination",
           PyDict [("total", PyInt total);
                   ("page", PyInt page);
                   ("per_page", PyInt per_page);
                   ("total_pages", PyInt total_pages)])].

Definition error_value (msg : string) : pyval := PyDict [("error", PyStr msg)].

Section Tools.

Context (lz : Strptime.local_zone) (W : World).

Definition list_shows : list string := PodcastRSSParser.get_shows FEEDS.

(** [show_name] is annotated [str] and has no default; the annotation
    is not enforced by the language, and [None] stands for a caller
    passing [None]. *)
Definition search_episodes (show_name since_date before_date : option string)
           (hosts : option (list string)) (text_search : option string)
           (page per_page : Z) : M pyval :=
  try_except
    (results <- PodcastRSSParser.search_episodes lz W FEEDS show_name
                  since_date before_date hosts text_search ;;
     ret (paginate results page per_page))
    (fun _ => true)
    (fun e =>
       if is_kind ValueError e then ret (error_value (message e))
       else ret (error_value ("Search failed: " ++ message e))).

Definition get_episode (show_name episode_number : string) : M pyval :=
  try_except
    (episode <- PodcastRSSParser.get_episode W FEEDS show_name episode_number ;;
     match episode with
     | Some ep =>
         if truthy (PyDict ep) then ret (PyDict ep)
         else ret (error_value ("Episode '" ++ episode_number
                                ++ "' not found in show '" ++ show_name ++ "'"))
     | None =>
         ret (error_value ("Episode '" ++ episode_number
                           ++ "' not found in show '" ++ show_name ++ "'"))
     end)
    (fun _ => true)
    (fun e => ret (error_value ("Failed to retrieve episode: " ++ message e))).

Definition get_transcript (show_name episode_number : string) : M pyval :=
  try_except
    (transcript <- PodcastRSSParser.get_transcript W FEEDS show_name
                     episode_number ;;
     match transcript with
     | Some text =>
         if truthy (PyStr text) then ret (PyDict [("transcript", PyStr text)])
         else ret (error_value ("Transcript not available for episode '"
                                ++ episode_number ++ "' in show '"
                                ++ show_name ++ "'"))
     | None =>
         ret (error_value ("Transcript not available for episode '"
                           ++ episode_number ++ "' in show '"
                           ++ show_name ++ "'"))
     end)
    (fun _ => true)
    (fun e => ret (error_value ("Failed to retrieve transcript: " ++ message e))).

End Tools.

End Server.

(** ** The tool boundary without pages: [jupiterbroadcasting_mcp/server.py] *)

Module JupiterServer.

Definition JB_FEEDS : list (string * string) := Server.FEEDS.

Section Tools.

Context (lz : Strptime.local_zone) (W : World).

(** The results as they are, or a one-element list holding the error. *)
Definition search_episodes (show_name since_date before_date : option string)
           (hosts : option (list string)) (text_search : option string)
  : M pyval :=
  try_except
    (results <- PodcastRSSParser.search_episodes lz W JB_FEEDS show_name
                  since_date before_date hosts text_search ;;
     ret (PyList (map PyDict results)))
    (fun _ => true)
    (fun e =>
       if is_kind ValueError e
       then ret (PyList [Server.error_value (message e)])
       else ret (PyList [Server.error_value ("Search failed: " ++ message e)])).

Definition list_shows : list string := PodcastRSSParser.get_shows JB_FEEDS.

Definition get_episode (show_name episode_number : string) : M pyval :=
  try_except
    (episode <- PodcastRSSParser.get_episode W JB_FEEDS show_name
                  episode_number ;;
     match episode with
     | Some ep =>
         if truthy (PyDict ep) then ret (PyDict ep)
         else ret (Server.error_value
                     ("Episode '" ++ episode_number
                      ++ "' not found in show '" ++ show_name ++ "'"))
     | None =>
         ret (Server.error_value
                ("Episode '" ++ episode_number
                 ++ "' not found in show '" ++ show_name ++ "'"))
     end)
    (fun _ => true)
    (fun e =>
       ret (Server.error_value ("Failed to retrieve episode: " ++ message e))).

Definition get_transcript (show_name episode_number : string) : M pyval :=
  try_except
    (transcript <- PodcastRSSParser.get_transcript W JB_FEEDS show_name
                     episode_number ;;
     match transcript with
     | Some text =>
         if truthy (PyStr text) then ret (PyDict [("transcript", PyStr text)])
         else ret (Server.error_value
                     ("Transcript not available for episode '"
                      ++ episode_number ++ "' in show '" ++ show_name ++ "'"))
     | None =>
         ret (Server.error_value
                ("Transcript not available for episode '"
                 ++ episode_number ++ "' in show '" ++ show_name ++ "'"))
     end)
    (fun _ => true)
    (fun e =>
       ret (Server.error_value
              ("Failed to retrieve transcript: " ++ message e))).

End Tools.

End JupiterServer.

(** ** Reference notions used by the statements *)

(** The elements of [l] at the positions [i] with [lo <= i < hi];
    [i] is the position of the head of [l]. *)
Fixpoint index_slice_from {A} (i : Z) (l : list A) (lo hi : Z) : list A :=
  match l with
  | [] => []
  | x :: l' =>
      if (lo <=? i) && (i <? hi) then x :: index_slice_from (i + 1) l' lo hi
      else index_slice_from (i + 1) l' lo hi
  end.

(** The slice [[lo, hi)] of [l]. *)
Definition index_slice {A} (l : list A) (lo hi : Z) : list A :=
  index_slice_from 0 l lo hi.

(** The records a tool result carries. *)
Definition episodes_of (v : pyval) : list pyval :=
  match v with
  | PyDict d =>
      match Dict.get "episodes" d with
      | Some (PyList l) => l
      | _ => []
      end
  | _ => []
  end.

(** The value the tool returns for a page: the window and the counts. *)
Definition page_value (window : list Dict.t) (total page per_page total_pages : Z)
  : pyval :=
  PyDict [("episodes", PyList (map PyDict window));
          ("pagination",
           PyDict [("total", PyInt total);
                   ("page", PyInt page);
                   ("per_page", PyInt per_page);
                   ("total_pages", PyInt total_pages)])].

(** A computation that fails, if at all, with a [ValueError]. *)
Definition only_value_error {A} (r : result A) : Prop :=
  forall e, r = Raise e -> kind e = ValueError.

(** [strptime] rejects the string [s] under the layout [fmt]. *)
Definition fails_on (lz : Strptime.local_zone) (s fmt : string) : Prop :=
  exists msg, Strptime.strptime lz s fmt = Raise (Exn ValueError msg).

(** The string the layouts are tried on: the input stripped, with a
    trailing four-digit offset rewritten with a colon. *)
Definition preprocessed (date_string : string) : string :=
  let stripped := PyStr.strip date_string in
  match Re.search PodcastRSSParser.offset_tail (PyStr.chars stripped) with
  | Some _ =>
      PyStr.str (Re.sub PodcastRSSParser.offset_split
                        PodcastRSSParser.offset_with_colon
                        (PyStr.chars stripped))
  | None => stripped
  end.

(** A value with UTC assigned when it carries no zone. *)
Definition with_utc (dt : Datetime.datetime) : Datetime.datetime :=
  match Datetime.tzinfo dt with
  | None => Datetime.replace_tzinfo dt (Some Datetime.utc)
  | Some _ => dt
  end.

(** A bound, when present, carries a time zone. *)
Definition aware (o : option Datetime.datetime) : Prop :=
  forall dt, o = Some dt -> Datetime.tzinfo dt <> None.

(** The events that record a layout being tried. *)
Definition is_attempt (ev : event) : bool :=
  match ev with
  | EvStrptime _ _ => true
  | _ => false
  end.

(** What [_parse_date] logs for a string of blanks: the ten layouts
    tried on the stripped string, then the warning. *)
Definition blank_input_log : list event :=
  (map (EvStrptime "") PodcastRSSParser.formats
   ++ [EvPrint "Warning: Could not parse date: "])%list.

(** The zone names of RFC 2822, section 4.3, with their offsets in
    microseconds. *)
Definition rfc2822_zone (name : string) : option Z :=
  match List.find (fun p : string * Z => String.eqb (fst p) name)
          [("UT", 0); ("GMT", 0); ("EDT", -4); ("EST", -5); ("CDT", -5);
           ("CST", -6); ("MDT", -6); ("MST", -7); ("PDT", -7); ("PST", -8)]
  with
  | Some (_, hours) => Some (hours * 3600 * 1000000)
  | None => None
  end.

(** A pattern that captures nothing and, matched against [s], hands
    some suffix of [s] to what follows, or fails. *)
Definition plain (r : Re.regex) : Prop :=
  forall (R : Type) (s : list ascii) (g : Re.groups)
         (k : list ascii -> Re.groups -> option R),
    Re.run true r s g k = None \/ exists s', Re.run true r s g k = k s' g.

(** The pattern of the layout with a named zone, up to [%Z]. *)
Definition named_zone_prefix (lz : Strptime.local_zone) : list Re.regex :=
  let the c := default Re.Eps (Strptime.directive lz c) in
  let sp := Re.Plus PyStr.isspace in
  [the "a"%char; Re.Chr ","; sp; the "d"%char; sp; the "b"%char; sp;
   the "Y"%char; sp; the "H"%char; Re.Chr ":"; the "M"%char; Re.Chr ":";
   the "S"%char; sp].

(** The same pattern, whole, around the pattern [z] of [%Z]. *)
Definition named_zone_pattern (lz : Strptime.local_zone) (z : Re.regex)
  : Re.regex :=
  Re.seq (named_zone_prefix lz ++ [z])%list.

(** The event a fetch of [url] logs first: a file read for a [file://]
    locator, a download otherwise. *)
Definition fetch_event (url : string) : event :=
  if PyStr.startswith url "file://" then EvOpen (PyStr.drop_prefix 7 url)
  else EvGet url.

(** The calls a process makes on its parser during its life. *)
Inductive call : Type :=
| CallGetFeed (show_name : string)
| CallSearch (show_name since_date before_date : option string)
             (hosts : option (list string)) (text_search : option string)
| CallGetEpisode (show_name episode_number : string)
| CallGetTranscript (show_name episode_number : string).

(** The state a call leaves behind. *)
Definition after_call (lz : Strptime.local_zone) (W : World)
           (feeds : list (string * string)) (c : call) (st : state) : state :=
  match c with
  | CallGetFeed show => snd (PodcastRSSParser._get_feed W feeds show st)
  | CallSearch show since before hosts text =>
      snd (PodcastRSSParser.search_episodes lz W feeds show since before
                                            hosts text st)
  | CallGetEpisode show number =>
      snd (PodcastRSSParser.get_episode W feeds show number st)
  | CallGetTranscript show number =>
      snd (PodcastRSSParser.get_transcript W feeds show number st)
  end.

(** The state after a sequence of calls. *)
Definition after_calls (lz : Strptime.local_zone) (W : World)
           (feeds : list (string * string)) (cs : list call) (st : state)
  : state :=
  fold_left (fun st c => after_call lz W feeds c st) cs st.

(** Every entry of the cache of [st] is still in the cache of [st']. *)
Definition cache_kept (st st' : state) : Prop :=
  forall k v, _cached_feeds st !! k = Some v -> _cached_feeds st' !! k = Some v.

(** The document the cache of [st] holds for a configured show. *)
Definition cached_feed (feeds : list (string * string)) (st : state)
           (show : string) : option Etree.Element :=
  match Etree.assoc show feeds with
  | Some _ => _cached_feeds st !! show
  | None => None
  end.

(** [a] occurs in [l] at some position before an occurrence of [b]. *)
Definition appears_before {A} (a b : A) (l : list A) : Prop :=
  exists l1 l2 l3, l = (l1 ++ a :: l2 ++ b :: l3)%list.

(** The bound a date argument of a search stands for. *)
Definition bound_of (lz : Strptime.local_zone) (date : option string)
  : option Datetime.datetime :=
  if truthy (of_opt_str date) then
    match snd (PodcastRSSParser._parse_date lz (default "" date)) with
    | Ok o => o
    | Raise _ => None
    end
  else None.

(** The record passes every filter of the loop body. *)
Definition kept (lz : Strptime.local_zone)
           (since_dt before_dt : option Datetime.datetime)
           (hosts : option (list string)) (text_search : option string)
           (episode_data : Dict.t) : bool :=
  match snd (PodcastRSSParser.skips lz since_dt before_dt hosts text_search
                                    episode_data) with
  | Ok false => true
  | _ => false
  end.

(** The published date of the record normalises to a point in time. *)
Definition date_normalizes (lz : Strptime.local_zone) (episode_data : Dict.t)
  : Prop :=
  exists dt,
    snd (PodcastRSSParser._parse_date_of
           lz (Dict.get_or_none "published_date" episode_data))
    = Ok (Some dt).

(** The shows a search goes through, in order. *)
Definition scoped (feeds : list (string * string)) (show_name : option string)
  : list string :=
  if truthy (of_opt_str show_name) then [default "" show_name]
  else PodcastRSSParser.get_shows feeds.

(** The records of one show that a search returns: those of its cached
    document, in document order, that pass the filters. *)
Definition show_records (lz : Strptime.local_zone)
           (feeds : list (string * string)) (st : state)
           (since_dt before_dt : option Datetime.datetime)
           (hosts : option (list string)) (text_search : option string)
           (show : string) : list Dict.t :=
  match cached_feed feeds st show with
  | Some root =>
      List.filter (kept lz since_dt before_dt hosts text_search)
                  (map (PodcastRSSParser._parse_episode show)
                       (Etree.xpath_all "item" root))
  | None => []
  end.

(** An entry answers a lookup by its unique id or by its episode
    number. *)
Definition matches_episode (episode_number : string) (item : Etree.Element)
  : bool :=
  PodcastRSSParser.text_is (Etree.find "guid" item) episode_number
  || PodcastRSSParser.text_is
       (Etree.find_deep (PodcastRSSParser.NS_PODCAST ++ "episode") item)
       episode_number.

(** The keys of an episode record, in the order they are set. *)
Definition RECORD_KEYS : list string :=
  ["show_name"; "id"; "episode_number"; "title"; "description";
   "published_date"; "link"; "duration"; "hosts"; "transcript_urls";
   "enclosures"; "chapters_url"; "transcript_url"].

(** An episode record laid out field by field. *)
Definition record_of (show_name id episode_number title description
                      published_date link duration hosts transcript_urls
                      enclosures chapters_url transcript_url : pyval) : Dict.t :=
  [("show_name", show_name); ("id", id); ("episode_number", episode_number);
   ("title", title); ("description", description);
   ("published_date", published_date); ("link", link); ("duration", duration);
   ("hosts", hosts); ("transcript_urls", transcript_urls);
   ("enclosures", enclosures); ("chapters_url", chapters_url);
   ("transcript_url", transcript_url)].

(** The record before its last key is set. *)
Definition record_draft (show_name id episode_number title description
                         published_date link duration hosts transcript_urls
                         enclosures chapters_url : pyval) : Dict.t :=
  [("show_name", show_name); ("id", id); ("episode_number", episode_number);
   ("title", title); ("description", description);
   ("published_date", published_date); ("link", link); ("duration", duration);
   ("hosts", hosts); ("transcript_urls", transcript_urls);
   ("enclosures", enclosures); ("chapters_url", chapters_url)].

(** The list a call returned, empty when it raised. *)
Definition results_of {A} (x : result (list A) * state) : list A :=
  match fst x with
  | Ok l => l
  | Raise _ => []
  end.

(** ** Sample data: local zones, a feed, worlds, searches *)

(** Two processes: one whose local zone is UTC, one on Pacific time. *)
Definition lz_utc : Strptime.local_zone := Strptime.LocalZone "UTC" "UTC" false.
Definition lz_pacific : Strptime.local_zone := Strptime.LocalZone "PST" "PDT" true.

Definition PDT_EXAMPLE : string := "Sun, 05 Oct 2025 19:25:37 PDT".

(** What the layout with a named zone has captured of [PDT_EXAMPLE]
    when it reaches the zone name. *)
Definition PDT_EXAMPLE_groups : Re.groups :=
  [("S", PyStr.chars "37"); ("M", PyStr.chars "25"); ("H", PyStr.chars "19");
   ("Y", PyStr.chars "2025"); ("b", PyStr.chars "Oct"); ("d", PyStr.chars "05");
   ("a", PyStr.chars "Sun")].

(** Twelve records, told apart by their identifier. *)
Definition twelve : list Dict.t :=
  map (fun i => [("id", PyStr i)])
      ["e1"; "e2"; "e3"; "e4"; "e5"; "e6"; "e7"; "e8"; "e9"; "e10"; "e11"; "e12"].

Definition leaf (tag text : string) : Etree.Element :=
  Etree.mkElement tag [] (Some text) [].

Definition empty_element (tag : string) : Etree.Element :=
  Etree.mkElement tag [] None [].

Definition podcast (name : string) : string :=
  PodcastRSSParser.NS_PODCAST ++ name.

(** An entry with a date in the first layout, a host and a transcript. *)
Definition item_texas : Etree.Element :=
  Etree.mkElement "item" [] None
    [leaf "title" "Texas trip"; leaf "guid" "g1";
     leaf "pubDate" "Sun, 05 Oct 2025 19:25:37 -0700";
     leaf (podcast "episode") "42";
     Etree.mkElement (podcast "person") [("role", "host")] (Some " Wes ") [];
     Etree.mkElement (podcast "transcript")
                     [("url", "http://t/1.vtt"); ("type", "text/vtt")] None []].

(** An entry whose date is no date, and whose unique id is the episode
    number of [item_texas]. *)
Definition item_undated : Etree.Element :=
  Etree.mkElement "item" [] None
    [leaf "title" "Undated"; leaf "guid" "42"; leaf "pubDate" "to be announced"].

(** An entry whose [title], [link] and [itunes:duration] elements are
    present and empty. *)
Definition item_blank_title : Etree.Element :=
  Etree.mkElement "item" [] None
    [empty_element "title"; empty_element "link"; empty_element "description";
     empty_element (PodcastRSSParser.NS_ITUNES ++ "duration");
     leaf "guid" "g3"].

Definition sample_root : Etree.Element :=
  Etree.mkElement "rss" [] None
    [Etree.mkElement "channel" [] None [item_texas; item_undated]].

Definition blank_title_root : Etree.Element :=
  Etree.mkElement "rss" [] None
    [Etree.mkElement "channel" [] None [item_blank_title]].

Definition sample_feeds : list (string * string) :=
  [("LUP", "file://tests/sample_rss.xml"); ("Extras", "https://extras.show/rss")].

Definition no_network : result string :=
  Raise (Exn RequestException "connection refused").

(** Files can be read, the network is down, every document parses to
    [sample_root]. *)
Definition sample_world : World :=
  {| open_read := fun _ _ => Ok "<rss/>";
     requests_get := fun _ _ => no_network;
     fromstring := fun _ => Ok sample_root |}.

(** The same, with a file system that fails on the very first read. *)
Definition flaky_world : World :=
  {| open_read := fun t _ =>
       match t with
       | O => Raise (Exn OSError "No such file or directory")
       | S _ => Ok "<rss/>"
       end;
     requests_get := fun _ _ => no_network;
     fromstring := fun _ => Ok sample_root |}.

(** Files and the network answer, every document parses to
    [blank_title_root]. *)
Definition blank_title_world : World :=
  {| open_read := fun _ _ => Ok "<rss/>";
     requests_get := fun _ _ => Ok "<rss/>";
     fromstring := fun _ => Ok blank_title_root |}.

Definition st0 : state := State ∅ [].

(** The state after the first lookup of "LUP" in [sample_world]. *)
Definition st_lup : state :=
  State (<["LUP" := sample_root]> ∅)
        [EvOpen "tests/sample_rss.xml"; EvFromstring "<rss/>"].

(** A search of every show for the episodes since 1 October 2025, and
    one for the episodes before that day, in [sample_world]. *)
Definition since_october : result (list Dict.t) * state :=
  PodcastRSSParser.search_episodes lz_utc sample_world sample_feeds
                                   None (Some "2025-10-01") None None None st0.

Definition before_october : result (list Dict.t) * state :=
  PodcastRSSParser.search_episodes lz_utc sample_world sample_feeds
                                   None None (Some "2025-10-01") None None st0.

(** ** All the ways a pattern matches

    The same matcher as [Re.run], returning every way of matching, the
    preferred one first: the text left and the groups. *)

(** The suffixes of [s] left by a greedy [p*], the longest run first. *)
Fixpoint stars (p : ascii -> bool) (s : list ascii) : list (list ascii) :=
  match s with
  | c :: s' => if p c then (stars p s' ++ [s])%list else [s]
  | [] => [s]
  end.

Fixpoint runs (icase : bool) (r : Re.regex) (s : list ascii) (g : Re.groups)
  : list (list ascii * Re.groups) :=
  match r with
  | Re.Eps => [(s, g)]
  | Re.Chr c =>
      match s with
      | d :: s' => if Re.chr_eq icase c d then [(s', g)] else []
      | [] => []
      end
  | Re.Cls p =>
      match s with
      | d :: s' => if p d then [(s', g)] else []
      | [] => []
      end
  | Re.Cat r1 r2 =>
      concat (map (fun m => runs icase r2 (fst m) (snd m)) (runs icase r1 s g))
  | Re.Alt r1 r2 => (runs icase r1 s g ++ runs icase r2 s g)%list
  | Re.Plus p =>
      match s with
      | d :: s' => if p d then map (fun s'' => (s'', g)) (stars p s') else []
      | [] => []
      end
  | Re.Grp name r1 =>
      map (fun m => (fst m, (name, Re.captured s (fst m)) :: snd m))
          (runs icase r1 s g)
  | Re.Sens r1 => runs false r1 s g
  | Re.Eos =>
      match s with
      | [] => [(s, g)]
      | [c] => if Ascii.eqb c "010"%char then [(s, g)] else []
      | _ => []
      end
  end.

(** The first way that the rest of the match accepts. *)
Fixpoint first_some {A R} (f : A -> option R) (l : list A) : option R :=
  match l with
  | [] => None
  | x :: l' => Re.orelse (f x) (first_some f l')
  end.

(** ** Dates as [strftime] writes them *)

(** The decimal digit of the units of [n]. *)
Definition digit_char (n : nat) : ascii := ascii_of_nat (48 + n mod 10).

(** [n] on two and on four digits, zero-padded. *)
Definition two (n : nat) : list ascii := [digit_char (n / 10); digit_char n].

Definition four (n : nat) : list ascii :=
  [digit_char (n / 1000); digit_char (n / 100); digit_char (n / 10);
   digit_char n].

Definition WEEKDAYS : list string :=
  ["Mon"; "Tue"; "Wed"; "Thu"; "Fri"; "Sat"; "Sun"].

Definition MONTHS : list string :=
  ["Jan"; "Feb"; "Mar"; "Apr"; "May"; "Jun";
   "Jul"; "Aug"; "Sep"; "Oct"; "Nov"; "Dec"].

(** A point in time as a feed states it: the day of the week (Monday
    is 0), the wall-clock fields, and the offset from UTC as a sign,
    hours and minutes. *)
Record stamp : Set := Stamp {
  st_weekday : nat;
  st_year : nat; st_month : nat; st_day : nat;
  st_hour : nat; st_minute : nat; st_second : nat;
  st_west : bool; st_off_hours : nat; st_off_minutes : nat
}.

(** The fields are those of a date and a time of day, and the offset is
    one that [strftime] writes. *)
Definition well_formed (t : stamp) : Prop :=
  (st_weekday t < 7)%nat
  /\ 1 <= Z.of_nat (st_year t) <= 9999
  /\ (1 <= st_month t <= 12)%nat
  /\ 1 <= Z.of_nat (st_day t)
     <= Datetime.days_in_month (Z.of_nat (st_year t)) (Z.of_nat (st_month t))
  /\ (st_hour t < 24)%nat /\ (st_minute t < 60)%nat /\ (st_second t < 60)%nat
  /\ (st_off_hours t < 24)%nat /\ (st_off_minutes t < 60)%nat.

(** The offset as [%z] writes it, and as [_parse_date] rewrites it,
    with a colon. *)
Definition offset_text (colon : bool) (t : stamp) : list ascii :=
  ((if st_west t then "-" else "+")%char
   :: two (st_off_hours t)
   ++ (if colon then [":"%char] else []) ++ two (st_off_minutes t))%list.

(** What [strftime] writes for one directive. *)
Definition written_field (colon : bool) (t : stamp) (x : ascii)
  : list ascii :=
  if Ascii.eqb x "a" then PyStr.chars (nth (st_weekday t) WEEKDAYS "")
  else if Ascii.eqb x "b" then PyStr.chars (nth (st_month t - 1) MONTHS "")
  else if Ascii.eqb x "d" then two (st_day t)
  else if Ascii.eqb x "m" then two (st_month t)
  else if Ascii.eqb x "Y" then four (st_year t)
  else if Ascii.eqb x "H" then two (st_hour t)
  else if Ascii.eqb x "M" then two (st_minute t)
  else if Ascii.eqb x "S" then two (st_second t)
  else if Ascii.eqb x "z" then offset_text colon t
  else [].

(** [strftime]: the directives replaced by their fields, the other
    characters kept. *)
Fixpoint written_chars (colon : bool) (t : stamp) (fmt : list ascii)
  : list ascii :=
  match fmt with
  | [] => []
  | c :: rest =>
      if Ascii.eqb c "%" then
        match rest with
        | x :: rest' =>
            (written_field colon t x ++ written_chars colon t rest')%list
        | [] => [c]
        end
      else c :: written_chars colon t rest
  end.

(** The string that states [t] in the layout [fmt]. *)
Definition written (t : stamp) (fmt : string) : string :=
  PyStr.str (written_chars false t (PyStr.chars fmt)).

(** The same string with a colon in its offset. *)
Definition written_colon (t : stamp) (fmt : string) : string :=
  PyStr.str (written_chars true t (PyStr.chars fmt)).

(** The offset of [t] from UTC, in microseconds. *)
Definition offset_us (t : stamp) : Z :=
  let off :=
    (Z.of_nat (st_off_hours t) * 3600 + Z.of_nat (st_off_minutes t) * 60)
    * 1000000 in
  if st_west t then - off else off.

(** The value a string written in the layout [fmt] stands for: the
    fields the layout shows, midnight when it shows no time, the offset
    it shows and UTC when it shows none. *)
Definition encoded (t : stamp) (fmt : string) : Datetime.datetime :=
  let shows x := PyStr.contains x fmt in
  let timed (n : nat) := if shows "%H" then Z.of_nat n else 0 in
  Datetime.mk (Z.of_nat (st_year t)) (Z.of_nat (st_month t))
              (Z.of_nat (st_day t))
              (timed (st_hour t)) (timed (st_minute t)) (timed (st_second t)) 0
              (Some (if shows "%z" then offset_us t else Datetime.utc)).

(** The patterns of the layouts: the RFC 2822 ones, by what follows the
    time, and the ISO 8601 ones, by what separates the date from the
    time and what follows it. *)
Definition blanks : Re.regex := Re.Plus PyStr.isspace.

Definition rfc_pattern (tail : list Re.regex) : result Re.regex :=
  Ok (Re.seq ([Strptime.re_a; Re.Chr ","; blanks; Strptime.re_d; blanks;
               Strptime.re_b; blanks; Strptime.re_Y; blanks; Strptime.re_H;
               Re.Chr ":"; Strptime.re_M; Re.Chr ":"; Strptime.re_S]
              ++ tail)).

Definition iso_pattern (sep tail : list Re.regex) : result Re.regex :=
  Ok (Re.seq ([Strptime.re_Y; Re.Chr "-"; Strptime.re_m; Re.Chr "-";
               Strptime.re_d] ++ sep
              ++ [Strptime.re_H; Re.Chr ":"; Strptime.re_M; Re.Chr ":";
                  Strptime.re_S] ++ tail)).

Definition date_pattern : result Re.regex :=
  Ok (Re.seq [Strptime.re_Y; Re.Chr "-"; Strptime.re_m; Re.Chr "-";
              Strptime.re_d]).

Definition day_first_pattern (tail : list Re.regex) : result Re.regex :=
  Ok (Re.seq ([Strptime.re_d; blanks; Strptime.re_b; blanks; Strptime.re_Y]
              ++ tail)).

(** The layout with a zone name. *)
Definition NAMED_ZONE_LAYOUT : string := "%a, %d %b %Y %H:%M:%S %Z".

Definition sample_stamp : stamp := Stamp 6 2025 10 5 19 25 37 true 7 0.

(** ** Properties of patterns and of characters *)

(** A pattern that cannot start on a digit. *)
Definition halts_on_digit (r : Re.regex) : Prop :=
  forall c s g, PyStr.isdecimal c = true -> runs true r (c :: s) g = [].

(** A pattern [r] of a two-digit field: on the two digits of [v] it
    takes both, and may also take just the first. *)
Definition two_digit (r : Re.regex) (name : string) (v : nat) : Prop :=
  forall s g,
    exists tl,
      runs true r (digit_char (v / 10) :: digit_char v :: s) g
      = (s, (name, two v) :: g) :: tl
      /\ Forall (fun m => fst m = digit_char v :: s) tl.

(** A letter is no blank, no sign and no digit. *)
Definition plain_char (c : ascii) : Prop :=
  PyStr.isspace c = false /\ Re.oneof "+-" c = false
  /\ PyStr.isdecimal c = false.

(** ** Reference notions for the records, the lookups and the tools *)

(** The name [_parse_episode] keeps of a [podcast:person] element: its
    text, stripped, when its role is host and its text is not empty. *)
Definition host_name (person : Etree.Element) : option string :=
  if String.eqb (Etree.get_default person "role" "") "host" then
    match Etree.text person with
    | Some person_name =>
        if String.eqb person_name "" then None
        else Some (PyStr.strip person_name)
    | None => None
    end
  else None.

(** The hosts of an entry, in document order. *)
Definition host_names (item : Etree.Element) : list string :=
  omap host_name
       (Etree.findall_deep (PodcastRSSParser.NS_PODCAST ++ "person") item).

(** The locator of a [podcast:transcript] element, when it has one that
    is not empty. *)
Definition transcript_locator (transcript : Etree.Element) : option string :=
  match Etree.get transcript "url" with
  | Some url => if String.eqb url "" then None else Some url
  | None => None
  end.

(** What [_parse_episode] lists for such an element. *)
Definition transcript_entry (transcript : Etree.Element) : option pyval :=
  url ← transcript_locator transcript;
  Some (PyDict [("url", PyStr url);
                ("type", PyStr (Etree.get_default transcript "type" ""));
                ("language",
                 PyStr (Etree.get_default transcript "language" "en-us"))]).

Definition transcripts_of (item : Etree.Element) : list Etree.Element :=
  Etree.findall_deep (PodcastRSSParser.NS_PODCAST ++ "transcript") item.

(** The locator of the first transcript of an entry. *)
Definition first_locator (item : Etree.Element) : option string :=
  head (omap transcript_locator (transcripts_of item)).

(** The messages of the tools for an episode and a transcript that are
    not there. *)
Definition episode_not_found (show_name episode_number : string) : pyval :=
  Server.error_value ("Episode '" ++ episode_number ++ "' not found in show '"
                      ++ show_name ++ "'").

Definition transcript_not_available (show_name episode_number : string)
  : pyval :=
  Server.error_value ("Transcript not available for episode '"
                      ++ episode_number ++ "' in show '" ++ show_name ++ "'").

(** The pages [1], ..., [count]. *)
Definition page_numbers (count : Z) : list Z :=
  map (fun i => Z.of_nat i + 1) (seq 0 (Z.to_nat count)).

(** The number of pages that a page of results reports. *)
Definition total_pages_of (v : pyval) : Z :=
  match v with
  | PyDict d =>
      match Dict.get "pagination" d with
      | Some (PyDict p) =>
          match Dict.get "total_pages" p with
          | Some (PyInt n) => n
          | _ => 0
          end
      | _ => 0
      end
  | _ => 0
  end.

(** Two more searches in [sample_world]: by host and by text, in
    another case than the feed's. *)
Definition hosted_by_wes : result (list Dict.t) * state :=
  PodcastRSSParser.search_episodes lz_utc sample_world sample_feeds
                                   None None None (Some ["WES"]) None st0.

Definition about_texas : result (list Dict.t) * state :=
  PodcastRSSParser.search_episodes lz_utc sample_world sample_feeds
                                   None None None None (Some "TEXAS") st0.

(** [needle] occurs in [haystack], the case of letters apart. *)
Definition occurs_ignoring_case (needle haystack : string) : bool :=
  PyStr.contains (PyStr.lower needle) (PyStr.lower haystack).

(** A search since a day that is no date. *)
Definition since_someday : result (list Dict.t) * state :=
  PodcastRSSParser.search_episodes lz_utc sample_world sample_feeds
                                   None (Some "someday") None None None st0.

(** The string of the layout with a zone name: the day and the time of
    [t] as in RFC 2822, then the name [zone]. *)
Definition written_zone (t : stamp) (zone : string) : string :=
  PyStr.str (written_chars false t (PyStr.chars "%a, %d %b %Y %H:%M:%S ")
             ++ PyStr.chars zone).

(** The text left after the literal [p] at the head of [s], the case of
    letters apart. *)
Fixpoint after_prefix (p s : list ascii) : option (list ascii) :=
  match p, s with
  | [], _ => Some s
  | c :: p', d :: s' =>
      if Re.chr_eq true c d then after_prefix p' s' else None
  | _ :: _, [] => None
  end.

(** No string is longer than one before it. *)
Fixpoint longest_first (l : list string) : Prop :=
  match l with
  | [] => True
  | x :: l' =>
      Forall (fun y => (String.length y <= String.length x)%nat) l'
      /\ longest_first l'
  end.

(** A zone name that [strptime] reads: the letter Z, for the layouts
    with an offset, or one of the names of [%Z], the case of letters
    apart. *)
Definition zone_known (lz : Strptime.local_zone) (zone : string) : bool :=
  String.eqb zone "Z"
  || existsb (fun name => String.eqb (PyStr.lower name) (PyStr.lower zone))
             (Strptime.zone_names lz).

(** A date whose day is beyond the end of its month, all else as in a
    stamp that is well formed. *)
Definition no_such_day (t : stamp) : Prop :=
  (st_weekday t < 7)%nat
  /\ 1 <= Z.of_nat (st_year t) <= 9999
  /\ (1 <= st_month t <= 12)%nat
  /\ Datetime.days_in_month (Z.of_nat (st_year t)) (Z.of_nat (st_month t))
     < Z.of_nat (st_day t) <= 31
  /\ (st_hour t < 24)%nat /\ (st_minute t < 60)%nat /\ (st_second t < 60)%nat
  /\ (st_off_hours t < 24)%nat /\ (st_off_minutes t < 60)%nat.

(** What follows the day in [(\d{1,2})\s+(\w{3})\s+(\d{4})]. *)
Definition after_day : Re.regex :=
  Re.seq [Re.Plus PyStr.isspace;
          Re.Grp "2" (Re.seq [Re.Cls PyStr.isword; Re.Cls PyStr.isword;
                              Re.Cls PyStr.isword]);
          Re.Plus PyStr.isspace;
          Re.Grp "3" (Re.seq [PodcastRSSParser.digit; PodcastRSSParser.digit;
                              PodcastRSSParser.digit;
                              PodcastRSSParser.digit])].

(** A text at which no month and year can follow a day. *)
Definition quiet (s : list ascii) : Prop :=
  forall g, runs false after_day s g = [].

Definition february_30 : stamp := Stamp 6 2025 2 30 19 25 37 true 7 0.

(** What the collaborators answer to a fetch of [url] asked in the
    state [st]: the document parsed from the content read or
    downloaded, or the error of the read, the download or the parse. *)
Definition fetch_and_parse (W : World) (url : string) (st : state)
  : result Etree.Element :=
  content <-? (if PyStr.startswith url "file://"
               then open_read W (length (log st)) (PyStr.drop_prefix 7 url)
               else requests_get W (length (log st)) url);
  fromstring W content.

(** A search from the empty cache whose two bounds are the very date
    of [item_texas]. *)
Definition texas_date : string := "Sun, 05 Oct 2025 19:25:37 -0700".

Definition at_texas_date : result (list Dict.t) * state :=
  PodcastRSSParser.search_episodes lz_utc sample_world sample_feeds None
                                   (Some texas_date) (Some texas_date) None
                                   None st0.

(** What normalising a bound of a search logs. *)
Definition bound_log (lz : Strptime.local_zone) (date : option string)
  : list event :=
  if truthy (of_opt_str date)
  then fst (PodcastRSSParser._parse_date lz (default "" date))
  else [].
(** * Properties *)

(** ** Pagination *)

Lemma index_slice_from_take_drop {A} (l : list A) : forall i lo hi,
  index_slice_from i l lo hi
  = take (Z.to_nat (hi - Z.max lo i)) (drop (Z.to_nat (Z.max lo i - i)) l).
Proof.
  induction l as [|x l IH]; intros i lo hi; simpl.
  - by rewrite drop_nil, take_nil.
  - rewrite IH.
    destruct (Z.leb_spec lo i) as [Hlo|Hlo]; simpl.
    + rewrite (Z.max_r lo i) by lia. rewrite (Z.max_r lo (i + 1)) by lia.
      replace (Z.to_nat (i - i)) with 0%nat by lia.
      replace (Z.to_nat (i + 1 - (i + 1))) with 0%nat by lia.
      rewrite !drop_0.
      destruct (Z.ltb_spec i hi) as [Hhi|Hhi].
      * replace (Z.to_nat (hi - i)) with (S (Z.to_nat (hi - (i + 1)))) by lia.
        reflexivity.
      * replace (Z.to_nat (hi - i)) with 0%nat by lia.
        replace (Z.to_nat (hi - (i + 1))) with 0%nat by lia.
        reflexivity.
    + rewrite (Z.max_l lo i) by lia. rewrite (Z.max_l lo (i + 1)) by lia.
      replace (Z.to_nat (lo - i)) with (S (Z.to_nat (lo - (i + 1)))) by lia.
      reflexivity.
Qed.

Lemma index_slice_take_drop {A} (l : list A) (lo hi : Z) :
  index_slice l lo hi
  = take (Z.to_nat (hi - Z.max lo 0)) (drop (Z.to_nat (Z.max lo 0)) l).
Proof.
  unfold index_slice. rewrite index_slice_from_take_drop.
  by rewrite Z.sub_0_r.
Qed.

Lemma take_drop_clip {A} (l : list A) (a k : nat) :
  take (k `min` (length l - a)) (drop a l) = take k (drop a l).
Proof.
  destruct (Nat.le_gt_cases k (length l - a)) as [H|H].
  - by rewrite Nat.min_l.
  - rewrite Nat.min_r by lia.
    rewrite !take_ge; [done| |]; rewrite length_drop; lia.
Qed.

(** A slice with bounds [0 <= start <= stop] is the index interval. *)
Lemma py_slice_nonneg {A} (l : list A) (start stop : Z) :
  0 <= start -> start <= stop ->
  Server.py_slice l start stop = index_slice l start stop.
Proof.
  intros Hs Hle. unfold Server.py_slice, Server.adjust_index.
  rewrite index_slice_take_drop.
  destruct (Z.ltb_spec start 0); [lia|].
  destruct (Z.ltb_spec stop 0); [lia|].
  rewrite (Z.max_l start 0) by lia.
  set (n := Z.of_nat (length l)).
  destruct (Z.le_gt_cases n start) as [Hge|Hlt].
  - rewrite (Z.min_r start n) by lia.
    rewrite (drop_ge l (Z.to_nat n)) by lia.
    rewrite (drop_ge l (Z.to_nat start)) by lia.
    by rewrite !take_nil.
  - rewrite (Z.min_l start n) by lia.
    rewrite <- (take_drop_clip l (Z.to_nat start) (Z.to_nat (stop - start))).
    f_equal. lia.
Qed.

(** A slice with both bounds negative counts its positions from the
    end of the list. *)
Lemma py_slice_negative {A} (l : list A) (start stop : Z) :
  start < 0 -> stop < 0 ->
  let n := Z.of_nat (length l) in
  Server.py_slice l start stop = index_slice l (n + start) (n + stop).
Proof.
  intros Hs Ht n. unfold Server.py_slice, Server.adjust_index.
  rewrite index_slice_take_drop. fold n.
  destruct (Z.ltb_spec start 0); [|lia].
  destruct (Z.ltb_spec stop 0); [|lia].
  replace (Z.max 0 (start + n)) with (Z.max (n + start) 0) by lia.
  f_equal. lia.
Qed.

Lemma py_slice_stop_zero {A} (l : list A) (start : Z) :
  Server.py_slice l start 0 = [].
Proof.
  unfold Server.py_slice, Server.adjust_index. simpl.
  rewrite Z.min_l by lia.
  destruct (Z.ltb_spec start 0);
    (replace (Z.to_nat (0 - _)) with 0%nat by lia); done.
Qed.

Lemma paginate_unfold (results : list Dict.t) (page per_page : Z) :
  Server.paginate results page per_page
  = page_value
      (Server.py_slice results ((page - 1) * per_page)
                       ((page - 1) * per_page + per_page))
      (Z.of_nat (length results)) page per_page
      (if 0 <? per_page
       then (Z.of_nat (length results) + per_page - 1) / per_page else 0).
Proof. reflexivity. Qed.

(** C5, as amended.  For a page number of at least 1 the tool reports
    the number of records, the number of pages (the ceiling of
    [n / per_page] for a positive page size, 0 otherwise) and, for a
    page size that is not negative, the records at the positions from
    [(page-1)*per_page] up to, not including, [(page-1)*per_page +
    per_page]; a page starting past the end is empty.  For a negative
    page size the window is the end-relative slice: the first page lacks
    the last [-per_page] records, later pages are empty. *)
Theorem paginate_window (results : list Dict.t) (page per_page : Z) :
  1 <= page ->
  let n := Z.of_nat (length results) in
  let start := (page - 1) * per_page in
  exists total_pages window,
    Server.paginate results page per_page
    = page_value window n page per_page total_pages
    /\ (0 < per_page ->
        (total_pages - 1) * per_page < n <= total_pages * per_page)
    /\ (per_page <= 0 -> total_pages = 0)
    /\ (0 <= per_page -> window = index_slice results start (start + per_page))
    /\ (0 <= per_page -> n <= start -> window = [])
    /\ (per_page < 0 ->
        window = if page =? 1 then take (Z.to_nat (n + per_page)) results
                 else []).
Proof.
  intros Hpage n start. rewrite paginate_unfold. fold n. fold start.
  eexists _, _. split; [reflexivity|].
  split; [|split; [|split; [|split]]].
  - intros Hpp. destruct (Z.ltb_spec 0 per_page); [|lia].
    pose proof (Z.div_mod (n + per_page - 1) per_page ltac:(lia)) as Hdm.
    pose proof (Z.mod_pos_bound (n + per_page - 1) per_page ltac:(lia)) as Hb.
    nia.
  - intros Hpp. destruct (Z.ltb_spec 0 per_page); [lia|done].
  - intros Hpp. apply py_slice_nonneg; subst start; nia.
  - intros Hpp Hpast. rewrite py_slice_nonneg by (subst start; nia).
    rewrite index_slice_take_drop. rewrite drop_ge; [by rewrite take_nil|].
    subst n. lia.
  - intros Hpp. destruct (Z.eqb_spec page 1) as [->|Hne].
    + subst start. replace ((1 - 1) * per_page) with 0 by lia.
      rewrite Z.add_0_l. unfold Server.py_slice, Server.adjust_index. fold n.
      destruct (Z.ltb_spec per_page 0); [|lia].
      destruct (Z.ltb_spec 0 0); [lia|].
      rewrite Z.min_l by lia. rewrite Z.sub_0_r. rewrite drop_0.
      f_equal. lia.
    + assert (start < 0) by (subst start; nia).
      unfold Server.py_slice, Server.adjust_index. fold n.
      destruct (Z.ltb_spec start 0); [|lia].
      destruct (Z.ltb_spec (start + per_page) 0); [|lia].
      replace (Z.to_nat (_ - _)) with 0%nat by lia. done.
Qed.

Lemma paginate_window_witness :
  exists total_pages window,
    Server.paginate twelve 3 5 = page_value window 12 3 5 total_pages
    /\ (0 < 5 -> (total_pages - 1) * 5 < 12 <= total_pages * 5)
    /\ (5 <= 0 -> total_pages = 0)
    /\ (0 <= 5 -> window = index_slice twelve 10 15)
    /\ (0 <= 5 -> 12 <= 10 -> window = [])
    /\ (5 < 0 -> window = []).
Proof. apply (paginate_window twelve 3 5). lia. Defined.

(** The example of the specification: twelve records in pages of five. *)
Lemma paginate_twelve_by_five :
  Server.paginate twelve 3 5
  = page_value [[("id", PyStr "e11")]; [("id", PyStr "e12")]] 12 3 5 3
  /\ Server.paginate twelve 4 5 = page_value [] 12 4 5 3.
Proof. split; reflexivity. Qed.

(** C5, as stated, fails for a negative page size: the first page of
    twelve records with [per_page = -5] holds seven records, while no
    position lies in the interval from 0 to -5. *)
Lemma paginate_negative_page_size :
  index_slice twelve ((1 - 1) * -5) ((1 - 1) * -5 + -5) = []
  /\ length (episodes_of (Server.paginate twelve 1 (-5))) = 7%nat
  /\ episodes_of (Server.paginate twelve 1 (-5))
     <> map PyDict (index_slice twelve ((1 - 1) * -5) ((1 - 1) * -5 + -5)).
Proof. split; [reflexivity|]. split; [reflexivity|]. discriminate. Qed.

(** C10, as amended.  With a positive page size, page 0 yields an empty
    window and a page below 0 yields the records at the positions from
    [n + (page-1)*per_page] up to, not including, [n + page*per_page],
    that is, a window counted from the end of the list; the pagination
    block reports the page number as given, and no error is returned. *)
Theorem paginate_page_below_one (results : list Dict.t) (page per_page : Z) :
  page < 1 -> 0 < per_page ->
  let n := Z.of_nat (length results) in
  Server.paginate results page per_page
  = page_value
      (if page =? 0 then []
       else index_slice results (n + (page - 1) * per_page) (n + page * per_page))
      n page per_page ((n + per_page - 1) / per_page).
Proof.
  intros Hpage Hpp n. rewrite paginate_unfold. fold n.
  destruct (Z.ltb_spec 0 per_page); [|lia].
  f_equal.
  destruct (Z.eqb_spec page 0) as [->|Hne].
  - replace ((0 - 1) * per_page + per_page) with 0 by lia.
    apply py_slice_stop_zero.
  - rewrite py_slice_negative by nia. fold n. f_equal. lia.
Qed.

Lemma paginate_page_below_one_witness :
  Server.paginate twelve (-1) 5
  = page_value
      (if -1 =? 0 then []
       else index_slice twelve (12 + (-1 - 1) * 5) (12 + -1 * 5))
      12 (-1) 5 ((12 + 5 - 1) / 5).
Proof. apply (paginate_page_below_one twelve (-1) 5); lia. Defined.

(** C10, as stated, fails at its own example: page 0 with five records
    per page returns an empty window, not the last five records. *)
Lemma paginate_page_zero_is_empty :
  episodes_of (Server.paginate twelve 0 5) = []
  /\ episodes_of (Server.paginate twelve 0 5)
     <> map PyDict (drop 7 twelve).
Proof. split; [reflexivity|discriminate]. Qed.

(** ** The date normaliser *)

Section DateNormaliser.

Import PodcastRSSParser.

Context (lz : Strptime.local_zone).

Lemma ove_ok {A} (a : A) : only_value_error (Ok a).
Proof. intros e; discriminate. Qed.

Lemma ove_raise {A} msg : only_value_error (@Raise A (Exn ValueError msg)).
Proof. intros e [= <-]; reflexivity. Qed.

Lemma ove_bind {A B} (r : result A) (f : A -> result B) :
  only_value_error r -> (forall a, only_value_error (f a)) ->
  only_value_error (bind_result r f).
Proof.
  intros Hr Hf e. destruct r as [a|e']; simpl.
  - apply Hf.
  - intros [= <-]. by apply Hr.
Qed.

Ltac ove_step :=
  first
    [ apply ove_ok
    | apply ove_raise
    | apply ove_bind; [|intros ?]
    | assumption
    | match goal with
      | |- only_value_error (match ?x with _ => _ end) => destruct x
      end ].

Ltac ove := repeat ove_step.

Lemma ove_pattern_len (n : nat) : forall fmt in_ws,
  (length fmt <= n)%nat -> only_value_error (Strptime.pattern lz in_ws fmt).
Proof.
  induction n as [|n IH]; intros [|c fmt] in_ws Hlen; simpl in *;
    try lia; [ove|ove|].
  destruct (Ascii.eqb c "%").
  - destruct fmt as [|x fmt']; [ove|].
    destruct (Strptime.directive lz x); [|ove].
    apply ove_bind; [|intros; ove]. apply IH. simpl in Hlen. lia.
  - destruct (PyStr.isspace c); (apply ove_bind; [|intros; ove]);
      apply IH; lia.
Qed.

Lemma ove_int_or_error s : only_value_error (Strptime.int_or_error s).
Proof. unfold Strptime.int_or_error. ove. Qed.

Lemma ove_int_group name dflt g :
  only_value_error (Strptime.int_group name dflt g).
Proof. unfold Strptime.int_group. ove. apply ove_int_or_error. Qed.

Lemma ove_month_of g : only_value_error (Strptime.month_of g).
Proof. unfold Strptime.month_of. ove. apply ove_int_group. Qed.

Lemma ove_gmtoff_of z : only_value_error (Strptime.gmtoff_of z).
Proof.
  unfold Strptime.gmtoff_of.
  destruct (String.eqb _ "Z"); [ove|].
  apply ove_bind.
  { destruct (String.eqb _ ":"); [|ove].
    destruct (_ <? _)%nat; [|ove]. destruct (negb _); ove. }
  intros z'. repeat (apply ove_bind; [|intros ?]);
    try apply ove_int_or_error; [|ove].
  destruct (Strptime.slice 5 7 z'); [ove|apply ove_int_or_error].
Qed.

Lemma ove_check_date y m d : only_value_error (Datetime.check_date_fields y m d).
Proof.
  unfold Datetime.check_date_fields, Datetime.value_error.
  repeat (destruct (negb _); [ove|]). ove.
Qed.

Lemma ove_check_time h mi s us :
  only_value_error (Datetime.check_time_fields h mi s us).
Proof.
  unfold Datetime.check_time_fields, Datetime.value_error.
  repeat (destruct (negb _); [ove|]). ove.
Qed.

Lemma ove_make y m d h mi s us tz :
  only_value_error (Datetime.make y m d h mi s us tz).
Proof.
  unfold Datetime.make. ove; [apply ove_check_date|apply ove_check_time].
Qed.

Lemma ove_timezone off : only_value_error (Datetime.timezone off).
Proof.
  unfold Datetime.timezone, Datetime.value_error. destruct (_ && _); ove.
Qed.

(** Whatever the data and the format, [strptime] fails with a
    [ValueError] or not at all. *)
Lemma strptime_only_value_error s fmt :
  only_value_error (Strptime.strptime lz s fmt).
Proof.
  unfold Strptime.strptime.
  apply ove_bind; [by eapply ove_pattern_len|intros re].
  destruct (Re.rmatch true re (PyStr.chars s)) as [[g [|c rest]]|]; [|ove..].
  repeat (apply ove_bind; [|intros ?]);
    first [ apply ove_int_group | apply ove_month_of | apply ove_check_date
          | apply ove_check_time | apply ove_make | idtac ].
  - destruct (Re.group "z" g); [|ove].
    apply ove_bind; [apply ove_gmtoff_of|intros; ove].
  - ove. apply ove_timezone.
  - ove.
Qed.

Lemma value_error_caught e : kind e = ValueError -> is_kind ValueError e = true.
Proof. unfold is_kind. by intros ->. Qed.

Lemma try_formats_returns s fmts :
  exists evs o, try_formats lz s fmts = (evs, Ok o).
Proof.
  induction fmts as [|fmt fmts IH]; simpl; [by eexists _, _|].
  unfold out_try, out_bind, emit, out_lift, out_ret.
  pose proof (strptime_only_value_error s fmt) as Hve.
  destruct (Strptime.strptime lz s fmt) as [dt|e]; simpl.
  - by eexists _, _.
  - rewrite (Hve e eq_refl).
    destruct IH as (evs & o & ->). by eexists _, _.
Qed.

Lemma extract_date_part_returns s :
  exists evs o, extract_date_part s = (evs, Ok o).
Proof.
  unfold extract_date_part.
  destruct (Re.search _ _) as [g|]; [|by eexists _, _].
  destruct (Re.group "1" g) as [day|]; [|by eexists _, _].
  destruct (Re.group "2" g) as [month|]; [|by eexists _, _].
  destruct (Re.group "3" g) as [year|]; [|by eexists _, _].
  destruct (month_lookup _) as [m|]; [|by eexists _, _].
  unfold out_try, out_bind, out_lift, out_ret.
  pose proof (ove_int_or_error year) as Hy.
  destruct (Strptime.int_or_error year) as [y|e]; simpl;
    [|rewrite (Hy e eq_refl); by eexists _, _].
  pose proof (ove_int_or_error day) as Hd.
  destruct (Strptime.int_or_error day) as [d|e]; simpl;
    [|rewrite (Hd e eq_refl); by eexists _, _].
  pose proof (ove_make y m d 0 0 0 0 None) as Hm.
  destruct (Datetime.make y m d 0 0 0 0 None) as [dt|e]; simpl;
    [|rewrite (Hm e eq_refl)]; by eexists _, _.
Qed.

(** The normaliser always returns, and what it returns carries a time
    zone. *)
Lemma parse_date_returns s :
  exists evs o, _parse_date lz s = (evs, Ok o)
                /\ forall dt, o = Some dt -> Datetime.tzinfo dt <> None.
Proof.
  unfold _parse_date. destruct (String.eqb s ""); [by eexists _, _|].
  set (s1 := PyStr.strip s).
  set (s2 := match Re.search _ _ with Some _ => _ | None => _ end).
  destruct (try_formats_returns s2 formats) as (evs1 & o1 & ->).
  unfold out_bind at 1.
  assert (exists evs2 o2,
             match o1 with
             | Some _ => out_ret o1
             | None => extract_date_part s2
             end = (evs2, Ok o2)) as (evs2 & o2 & Ho2).
  { destruct o1; [by eexists _, _|apply extract_date_part_returns]. }
  unfold out_bind at 1. rewrite Ho2. simpl.
  destruct o2 as [dt|]; simpl.
  - eexists _, _. split; [reflexivity|]. intros dt' [= <-].
    destruct (Datetime.tzinfo dt) eqn:Htz; [by rewrite Htz|done].
  - eexists _, _. by split.
Qed.

Lemma try_blank :
  try_formats lz "" formats = (map (EvStrptime "") formats, Ok None).
Proof. vm_compute. reflexivity. Qed.

Lemma lstrip_blank l : forallb PyStr.isspace l = true -> PyStr.lstrip l = [].
Proof.
  induction l as [|c l IH]; simpl; [done|].
  intros [Hc Hl]%andb_prop. rewrite Hc. auto.
Qed.

Lemma strip_blank s :
  forallb PyStr.isspace (PyStr.chars s) = true -> PyStr.strip s = "".
Proof.
  intros H. unfold PyStr.strip. by rewrite (lstrip_blank _ H).
Qed.

Lemma parse_blank s :
  String.eqb s "" = false -> forallb PyStr.isspace (PyStr.chars s) = true ->
  _parse_date lz s = (blank_input_log, Ok None).
Proof.
  intros Hne Hb. unfold _parse_date. rewrite Hne.
  rewrite (strip_blank _ Hb).
  change (Re.search offset_tail (PyStr.chars "")) with (@None Re.groups).
  cbv beta iota. rewrite try_blank. reflexivity.
Qed.

Lemma named_zone_pattern_eq :
  Strptime.pattern lz false (PyStr.chars "%a, %d %b %Y %H:%M:%S %Z")
  = Ok (named_zone_pattern lz (Strptime.seqToRE (Strptime.zone_names lz) "Z")).
Proof. reflexivity. Qed.

Lemma named_zone_prefix_run {R} (k : list ascii -> Re.groups -> option R) :
  Re.run true (Re.seq (named_zone_prefix lz)) (PyStr.chars PDT_EXAMPLE) [] k
  = k (PyStr.chars "PDT") PDT_EXAMPLE_groups.
Proof.
  vm_compute. by destruct (k _ _).
Qed.

Lemma named_zone_split {R} (z : Re.regex) s g
      (k : list ascii -> Re.groups -> option R) :
  Re.run true (named_zone_pattern lz z) s g k
  = Re.run true (Re.seq (named_zone_prefix lz)) s g
           (fun s' g' => Re.run true z s' g' k).
Proof. reflexivity. Qed.

Lemma plain_eps : plain Re.Eps.
Proof. intros R s g k. right. by exists s. Qed.

Lemma plain_chr c : plain (Re.Chr c).
Proof.
  intros R s g k. destruct s as [|d s]; simpl; [by left|].
  destruct (Ascii.eqb _ _); [right; by exists s|by left].
Qed.

Lemma plain_cat a b : plain a -> plain b -> plain (Re.Cat a b).
Proof.
  intros Ha Hb R s g k. simpl.
  destruct (Ha R s g (fun s' g' => Re.run true b s' g' k)) as [->|[s' ->]];
    [by left|apply Hb].
Qed.

Lemma plain_alt a b : plain a -> plain b -> plain (Re.Alt a b).
Proof.
  intros Ha Hb R s g k. simpl.
  destruct (Ha R s g k) as [->|[s' ->]]; simpl; [apply Hb|].
  destruct (k s' g) eqn:Hk; simpl.
  - right. exists s'. by rewrite Hk.
  - apply Hb.
Qed.

Lemma plain_lit x : plain (Re.lit x).
Proof.
  unfold Re.lit. induction (PyStr.chars x) as [|c cs IH]; simpl.
  - apply plain_eps.
  - apply plain_cat; [apply plain_chr|apply IH].
Qed.

Lemma plain_alts rs : Forall plain rs -> plain (Re.alts rs).
Proof.
  destruct rs as [|r rs]; simpl; [intros; apply plain_eps|].
  intros [Hr Hrs]%Forall_cons. revert r Hr.
  induction Hrs as [|r' rs Hr' Hrs IH]; intros r Hr; simpl; [done|].
  apply IH. by apply plain_alt.
Qed.

(** Matching [%Z] either fails or goes on with a suffix of the input
    and at most the group [Z] added. *)
Lemma zone_name_run {R} s g (k : list ascii -> Re.groups -> option R) :
  let z := Strptime.seqToRE (Strptime.zone_names lz) "Z" in
  Re.run true z s g k = None
  \/ exists s' g', Re.run true z s g k = k s' g'
                   /\ (g' = g \/ exists p, g' = ("Z", p) :: g).
Proof.
  unfold Strptime.seqToRE. destruct (forallb _ _).
  - right. exists s, g. split; [done|by left].
  - set (r := Re.alts _). simpl.
    assert (plain r) as Hr.
    { apply plain_alts. generalize (Strptime.sort_by_len (Strptime.zone_names lz)).
      intros l. induction l; simpl; constructor; auto using plain_lit. }
    destruct (Hr R s g
               (fun s' g' => k s' (("Z", Re.captured s s') :: g')))
      as [->|[s' ->]]; [by left|].
    right. eexists _, _. split; [done|]. right. by eexists.
Qed.

(** On [PDT_EXAMPLE] the layout with a named zone either fails or
    yields the wall-clock fields without a zone. *)
Lemma strptime_named_zone_PDT :
  forall r, r = Strptime.strptime lz PDT_EXAMPLE "%a, %d %b %Y %H:%M:%S %Z" ->
  r = Ok (Datetime.mk 2025 10 5 19 25 37 0 None)
  \/ exists msg, r = Raise (Exn ValueError msg).
Proof.
  intros r Hr. unfold Strptime.strptime in Hr.
  rewrite named_zone_pattern_eq in Hr.
  unfold bind_result at 1 in Hr. unfold Re.rmatch in Hr.
  rewrite named_zone_split, named_zone_prefix_run in Hr.
  destruct (zone_name_run (PyStr.chars "PDT") PDT_EXAMPLE_groups
              (fun s' g => Some (g, s'))) as [Hz|(s' & g' & Hz & Hg)];
    rewrite Hz in Hr.
  - right. by eexists.
  - destruct s' as [|c s']; [|right; by eexists].
    left. by destruct Hg as [->|[p ->]].
Qed.

(** The loop over the layouts: when every layout fails, all have been
    tried and nothing is returned. *)
Lemma try_formats_all_fail s fmts :
  Forall (fails_on lz s) fmts ->
  try_formats lz s fmts = (map (EvStrptime s) fmts, Ok None).
Proof.
  induction 1 as [|fmt fmts [msg Hf] _ IH]; simpl; [done|].
  unfold out_try, out_bind, emit, out_lift. rewrite Hf. simpl. by rewrite IH.
Qed.

(** The first layout that parses wins, and no later one is tried. *)
Lemma try_formats_first_ok s pre fmt post dt :
  Forall (fails_on lz s) pre ->
  Strptime.strptime lz s fmt = Ok dt ->
  try_formats lz s (pre ++ fmt :: post)%list
  = (map (EvStrptime s) (pre ++ [fmt])%list, Ok (Some dt)).
Proof.
  intros Hpre Hok. induction Hpre as [|f pre [msg Hf] _ IH]; simpl.
  - unfold out_try, out_bind, emit, out_lift. by rewrite Hok.
  - unfold out_try, out_bind, emit, out_lift. rewrite Hf. simpl. by rewrite IH.
Qed.

(** The first layout that accepts the preprocessed string decides the
    result; a value without a zone is given UTC; the later layouts and
    the fallback are not reached and nothing is printed. *)
Lemma parse_date_first_layout_wins s pre fmt post dt :
  String.eqb s "" = false ->
  formats = (pre ++ fmt :: post)%list ->
  Forall (fails_on lz (preprocessed s)) pre ->
  Strptime.strptime lz (preprocessed s) fmt = Ok dt ->
  _parse_date lz s
  = (map (EvStrptime (preprocessed s)) (pre ++ [fmt])%list,
     Ok (Some (with_utc dt))).
Proof.
  intros Hne Hfmts Hpre Hok. unfold _parse_date. rewrite Hne.
  fold (preprocessed s). rewrite Hfmts.
  rewrite (try_formats_first_ok _ _ _ _ _ Hpre Hok).
  simpl. by rewrite !app_nil_r.
Qed.

(** When no layout accepts the preprocessed string and it holds no day,
    month abbreviation and year, the warning is printed and nothing is
    returned. *)
Lemma parse_date_unresolved s :
  String.eqb s "" = false ->
  Forall (fails_on lz (preprocessed s)) formats ->
  Re.search day_month_year (PyStr.chars (preprocessed s)) = None ->
  _parse_date lz s
  = ((map (EvStrptime (preprocessed s)) formats
      ++ [EvPrint ("Warning: Could not parse date: " ++ preprocessed s)])%list,
     Ok None).
Proof.
  intros Hne Hall Hnone. unfold _parse_date. rewrite Hne.
  fold (preprocessed s). rewrite (try_formats_all_fail _ _ Hall).
  unfold out_bind at 1. unfold extract_date_part. rewrite Hnone. reflexivity.
Qed.

Lemma PDT_other_layouts :
  Forall (fails_on lz PDT_EXAMPLE)
         ["%a, %d %b %Y %H:%M:%S %z"; "%a, %d %b %Y %H:%M:%S";
          "%Y-%m-%dT%H:%M:%S%z"; "%Y-%m-%dT%H:%M:%SZ"; "%Y-%m-%dT%H:%M:%S";
          "%Y-%m-%d %H:%M:%S"; "%Y-%m-%d"; "%d %b %Y %H:%M:%S %z"; "%d %b %Y"].
Proof. repeat constructor; eexists; vm_compute; reflexivity. Qed.

Lemma parse_date_PDT_unfold :
  _parse_date lz PDT_EXAMPLE
  = (parsed_dt <~ try_formats lz PDT_EXAMPLE formats ;;
     parsed_dt <~ match parsed_dt with
                  | None => extract_date_part PDT_EXAMPLE
                  | Some _ => out_ret parsed_dt
                  end ;;
     match parsed_dt with
     | None =>
         _ <~ print ("Warning: Could not parse date: " ++ PDT_EXAMPLE) ;;
         out_ret None
     | Some dt =>
         out_ret (Some (match Datetime.tzinfo dt with
                        | None => Datetime.replace_tzinfo dt (Some Datetime.utc)
                        | Some _ => dt
                        end))
     end).
Proof. reflexivity. Qed.

Lemma parse_date_PDT :
  snd (_parse_date lz PDT_EXAMPLE)
  = Ok (Some (Datetime.mk 2025 10 5 19 25 37 0 (Some Datetime.utc)))
  \/ snd (_parse_date lz PDT_EXAMPLE)
     = Ok (Some (Datetime.mk 2025 10 5 0 0 0 0 (Some Datetime.utc))).
Proof.
  rewrite parse_date_PDT_unfold.
  pose proof PDT_other_layouts as Hall.
  apply Forall_cons in Hall as [H1 Hrest].
  destruct (strptime_named_zone_PDT _ eq_refl) as [Hok|Hfail].
  - left.
    pose proof (try_formats_first_ok PDT_EXAMPLE ["%a, %d %b %Y %H:%M:%S %z"]
                  "%a, %d %b %Y %H:%M:%S %Z" (drop 2 formats) _
                  ltac:(by constructor) Hok) as Ht.
    change (_ ++ _ :: drop 2 formats)%list with formats in Ht. rewrite Ht.
    reflexivity.
  - right. rewrite try_formats_all_fail.
    + reflexivity.
    + constructor; [done|]. by constructor.
Qed.

End DateNormaliser.

(** C9, as amended.  The date normaliser never raises.  An empty input,
    and [None] in its place, returns no value at once: no layout is
    tried and nothing is printed.
    An input made of blanks only returns no value as well, but after the
    ten layouts have been tried on the stripped string and the warning
    has been printed. *)
Theorem parse_date_never_raises (lz : Strptime.local_zone) (s : string) :
  (exists o, snd (PodcastRSSParser._parse_date lz s) = Ok o)
  /\ PodcastRSSParser._parse_date lz "" = ([], Ok None)
  /\ PodcastRSSParser._parse_date_of lz PyNone = ([], Ok None)
  /\ (String.eqb s "" = false ->
      forallb PyStr.isspace (PyStr.chars s) = true ->
      PodcastRSSParser._parse_date lz s = (blank_input_log, Ok None)).
Proof.
  split; [|split; [|split]].
  - destruct (parse_date_returns lz s) as (evs & o & -> & _). by exists o.
  - reflexivity.
  - reflexivity.
  - apply parse_blank.
Qed.

Lemma parse_date_never_raises_witness :
  PodcastRSSParser._parse_date lz_utc "   " = (blank_input_log, Ok None).
Proof. apply (parse_date_never_raises lz_utc "   "); reflexivity. Defined.

(** C9, as stated, fails for an input of blanks: every layout is tried
    and the warning is printed before [None] is returned. *)
Lemma parse_date_blank_tries_every_layout :
  fst (PodcastRSSParser._parse_date lz_utc "   ") <> []
  /\ length (List.filter is_attempt
                         (fst (PodcastRSSParser._parse_date lz_utc "   ")))
     = 10%nat
  /\ In (EvPrint "Warning: Could not parse date: ")
        (fst (PodcastRSSParser._parse_date lz_utc "   ")).
Proof.
  split; [discriminate|]. split; [reflexivity|].
  vm_compute. tauto.
Qed.

(** C2 at its failing input.  Whatever the local zone of the process,
    the string of the second layout's own example,
    ["Sun, 05 Oct 2025 19:25:37 PDT"], is normalised to 19:25:37 UTC
    of that day (where the process runs on Pacific time) or to midnight
    UTC of that day (anywhere else), never to the point in time the
    string encodes, 19:25:37 at seven hours west of UTC. *)
Theorem parse_date_named_zone_PDT (lz : Strptime.local_zone) :
  exists dt,
    snd (PodcastRSSParser._parse_date lz PDT_EXAMPLE) = Ok (Some dt)
    /\ (dt = Datetime.mk 2025 10 5 19 25 37 0 (Some Datetime.utc)
        \/ dt = Datetime.mk 2025 10 5 0 0 0 0 (Some Datetime.utc))
    /\ Datetime.instant_us dt
       <> Datetime.instant_us
            (Datetime.mk 2025 10 5 19 25 37 0 (rfc2822_zone "PDT")).
Proof.
  destruct (parse_date_PDT lz) as [H|H]; rewrite H; eexists;
    (split; [reflexivity|]); (split; [tauto|]); vm_compute; discriminate.
Qed.

(** The two outcomes, each in its environment. *)
Lemma parse_date_PDT_elsewhere :
  snd (PodcastRSSParser._parse_date lz_utc PDT_EXAMPLE)
  = Ok (Some (Datetime.mk 2025 10 5 0 0 0 0 (Some Datetime.utc))).
Proof. reflexivity. Qed.

Lemma parse_date_PDT_on_pacific_time :
  snd (PodcastRSSParser._parse_date lz_pacific PDT_EXAMPLE)
  = Ok (Some (Datetime.mk 2025 10 5 19 25 37 0 (Some Datetime.utc))).
Proof. reflexivity. Qed.

(** The examples the source gives for the other nine layouts are
    normalised to the point in time they encode. *)
Lemma parse_date_layout_examples (lz : Strptime.local_zone) :
  let at_offset h := Some (h * 3600 * 1000000) in
  let parsed s := snd (PodcastRSSParser._parse_date lz s) in
  parsed "Sun, 05 Oct 2025 19:25:37 -0700"
  = Ok (Some (Datetime.mk 2025 10 5 19 25 37 0 (at_offset (-7))))
  /\ parsed "Sun, 05 Oct 2025 19:25:37"
     = Ok (Some (Datetime.mk 2025 10 5 19 25 37 0 (Some Datetime.utc)))
  /\ parsed "2025-10-05T19:25:37-0700"
     = Ok (Some (Datetime.mk 2025 10 5 19 25 37 0 (at_offset (-7))))
  /\ parsed "2025-10-05T19:25:37Z"
     = Ok (Some (Datetime.mk 2025 10 5 19 25 37 0 (Some Datetime.utc)))
  /\ parsed "2025-10-05T19:25:37"
     = Ok (Some (Datetime.mk 2025 10 5 19 25 37 0 (Some Datetime.utc)))
  /\ parsed "2025-10-05 19:25:37"
     = Ok (Some (Datetime.mk 2025 10 5 19 25 37 0 (Some Datetime.utc)))
  /\ parsed "2025-10-05"
     = Ok (Some (Datetime.mk 2025 10 5 0 0 0 0 (Some Datetime.utc)))
  /\ parsed "05 Oct 2025 19:25:37 -0700"
     = Ok (Some (Datetime.mk 2025 10 5 19 25 37 0 (at_offset (-7))))
  /\ parsed "05 Oct 2025"
     = Ok (Some (Datetime.mk 2025 10 5 0 0 0 0 (Some Datetime.utc))).
Proof. repeat split; vm_compute; reflexivity. Qed.

(** The zone names [strptime] always knows, GMT and UTC, mean UTC, so
    the second layout is right for them. *)
Lemma parse_date_GMT :
  snd (PodcastRSSParser._parse_date lz_utc "Sun, 05 Oct 2025 19:25:37 GMT")
  = Ok (Some (Datetime.mk 2025 10 5 19 25 37 0 (rfc2822_zone "GMT")))
  /\ snd (PodcastRSSParser._parse_date lz_pacific "Sun, 05 Oct 2025 19:25:37 GMT")
     = Ok (Some (Datetime.mk 2025 10 5 19 25 37 0 (rfc2822_zone "GMT")))
  /\ snd (PodcastRSSParser._parse_date lz_pacific "Sun, 05 Oct 2025 19:25:37 UTC")
     = Ok (Some (Datetime.mk 2025 10 5 19 25 37 0 (Some Datetime.utc))).
Proof. repeat split; vm_compute; reflexivity. Qed.
(** ** The outcome of a normalisation *)

Section Outcome.

Import PodcastRSSParser.

Context (lz : Strptime.local_zone).

(** The last resort logs nothing. *)
Lemma extract_date_part_log s :
  exists o, extract_date_part s = ([], Ok o).
Proof.
  unfold extract_date_part.
  destruct (Re.search _ _) as [g|]; [|by eexists].
  destruct (Re.group "1" g) as [day|]; [|by eexists].
  destruct (Re.group "2" g) as [month|]; [|by eexists].
  destruct (Re.group "3" g) as [year|]; [|by eexists].
  destruct (month_lookup _) as [m|]; [|by eexists].
  unfold out_try, out_bind, out_lift, out_ret.
  pose proof (ove_int_or_error year) as Hy.
  destruct (Strptime.int_or_error year) as [y|e]; simpl;
    [|rewrite (Hy e eq_refl); by eexists].
  pose proof (ove_int_or_error day) as Hd.
  destruct (Strptime.int_or_error day) as [d|e]; simpl;
    [|rewrite (Hd e eq_refl); by eexists].
  pose proof (ove_make y m d 0 0 0 0 None) as Hm.
  destruct (Datetime.make y m d 0 0 0 0 None) as [dt|e]; simpl;
    [|rewrite (Hm e eq_refl)]; by eexists.
Qed.

End Outcome.

Section Course.

Import PodcastRSSParser.

Context (lz : Strptime.local_zone).

(** A layout accepts a string or rejects it with a [ValueError]. *)
Lemma strptime_accepts_or_fails s fmt :
  (exists dt, Strptime.strptime lz s fmt = Ok dt) \/ fails_on lz s fmt.
Proof.
  pose proof (strptime_only_value_error lz s fmt) as Hve.
  destruct (Strptime.strptime lz s fmt) as [dt|[k msg]] eqn:H.
  - left. by exists dt.
  - right. specialize (Hve _ eq_refl). simpl in Hve. subst k.
    unfold fails_on. rewrite H. by exists msg.
Qed.

(** Of a list of layouts, one is the first to accept the string, or
    all reject it. *)
Lemma first_layout_that_parses s fmts :
  (exists pre fmt post dt,
      fmts = (pre ++ fmt :: post)%list
      /\ Forall (fails_on lz s) pre
      /\ Strptime.strptime lz s fmt = Ok dt)
  \/ Forall (fails_on lz s) fmts.
Proof.
  induction fmts as [|fmt fmts IH]; [by right|].
  destruct (strptime_accepts_or_fails s fmt) as [[dt Hok]|Hfail].
  - left. by exists [], fmt, fmts, dt.
  - destruct IH as [(pre & w & post & dt & -> & Hpre & Hok)|Hall].
    + left. exists (fmt :: pre), w, post, dt. split; [done|].
      split; [by constructor|done].
    + right. by constructor.
Qed.

(** When every layout rejects the string, the last resort decides;
    the warning is printed when it finds nothing. *)
Lemma parse_date_all_fail s o :
  String.eqb s "" = false ->
  Forall (fails_on lz (preprocessed s)) formats ->
  extract_date_part (preprocessed s) = ([], Ok o) ->
  _parse_date lz s
  = ((map (EvStrptime (preprocessed s)) formats
      ++ match o with
         | Some _ => []
         | None =>
             [EvPrint ("Warning: Could not parse date: " ++ preprocessed s)]
         end)%list,
     Ok (with_utc <$> o)).
Proof.
  intros Hne Hall Hlast. unfold _parse_date. rewrite Hne.
  fold (preprocessed s). rewrite (try_formats_all_fail _ _ _ Hall).
  unfold out_bind at 1. rewrite Hlast. by destruct o.
Qed.

(** The only events of a normalisation are layouts tried and the
    warning. *)
Lemma parse_date_events s :
  Forall (fun ev => is_attempt ev = true \/ exists line, ev = EvPrint line)
         (fst (_parse_date lz s)).
Proof.
  destruct (String.eqb s "") eqn:Hne.
  { unfold _parse_date. rewrite Hne. constructor. }
  destruct (first_layout_that_parses (preprocessed s) formats)
    as [(pre & fmt & post & dt & Hfmts & Hpre & Hok)|Hall].
  - rewrite (parse_date_first_layout_wins lz s pre fmt post dt Hne Hfmts
               Hpre Hok). cbn [fst].
    apply List.Forall_forall. intros ev (x & <- & _)%in_map_iff. by left.
  - destruct (extract_date_part_log (preprocessed s)) as [o Hlast].
    rewrite (parse_date_all_fail s o Hne Hall Hlast). cbn [fst].
    apply Forall_app. split.
    + apply List.Forall_forall. intros ev (x & <- & _)%in_map_iff. by left.
    + destruct o; [constructor|].
      apply List.Forall_cons; [right; by eexists|constructor].
Qed.

End Course.

(** ** The layouts of the date normaliser, in general *)

(** ** The matcher, as a list of matches *)

Lemma first_some_app {A R} (f : A -> option R) l1 l2 :
  first_some f (l1 ++ l2) = Re.orelse (first_some f l1) (first_some f l2).
Proof.
  induction l1 as [|x l1 IH]; simpl; [done|].
  rewrite IH. by destruct (f x).
Qed.

Lemma first_some_ext {A R} (f f' : A -> option R) l :
  (forall x, f x = f' x) -> first_some f l = first_some f' l.
Proof.
  intros H. induction l as [|x l IH]; simpl; [done|]. by rewrite H, IH.
Qed.

Lemma first_some_concat {A B R} (f : B -> option R) (h : A -> list B) l :
  first_some f (concat (map h l)) = first_some (fun x => first_some f (h x)) l.
Proof.
  induction l as [|x l IH]; simpl; [done|]. by rewrite first_some_app, IH.
Qed.

Lemma first_some_map {A B R} (f : B -> option R) (h : A -> B) l :
  first_some f (map h l) = first_some (fun x => f (h x)) l.
Proof. induction l as [|x l IH]; simpl; [done|]. by rewrite IH. Qed.

Lemma star_stars {R} p s (k : list ascii -> option R) :
  Re.star p s k = first_some k (stars p s).
Proof.
  induction s as [|c s IH]; simpl; [by destruct (k [])|].
  destruct (p c); simpl.
  - rewrite first_some_app, IH. simpl. by destruct (k (c :: s)).
  - by destruct (k (c :: s)).
Qed.

(** [Re.run] takes the first match, in the order of [runs], that the
    continuation accepts. *)
Lemma run_runs {R} r :
  forall icase s g (k : list ascii -> Re.groups -> option R),
    Re.run icase r s g k
    = first_some (fun m => k (fst m) (snd m)) (runs icase r s g).
Proof.
  induction r as [|c|p|r1 IH1 r2 IH2|r1 IH1 r2 IH2|p|name r1 IH1|r1 IH1|];
    intros icase s g k; simpl.
  - by destruct (k s g).
  - destruct s as [|d s]; [done|].
    destruct (Re.chr_eq icase c d); simpl; [|done].
    by destruct (k s g).
  - destruct s as [|d s]; [done|]. destruct (p d); simpl; [|done].
    by destruct (k s g).
  - rewrite IH1. rewrite first_some_concat. apply first_some_ext.
    intros m. apply IH2.
  - by rewrite IH1, IH2, first_some_app.
  - destruct s as [|d s]; [done|]. destruct (p d); simpl; [|done].
    by rewrite star_stars, first_some_map.
  - by rewrite IH1, first_some_map.
  - apply IH1.
  - destruct s as [|c [|c' s]]; simpl; [by destruct (k [] g)| |done].
    destruct (Ascii.eqb c "010"); simpl; [|done]. by destruct (k [c] g).
Qed.

(** [pattern.match]: the first of all matches. *)
Lemma rmatch_runs icase r s :
  Re.rmatch icase r s
  = match runs icase r s [] with
    | [] => None
    | m :: _ => Some (snd m, fst m)
    end.
Proof.
  unfold Re.rmatch. rewrite run_runs. by destruct (runs icase r s []).
Qed.

(** *** One step of a match *)

Lemma runs_cat icase r1 r2 s g :
  runs icase (Re.Cat r1 r2) s g
  = concat (map (fun m => runs icase r2 (fst m) (snd m)) (runs icase r1 s g)).
Proof. reflexivity. Qed.

Lemma runs_eps icase s g : runs icase Re.Eps s g = [(s, g)].
Proof. reflexivity. Qed.

Lemma runs_grp icase name r s g :
  runs icase (Re.Grp name r) s g
  = map (fun m => (fst m, (name, Re.captured s (fst m)) :: snd m))
        (runs icase r s g).
Proof. reflexivity. Qed.

(** A first part that matches in one way, or in none. *)
Lemma runs_one icase r1 r2 s g s' g' :
  runs icase r1 s g = [(s', g')] ->
  runs icase (Re.Cat r1 r2) s g = runs icase r2 s' g'.
Proof. intros H. rewrite runs_cat, H. simpl. by rewrite app_nil_r. Qed.

Lemma runs_none icase r1 r2 s g :
  runs icase r1 s g = [] -> runs icase (Re.Cat r1 r2) s g = [].
Proof. intros H. by rewrite runs_cat, H. Qed.

(** A character, a class and a run of blanks at the head of a pattern:
    on a text that starts as they ask, on one that does not, and at the
    end of the text. *)
Lemma runs_chr icase c d r s g :
  Re.chr_eq icase c d = true ->
  runs icase (Re.Cat (Re.Chr c) r) (d :: s) g = runs icase r s g.
Proof. intros H. apply runs_one. simpl. by rewrite H. Qed.

Lemma runs_chr_other icase c d r s g :
  Re.chr_eq icase c d = false ->
  runs icase (Re.Cat (Re.Chr c) r) (d :: s) g = [].
Proof. intros H. apply runs_none. simpl. by rewrite H. Qed.

Lemma runs_chr_end icase c r g : runs icase (Re.Cat (Re.Chr c) r) [] g = [].
Proof. reflexivity. Qed.

Lemma runs_cls icase p d r s g :
  p d = true -> runs icase (Re.Cat (Re.Cls p) r) (d :: s) g = runs icase r s g.
Proof. intros H. apply runs_one. simpl. by rewrite H. Qed.

Lemma runs_cls_other icase p d r s g :
  p d = false -> runs icase (Re.Cat (Re.Cls p) r) (d :: s) g = [].
Proof. intros H. apply runs_none. simpl. by rewrite H. Qed.

Lemma runs_cls_end icase p r g : runs icase (Re.Cat (Re.Cls p) r) [] g = [].
Proof. reflexivity. Qed.

(** One blank before a character that is not one. *)
Lemma runs_blank icase r c s g :
  PyStr.isspace c = false ->
  runs icase (Re.Cat (Re.Plus PyStr.isspace) r) (" "%char :: c :: s) g
  = runs icase r (c :: s) g.
Proof.
  intros H. apply runs_one. simpl. by rewrite H.
Qed.

Lemma runs_blank_other icase r c s g :
  PyStr.isspace c = false ->
  runs icase (Re.Cat (Re.Plus PyStr.isspace) r) (c :: s) g = [].
Proof. intros H. apply runs_none. simpl. by rewrite H. Qed.

Lemma runs_blank_end icase r g :
  runs icase (Re.Cat (Re.Plus PyStr.isspace) r) [] g = [].
Proof. reflexivity. Qed.

(** What a group keeps of the text. *)
Lemma captured_app p s : Re.captured (p ++ s) s = p.
Proof.
  unfold Re.captured. rewrite length_app.
  replace (length p + length s - length s)%nat with (length p) by lia.
  by rewrite take_app_length.
Qed.

(** *** The digits *)

(** A digit is one of ten characters: a decimal, no blank, no sign. *)
Lemma digit_char_cases (P : ascii -> Prop) :
  Forall P ["0"; "1"; "2"; "3"; "4"; "5"; "6"; "7"; "8"; "9"]%char ->
  forall n, P (digit_char n).
Proof.
  intros H n. unfold digit_char.
  assert (n mod 10 < 10)%nat as Hn by (apply Nat.mod_upper_bound; lia).
  rewrite List.Forall_forall in H. apply H.
  generalize dependent (n mod 10)%nat. intros k Hk.
  do 10 (destruct k as [|k]; [simpl; tauto|]). lia.
Qed.

Ltac by_digit n :=
  pattern (digit_char n); apply digit_char_cases; repeat constructor.

Lemma digit_isdecimal n : PyStr.isdecimal (digit_char n) = true.
Proof. by_digit n. Qed.

Lemma digit_isspace n : PyStr.isspace (digit_char n) = false.
Proof. by_digit n. Qed.

Lemma digit_sign n : Re.oneof "+-" (digit_char n) = false.
Proof. by_digit n. Qed.

Lemma digit_val_char n : PyStr.digit_val (digit_char n) = Z.of_nat (n mod 10).
Proof.
  unfold digit_char.
  assert (n mod 10 < 10)%nat as Hn by (apply Nat.mod_upper_bound; lia).
  generalize dependent (n mod 10)%nat. intros k Hk.
  do 10 (destruct k as [|k]; [reflexivity|]). lia.
Qed.

(** Every case below a bound. *)
Lemma below_cases (P : nat -> Prop) N :
  Forall P (seq 0 N) -> forall v, (v < N)%nat -> P v.
Proof.
  intros H v Hv. rewrite List.Forall_forall in H. apply H, in_seq. lia.
Qed.

(** *** The fields of a date *)

Lemma captured_1 a s : Re.captured (a :: s) s = [a].
Proof. apply (captured_app [a]). Qed.

Lemma captured_2 a b s : Re.captured (a :: b :: s) s = [a; b].
Proof. apply (captured_app [a; b]). Qed.

Lemma captured_3 a b c s : Re.captured (a :: b :: c :: s) s = [a; b; c].
Proof. apply (captured_app [a; b; c]). Qed.

Lemma captured_4 a b c d s :
  Re.captured (a :: b :: c :: d :: s) s = [a; b; c; d].
Proof. apply (captured_app [a; b; c; d]). Qed.

(** Evaluates the matches of a pattern on a text known up to its end. *)
Ltac eval_runs :=
  match goal with
  | |- context [runs ?i ?r ?s ?g] =>
      let v := eval vm_compute in (runs i r s g) in
      change (runs i r s g) with v
  end.

(** Goes through the cases of a finite enumeration. *)
Ltac forall_cases tac :=
  repeat (apply List.Forall_cons; [cbv beta; tac|]); apply List.Forall_nil.

(** After a two-digit field, a pattern that cannot start on a digit
    goes on after both digits. *)
Lemma two_digit_then r name v r2 s g :
  two_digit r name v -> halts_on_digit r2 ->
  runs true (Re.Cat r r2) (digit_char (v / 10) :: digit_char v :: s) g
  = runs true r2 s ((name, two v) :: g).
Proof.
  intros Hr H2. destruct (Hr s g) as (tl & Heq & Htl).
  rewrite runs_cat, Heq. simpl.
  assert (concat (map (fun m => runs true r2 (fst m) (snd m)) tl) = []) as ->.
  { clear Heq. induction Htl as [|[s' g'] tl Hm _ IH]; simpl in *; [done|].
    subst s'. rewrite IH. by rewrite H2 by apply digit_isdecimal. }
  apply app_nil_r.
Qed.

(** A two-digit field that ends the pattern and the text: the first
    match takes both digits. *)
Lemma two_digit_last r name v g :
  two_digit r name v ->
  exists tl,
    runs true (Re.Cat r Re.Eps) [digit_char (v / 10); digit_char v] g
    = ([], (name, two v) :: g) :: tl.
Proof.
  intros Hr. destruct (Hr [] g) as (tl & Heq & _).
  rewrite runs_cat, Heq. simpl. by eexists.
Qed.

Ltac below_each tac :=
  match goal with
  | |- forall v, (v < ?N)%nat -> @?P v =>
      apply (below_cases P N); forall_cases tac
  end.

Ltac two_digit_case :=
  intros s g; rewrite runs_grp; eval_runs; cbn [map fst snd];
  rewrite ?captured_1, ?captured_2;
  eexists; split; [reflexivity|repeat constructor].

(** The hour, the minute, the second, the month and the day. *)
Lemma two_digit_H v : (v < 24)%nat -> two_digit Strptime.re_H "H" v.
Proof.
  revert v. unfold two_digit, Strptime.re_H. below_each two_digit_case.
Qed.

Lemma two_digit_M v : (v < 60)%nat -> two_digit Strptime.re_M "M" v.
Proof.
  revert v. unfold two_digit, Strptime.re_M. below_each two_digit_case.
Qed.

Lemma two_digit_S v : (v < 60)%nat -> two_digit Strptime.re_S "S" v.
Proof.
  revert v. unfold two_digit, Strptime.re_S. below_each two_digit_case.
Qed.

Lemma two_digit_m v : (1 <= v <= 12)%nat -> two_digit Strptime.re_m "m" v.
Proof.
  intros [H1 H2]. assert (v < 13)%nat as Hv by lia. revert v Hv H1 H2.
  unfold two_digit, Strptime.re_m.
  below_each ltac:(first [by intros ?; lia | intros _ _; two_digit_case]).
Qed.

Lemma two_digit_d v : (1 <= v <= 31)%nat -> two_digit Strptime.re_d "d" v.
Proof.
  intros [H1 H2]. assert (v < 32)%nat as Hv by lia. revert v Hv H1 H2.
  unfold two_digit, Strptime.re_d.
  below_each ltac:(first [by intros ?; lia | intros _ _; two_digit_case]).
Qed.

(** The characters [\d] accepts. *)
Lemma isdecimal_cases (P : ascii -> Prop) :
  Forall P ["0"; "1"; "2"; "3"; "4"; "5"; "6"; "7"; "8"; "9"]%char ->
  forall c, PyStr.isdecimal c = true -> P c.
Proof.
  intros H c Hc. rewrite List.Forall_forall in H. apply H. revert Hc.
  destruct c as [[] [] [] [] [] [] [] []]; vm_compute; intros Hc;
    first [discriminate Hc | tauto].
Qed.

Ltac each_decimal tac :=
  match goal with
  | |- forall c, PyStr.isdecimal c = true -> @?P c =>
      apply (isdecimal_cases P); forall_cases tac
  end.

(** The year takes its four digits. *)
Lemma runs_Y r y s g :
  runs true (Re.Cat Strptime.re_Y r)
       (digit_char (y / 1000) :: digit_char (y / 100) :: digit_char (y / 10)
        :: digit_char y :: s) g
  = runs true r s (("Y", four y) :: g).
Proof.
  apply runs_one. unfold Strptime.re_Y, Strptime.d. rewrite runs_grp.
  cbn [Re.seq fold_right]. rewrite !runs_cls by apply digit_isdecimal.
  cbn [runs map fst snd]. by rewrite captured_4.
Qed.

(** A year does not match a day followed by a blank. *)
Lemma runs_Y_day r a b s g :
  runs true (Re.Cat Strptime.re_Y r) (a :: b :: " "%char :: s) g = [].
Proof.
  apply runs_none. unfold Strptime.re_Y, Strptime.d. rewrite runs_grp.
  cbn [Re.seq fold_right].
  destruct (PyStr.isdecimal a) eqn:Ha;
    [rewrite (runs_cls _ _ _ _ _ _ Ha)
    |by rewrite (runs_cls_other _ _ _ _ _ _ Ha)].
  destruct (PyStr.isdecimal b) eqn:Hb;
    [rewrite (runs_cls _ _ _ _ _ _ Hb)
    |by rewrite (runs_cls_other _ _ _ _ _ _ Hb)].
  by rewrite runs_cls_other.
Qed.

Ltac name_case :=
  intros r s g; apply runs_one;
  match goal with
  | |- context [runs true ?p _ _] =>
      let b := eval vm_compute in p in change p with b
  end;
  rewrite runs_grp; cbn [nth Nat.sub PyStr.chars list_ascii_of_string app];
  eval_runs; cbn [map fst snd]; by rewrite captured_3.

(** The names of the day and of the month are taken whole. *)
Lemma runs_a w : (w < 7)%nat -> forall r s g,
  runs true (Re.Cat Strptime.re_a r)
       (PyStr.chars (nth w WEEKDAYS "") ++ s)%list g
  = runs true r s (("a", PyStr.chars (nth w WEEKDAYS "")) :: g).
Proof. revert w. unfold WEEKDAYS. below_each name_case. Qed.

Lemma runs_b m : (1 <= m <= 12)%nat -> forall r s g,
  runs true (Re.Cat Strptime.re_b r)
       (PyStr.chars (nth (m - 1) MONTHS "") ++ s)%list g
  = runs true r s (("b", PyStr.chars (nth (m - 1) MONTHS "")) :: g).
Proof.
  intros [H1 H2]. assert (m < 13)%nat as Hm by lia. revert m Hm H1 H2.
  unfold MONTHS.
  below_each ltac:(first [by intros ?; lia | intros _ _; name_case]).
Qed.

(** *** Patterns that cannot start on a digit *)

Lemma halts_chr c r :
  Forall (fun d => Re.chr_eq true c d = false)
         ["0"; "1"; "2"; "3"; "4"; "5"; "6"; "7"; "8"; "9"]%char ->
  halts_on_digit (Re.Cat (Re.Chr c) r).
Proof.
  intros H d s g Hd. apply runs_chr_other. revert d Hd.
  by apply (isdecimal_cases (fun d => Re.chr_eq true c d = false)).
Qed.

Lemma halts_blank r : halts_on_digit (Re.Cat (Re.Plus PyStr.isspace) r).
Proof.
  intros d s g Hd. apply runs_blank_other. revert d Hd.
  each_decimal ltac:(reflexivity).
Qed.

Lemma halts_a r : halts_on_digit (Re.Cat Strptime.re_a r).
Proof.
  intros d s g Hd. apply runs_none. revert d Hd s g.
  each_decimal ltac:(intros s g; eval_runs; reflexivity).
Qed.

Lemma halts_z r : halts_on_digit (Re.Cat Strptime.re_z r).
Proof.
  intros d s g Hd. apply runs_none. revert d Hd s g.
  each_decimal ltac:(intros s g; eval_runs; reflexivity).
Qed.

Lemma runs_z_end r g : runs true (Re.Cat Strptime.re_z r) [] g = [].
Proof. reflexivity. Qed.

Create HintDb halts.
#[local] Hint Resolve halts_blank halts_a halts_z : halts.
#[local] Hint Extern 1 (halts_on_digit (Re.Cat (Re.Chr _) _)) =>
  apply halts_chr; repeat constructor : halts.

(** *** Numbers *)

Lemma chars_str l : PyStr.chars (PyStr.str l) = l.
Proof. apply list_ascii_of_string_of_list_ascii. Qed.

(** [int] reads a field back. *)
Lemma int_two v : (v < 100)%nat -> PyStr.int (two v) = Some (Z.of_nat v).
Proof. revert v. below_each ltac:(reflexivity). Qed.

Lemma int_four y :
  Z.of_nat y <= 9999 -> PyStr.int (four y) = Some (Z.of_nat y).
Proof.
  intros Hy. unfold PyStr.int, PyStr.strip, four. rewrite !chars_str.
  cbn [PyStr.lstrip rev app]. rewrite !digit_isspace.
  cbn [PyStr.lstrip rev app]. rewrite !digit_isspace.
  cbn [rev app forallb].
  rewrite !digit_isdecimal. cbn [andb]. f_equal.
  unfold PyStr.digits_val. cbn [fold_left]. rewrite !digit_val_char.
  change 1000%nat with (10 * 10 * 10)%nat. change 100%nat with (10 * 10)%nat.
  rewrite <- !Nat.Div0.div_div.
  rewrite !Nat2Z.inj_mod, !Nat2Z.inj_div. change (Z.of_nat 10) with 10.
  assert (0 <= Z.of_nat y) as H0 by lia.
  generalize dependent (Z.of_nat y). intros n Hn H0.
  Z.to_euclidean_division_equations. lia.
Qed.

(** No month has more than 31 days. *)
Lemma days_in_month_bound y m : Datetime.days_in_month y m <= 31.
Proof.
  unfold Datetime.days_in_month.
  repeat match goal with |- context [if ?b then _ else _] => destruct b end;
    lia.
Qed.

(** *** From the groups to the value *)

(** The group of a name is the latest one captured under it. *)
Lemma group_hit name v g : Re.group name ((name, v) :: g) = Some v.
Proof. unfold Re.group. simpl. by rewrite String.eqb_refl. Qed.

Lemma group_skip name name' v g :
  String.eqb name' name = false ->
  Re.group name ((name', v) :: g) = Re.group name g.
Proof. intros H. unfold Re.group. simpl. by rewrite H. Qed.

Lemma group_none name : Re.group name [] = None.
Proof. reflexivity. Qed.

Ltac find_groups :=
  repeat first [ rewrite group_hit
               | rewrite group_skip by reflexivity
               | rewrite group_none ].

Ltac read_groups :=
  unfold Strptime.month_of;
  unfold Strptime.int_group, Strptime.int_or_error;
  find_groups; cbv beta iota.

(** The fields of a date and of a time of day pass the checks of
    [datetime]; an offset of less than a day makes a [timezone]. *)
Lemma check_date_fields_ok y m d :
  1 <= y <= 9999 -> 1 <= m <= 12 -> 1 <= d <= Datetime.days_in_month y m ->
  Datetime.check_date_fields y m d = Ok tt.
Proof.
  intros Hy Hm Hd. unfold Datetime.check_date_fields.
  replace (1 <=? y) with true by lia. replace (y <=? 9999) with true by lia.
  replace (1 <=? m) with true by lia. replace (m <=? 12) with true by lia.
  replace (1 <=? d) with true by lia.
  replace (d <=? Datetime.days_in_month y m) with true by lia.
  reflexivity.
Qed.

Lemma check_time_fields_ok h mi s :
  0 <= h <= 23 -> 0 <= mi <= 59 -> 0 <= s <= 59 ->
  Datetime.check_time_fields h mi s 0 = Ok tt.
Proof.
  intros Hh Hmi Hs. unfold Datetime.check_time_fields.
  replace (0 <=? h) with true by lia. replace (h <=? 23) with true by lia.
  replace (0 <=? mi) with true by lia. replace (mi <=? 59) with true by lia.
  replace (0 <=? s) with true by lia. replace (s <=? 59) with true by lia.
  reflexivity.
Qed.

Lemma make_ok y m d h mi s tz :
  1 <= y <= 9999 -> 1 <= m <= 12 -> 1 <= d <= Datetime.days_in_month y m ->
  0 <= h <= 23 -> 0 <= mi <= 59 -> 0 <= s <= 59 ->
  Datetime.make y m d h mi s 0 tz = Ok (Datetime.mk y m d h mi s 0 tz).
Proof.
  intros. unfold Datetime.make.
  rewrite check_date_fields_ok by assumption.
  by rewrite check_time_fields_ok by assumption.
Qed.

Lemma timezone_ok off :
  - Datetime.day_us < off < Datetime.day_us -> Datetime.timezone off = Ok off.
Proof.
  intros H. unfold Datetime.timezone.
  replace (- Datetime.day_us <? off) with true by lia.
  by replace (off <? Datetime.day_us) with true by lia.
Qed.

(** *** The blanks around the string and the offset at its end *)

(** [[+-]\d{4}$] matches a sign and four digits that end the string,
    a final newline apart. *)
Lemma offset_tail_runs s g :
  runs false PodcastRSSParser.offset_tail s g
  = match s with
    | a :: b :: c :: d :: e :: rest =>
        if Re.oneof "+-" a && PyStr.isdecimal b && PyStr.isdecimal c
           && PyStr.isdecimal d && PyStr.isdecimal e
        then runs false Re.Eos rest g
        else []
    | _ => []
    end.
Proof.
  unfold PodcastRSSParser.offset_tail, PodcastRSSParser.sign,
    PodcastRSSParser.digit. cbn [Re.seq fold_right].
  destruct s as [|a [|b [|c [|d [|e rest]]]]]; try reflexivity;
    repeat match goal with
    | |- runs _ (Re.Cat (Re.Cls ?p) _) (?x :: _) _ = _ =>
        let H := fresh in
        destruct (p x) eqn:H;
        [rewrite (runs_cls _ _ _ _ _ _ H)
        |by rewrite (runs_cls_other _ _ _ _ _ _ H)]
    | |- runs _ (Re.Cat (Re.Cls ?p) _) [] _ = _ => reflexivity
    end.
  cbn [andb]. rewrite runs_cat. cbn [runs].
  destruct rest as [|x [|y rest]]; cbn; [done| |done].
  by destruct (Ascii.eqb x "010").
Qed.

(** [([+-]\d{2})(\d{2})$] matches the same strings, and keeps the sign
    with the hours and the minutes. *)
Lemma offset_split_runs s g :
  runs false PodcastRSSParser.offset_split s g
  = match s with
    | a :: b :: c :: d :: e :: rest =>
        if Re.oneof "+-" a && PyStr.isdecimal b && PyStr.isdecimal c
           && PyStr.isdecimal d && PyStr.isdecimal e
        then runs false Re.Eos rest (("2", [d; e]) :: ("1", [a; b; c]) :: g)
        else []
    | _ => []
    end.
Proof.
  unfold PodcastRSSParser.offset_split, PodcastRSSParser.sign,
    PodcastRSSParser.digit. cbn [Re.seq fold_right].
  rewrite runs_cat, runs_grp.
  destruct s as [|a s]; [reflexivity|].
  destruct (Re.oneof "+-" a) eqn:Ha;
    [rewrite (runs_cls _ _ _ _ _ _ Ha)
    |rewrite (runs_cls_other _ _ _ _ _ _ Ha);
     by destruct s as [|? [|? [|? [|? ?]]]]].
  destruct s as [|b s]; [reflexivity|].
  destruct (PyStr.isdecimal b) eqn:Hb;
    [rewrite (runs_cls _ _ _ _ _ _ Hb)
    |rewrite (runs_cls_other _ _ _ _ _ _ Hb);
     by destruct s as [|? [|? [|? ?]]]].
  destruct s as [|c s]; [reflexivity|].
  destruct (PyStr.isdecimal c) eqn:Hc;
    [rewrite (runs_cls _ _ _ _ _ _ Hc)
    |rewrite (runs_cls_other _ _ _ _ _ _ Hc); by destruct s as [|? [|? ?]]].
  rewrite runs_eps. cbn [map concat fst snd app].
  rewrite captured_3, app_nil_r, runs_cat, runs_grp.
  destruct s as [|d s]; [reflexivity|].
  destruct (PyStr.isdecimal d) eqn:Hd;
    [rewrite (runs_cls _ _ _ _ _ _ Hd)
    |rewrite (runs_cls_other _ _ _ _ _ _ Hd); by destruct s as [|? ?]].
  destruct s as [|e s]; [reflexivity|].
  destruct (PyStr.isdecimal e) eqn:He;
    [rewrite (runs_cls _ _ _ _ _ _ He)
    |by rewrite (runs_cls_other _ _ _ _ _ _ He)].
  rewrite runs_eps. cbn [map concat fst snd app andb].
  rewrite captured_2, app_nil_r, runs_cat.
  destruct s as [|x [|y s]]; cbn; [done| |done].
  by destruct (Ascii.eqb x "010").
Qed.

(** The end of the string is within its last six characters. *)
Lemma eos_long s g : (2 <= length s)%nat -> runs false Re.Eos s g = [].
Proof. destruct s as [|a [|b s]]; simpl; [lia|lia|done]. Qed.

(** Neither pattern matches with more than six characters left. *)
Lemma offset_tail_long s :
  (7 <= length s)%nat -> Re.rmatch false PodcastRSSParser.offset_tail s = None.
Proof.
  intros H. rewrite rmatch_runs, offset_tail_runs.
  destruct s as [|a [|b [|c [|d [|e rest]]]]]; try done.
  rewrite eos_long by (simpl in H; lia). by destruct (_ && _).
Qed.

Lemma offset_split_long s :
  (7 <= length s)%nat -> Re.rmatch false PodcastRSSParser.offset_split s = None.
Proof.
  intros H. rewrite rmatch_runs, offset_split_runs.
  destruct s as [|a [|b [|c [|d [|e rest]]]]]; try done.
  rewrite eos_long by (simpl in H; lia). by destruct (_ && _).
Qed.

(** So the search and the rewriting pass over all but the last six. *)
Lemma search_offset_tail_long p s :
  (6 <= length s)%nat ->
  Re.search PodcastRSSParser.offset_tail (p ++ s)
  = Re.search PodcastRSSParser.offset_tail s.
Proof.
  intros H. induction p as [|c p IH]; [done|].
  cbn [app Re.search]. rewrite offset_tail_long; [done|].
  simpl. rewrite length_app. lia.
Qed.

Lemma sub_offset_split_long repl p s :
  (6 <= length s)%nat ->
  Re.sub_from PodcastRSSParser.offset_split repl 0 (p ++ s)
  = (p ++ Re.sub_from PodcastRSSParser.offset_split repl 0 s)%list.
Proof.
  intros H. induction p as [|c p IH]; [done|].
  cbn [app Re.sub_from]. rewrite offset_split_long; [by rewrite IH|].
  simpl. rewrite length_app. lia.
Qed.

(** The last six characters of a string without an offset. *)
Lemma search_offset_tail_none c0 c1 c2 c3 c4 c5 :
  Re.oneof "+-" c0 && PyStr.isdecimal c3 = false ->
  Re.oneof "+-" c1 = false ->
  Re.search PodcastRSSParser.offset_tail [c0; c1; c2; c3; c4; c5] = None.
Proof.
  intros H0 H1. cbn [Re.search]. rewrite !rmatch_runs, !offset_tail_runs.
  rewrite H1. cbn [andb].
  destruct (Re.oneof "+-" c0); [|done]. cbn [andb] in *. rewrite H0.
  by rewrite !andb_false_r.
Qed.

(** The last six characters of a string that ends with an offset:
    the offset is found, and rewritten with a colon. *)
Lemma search_offset_tail_some c sg h1 h2 m1 m2 :
  Re.oneof "+-" c = false -> Re.oneof "+-" sg = true ->
  PyStr.isdecimal h1 = true -> PyStr.isdecimal h2 = true ->
  PyStr.isdecimal m1 = true -> PyStr.isdecimal m2 = true ->
  Re.search PodcastRSSParser.offset_tail [c; sg; h1; h2; m1; m2] = Some [].
Proof.
  intros Hc Hs H1 H2 H3 H4. cbn [Re.search].
  rewrite !rmatch_runs, !offset_tail_runs. rewrite Hc, Hs, H1, H2, H3, H4.
  reflexivity.
Qed.

Lemma sub_offset_split_some c sg h1 h2 m1 m2 :
  Re.oneof "+-" c = false -> Re.oneof "+-" sg = true ->
  PyStr.isdecimal h1 = true -> PyStr.isdecimal h2 = true ->
  PyStr.isdecimal m1 = true -> PyStr.isdecimal m2 = true ->
  Re.sub_from PodcastRSSParser.offset_split
              PodcastRSSParser.offset_with_colon 0 [c; sg; h1; h2; m1; m2]
  = [c; sg; h1; h2; ":"%char; m1; m2].
Proof.
  intros Hc Hs H1 H2 H3 H4. cbn [Re.sub_from].
  rewrite !rmatch_runs, !offset_split_runs. rewrite Hc, Hs, H1, H2, H3, H4.
  reflexivity.
Qed.

(** *** The names of the days and of the months *)

(** Each name is three letters. *)
Lemma weekday_letters w :
  (w < 7)%nat ->
  exists a b c,
    PyStr.chars (nth w WEEKDAYS "") = [a; b; c]
    /\ plain_char a /\ plain_char b /\ plain_char c.
Proof.
  revert w. below_each ltac:(by eexists _, _, _).
Qed.

Lemma month_letters m :
  (1 <= m <= 12)%nat ->
  exists a b c,
    PyStr.chars (nth (m - 1) MONTHS "") = [a; b; c]
    /\ plain_char a /\ plain_char b /\ plain_char c.
Proof.
  intros [H1 H2]. assert (m < 13)%nat as Hm by lia. revert m Hm H1 H2.
  below_each ltac:(first [by intros ?; lia | by intros _ _; eexists _, _, _]).
Qed.

(** [strip] leaves a string that neither starts nor ends with a blank. *)
Lemma strip_unchanged l :
  match l with c :: _ => PyStr.isspace c | [] => false end = false ->
  match rev l with c :: _ => PyStr.isspace c | [] => false end = false ->
  PyStr.strip (PyStr.str l) = PyStr.str l.
Proof.
  intros H1 H2. unfold PyStr.strip. rewrite chars_str. f_equal.
  assert (forall k, match k with c :: _ => PyStr.isspace c | [] => false end
                    = false -> PyStr.lstrip k = k) as Hk.
  { intros [|c k] Hc; simpl; [done|]. by rewrite Hc. }
  rewrite (Hk l H1), (Hk _ H2). apply rev_involutive.
Qed.

(** Names the fields of a stamp and the facts known of them. *)
Ltac open_stamp t :=
  destruct t as [w y m d h mi s west oh om];
  unfold well_formed;
  cbn [st_weekday st_year st_month st_day st_hour st_minute st_second
       st_west st_off_hours st_off_minutes];
  intros (Hw & Hy & Hm & Hd & Hh & Hmi & Hs & Hoh & Hom);
  assert (1 <= d <= 31)%nat as Hd'
    by (pose proof (days_in_month_bound (Z.of_nat y) (Z.of_nat m)); lia).

(** Spells a written string out, character by character. *)
Ltac spell :=
  unfold written, written_colon;
  cbn [written_chars written_field PyStr.chars list_ascii_of_string
       Ascii.eqb Bool.eqb two four app offset_text st_weekday st_year
       st_month st_day st_hour st_minute st_second st_west st_off_hours
       st_off_minutes].

(** Spells the names out as well. *)
Ltac letters :=
  repeat match goal with
  | H : (?w < 7)%nat |- context [PyStr.chars (nth ?w WEEKDAYS "")] =>
      destruct (weekday_letters w H)
        as (? & ? & ? & -> & (? & ? & ?) & (? & ? & ?) & (? & ? & ?))
  | H : (1 <= ?m <= 12)%nat
    |- context [PyStr.chars (nth (?m - 1) MONTHS "")] =>
      destruct (month_letters m H)
        as (? & ? & ? & -> & (? & ? & ?) & (? & ? & ?) & (? & ? & ?))
  end;
  cbn [app].

(** What is known of one character. *)
Ltac char_fact :=
  first [ assumption | apply digit_isspace | apply digit_sign
        | apply digit_isdecimal | reflexivity
        | rewrite ?digit_sign, ?digit_isdecimal; reflexivity
        | match goal with H : _ = false |- _ => by rewrite H end ].

(** Splits a text before its last six characters. *)
Ltac last_six l :=
  let n := eval lazy in (length l - 6)%nat in
  let p := eval lazy beta iota delta [firstn] in (firstn n l) in
  let s := eval lazy beta iota delta [skipn] in (skipn n l) in
  change l with (p ++ s)%list.

(** Settles the search for an offset, and its rewriting, from the last
    six characters. *)
Ltac offset_at_end :=
  match goal with
  | |- context [Re.search PodcastRSSParser.offset_tail ?l] => last_six l
  end;
  rewrite search_offset_tail_long by (cbn [length]; lia);
  first
    [ rewrite search_offset_tail_none by char_fact
    | rewrite search_offset_tail_some by char_fact;
      unfold Re.sub;
      rewrite sub_offset_split_long by (cbn [length]; lia);
      rewrite sub_offset_split_some by char_fact ];
  cbn [app]; reflexivity.

Ltac preprocess :=
  unfold preprocessed; spell; letters;
  rewrite strip_unchanged by (cbn [rev app]; char_fact);
  rewrite chars_str; offset_at_end.

(** The normaliser leaves such a string as it is, but for the colon it
    puts in the offset. *)
Lemma preprocessed_written t fmt :
  well_formed t ->
  In fmt PodcastRSSParser.formats -> fmt <> NAMED_ZONE_LAYOUT ->
  preprocessed (written t fmt) = written_colon t fmt.
Proof.
  open_stamp t. destruct west.
  all: intros Hin Hfmt; unfold PodcastRSSParser.formats in Hin;
    repeat (destruct Hin as [<-|Hin]; [try (by destruct Hfmt)|]);
    try (by destruct Hin).
  all: preprocess.
Qed.

(** *** The end of a match: the offset *)

Lemma runs_alt icase r1 r2 s g :
  runs icase (Re.Alt r1 r2) s g
  = (runs icase r1 s g ++ runs icase r2 s g)%list.
Proof. reflexivity. Qed.

(** An optional character that is there, where what follows cannot
    start on it. *)
Lemma runs_opt_chr icase c d r s g :
  Re.chr_eq icase c d = true -> runs icase r (d :: s) g = [] ->
  runs icase (Re.Cat (Re.opt (Re.Chr c)) r) (d :: s) g = runs icase r s g.
Proof.
  intros Hc Hr. rewrite runs_cat. unfold Re.opt. rewrite runs_alt, runs_eps.
  change (runs icase (Re.Chr c) (d :: s) g)
    with (if Re.chr_eq icase c d then [(s, g)] else []).
  rewrite Hc. cbn [app map concat fst snd]. by rewrite Hr, app_nil_r.
Qed.

(** A group that goes to the end of the text keeps all of it. *)
Lemma captured_all s : Re.captured s [] = s.
Proof. rewrite <- (app_nil_r s) at 1. apply captured_app. Qed.

(** The tens of the minutes are at most five. *)
Lemma minutes_tens v :
  (v < 60)%nat -> Re.range "0" "5" (digit_char (v / 10)) = true.
Proof. revert v. below_each ltac:(reflexivity). Qed.

(** [%z] on an offset with a colon that ends the string. *)
Lemma runs_z_colon sg oh om g :
  Re.oneof "+-" sg = true -> (om < 60)%nat ->
  runs true (Re.Cat Strptime.re_z Re.Eps)
       [sg; digit_char (oh / 10); digit_char oh; ":"%char;
        digit_char (om / 10); digit_char om] g
  = [([], ("z", [sg; digit_char (oh / 10); digit_char oh; ":"%char;
                 digit_char (om / 10); digit_char om]) :: g)].
Proof.
  intros Hsg Hom. rewrite runs_cat. unfold Strptime.re_z.
  rewrite runs_grp, runs_alt. unfold Strptime.d, Strptime.cr.
  cbn [Re.seq fold_right].
  rewrite runs_cls by done. rewrite !runs_cls by apply digit_isdecimal.
  rewrite runs_opt_chr by first [reflexivity | by rewrite runs_cls_other].
  rewrite runs_cls by (apply minutes_tens; assumption).
  rewrite runs_cls by apply digit_isdecimal.
  change (runs true (Re.Sens (Re.Chr "Z")) (sg :: _) g)
    with (if Ascii.eqb "Z" sg then
            [(digit_char (oh / 10) :: digit_char oh :: ":"%char
              :: digit_char (om / 10) :: [digit_char om], g)]
          else []).
  assert (Ascii.eqb "Z" sg = false) as ->.
  { destruct (Ascii.eqb_spec "Z" sg) as [<-|]; [discriminate Hsg|done]. }
  match goal with
  | |- context [runs true (Re.Cat (Re.opt ?x) Re.Eps) [] ?g'] =>
      change (runs true (Re.Cat (Re.opt x) Re.Eps) [] g')
        with [([] : list ascii, g')]
  end.
  cbn [app map concat fst snd]. by rewrite runs_eps, captured_all.
Qed.

(** [%z] on the letter Z. *)
Lemma runs_z_zulu g :
  runs true (Re.Cat Strptime.re_z Re.Eps) ["Z"%char] g
  = [([], ("z", ["Z"%char]) :: g)].
Proof. reflexivity. Qed.

Lemma runs_a_digit r n s g :
  runs true (Re.Cat Strptime.re_a r) (digit_char n :: s) g = [].
Proof. apply halts_a, digit_isdecimal. Qed.

(** A blank, then the name of a month. *)
Lemma runs_blank_b m r s g :
  (1 <= m <= 12)%nat ->
  runs true (Re.Cat (Re.Plus PyStr.isspace) (Re.Cat Strptime.re_b r))
       (" "%char :: PyStr.chars (nth (m - 1) MONTHS "") ++ s)%list g
  = runs true r s (("b", PyStr.chars (nth (m - 1) MONTHS "")) :: g).
Proof.
  intros Hm. rewrite <- (runs_b m Hm).
  destruct (month_letters m Hm) as (a & b & c & -> & (Ha & _) & _).
  cbn [app]. by rewrite runs_blank.
Qed.

(** The first match, of a matcher that asks for no more. *)
Lemma two_digit_head r name v g :
  two_digit r name v ->
  head (runs true (Re.Cat r Re.Eps) [digit_char (v / 10); digit_char v] g)
  = Some ([], (name, two v) :: g).
Proof. intros Hr. by destruct (two_digit_last r name v g Hr) as [tl ->]. Qed.

Lemma rmatch_head icase r s :
  Re.rmatch icase r s
  = (fun m => (snd m, fst m)) <$> head (runs icase r s []).
Proof. rewrite rmatch_runs. by destruct (runs icase r s []). Qed.

(** *** The offset, from its text *)

(** The offset in microseconds, from its text with a colon. *)
Lemma gmtoff_colon (west : bool) oh om :
  (oh < 100)%nat -> (om < 100)%nat ->
  Strptime.gmtoff_of [if west then "-"%char else "+"%char;
                      digit_char (oh / 10); digit_char oh; ":"%char;
                      digit_char (om / 10); digit_char om]
  = Ok (let off := (Z.of_nat oh * 3600 + Z.of_nat om * 60) * 1000000 in
        if west then - off else off).
Proof.
  intros Hoh Hom.
  transitivity
    (hours <-? Strptime.int_or_error (two oh);
     minutes <-? Strptime.int_or_error (two om);
     Ok (let off := (hours * 3600 + minutes * 60 + 0) * 1000000 + 0 in
         if west then - off else off)).
  - by destruct west.
  - unfold Strptime.int_or_error. rewrite !int_two by done.
    cbn [bind_result]. cbv zeta. f_equal. destruct west; lia.
Qed.

(** The month, from its name. *)
Lemma month_index m :
  (1 <= m <= 12)%nat ->
  Strptime.index_of
    (PyStr.lower (PyStr.str (PyStr.chars (nth (m - 1) MONTHS ""))))
    Strptime.a_month
  = Some (m - 1)%nat.
Proof.
  intros [H1 H2]. assert (m < 13)%nat as Hm by lia. revert m Hm H1 H2.
  below_each ltac:(first [by intros ?; lia | intros _ _; reflexivity]).
Qed.

(** ** A zone given by name *)

Lemma search_cons r c s :
  Re.search r (c :: s)
  = match Re.rmatch false r (c :: s) with
    | Some (g, _) => Some g
    | None => Re.search r s
    end.
Proof. reflexivity. Qed.

(** [[+-]\d{4}$] finds nothing in a string that ends with a letter. *)
Lemma offset_tail_runs_end s x g :
  PyStr.isdecimal x = false -> PyStr.isspace x = false ->
  runs false PodcastRSSParser.offset_tail (s ++ [x]) g = [].
Proof.
  intros Hd Hs. rewrite offset_tail_runs.
  destruct s as [|a [|b [|c [|d [|e rest]]]]]; cbn [app]; try done.
  - by rewrite Hd, !andb_false_r.
  - destruct (_ && _); [|done].
    destruct rest as [|y [|z rest]]; cbn [app runs]; [|done|done].
    destruct (Ascii.eqb_spec x "010") as [->|]; [discriminate Hs|done].
Qed.

Lemma search_offset_tail_end s x :
  PyStr.isdecimal x = false -> PyStr.isspace x = false ->
  Re.search PodcastRSSParser.offset_tail (s ++ [x]) = None.
Proof.
  intros Hd Hs. induction s as [|c s IH].
  - cbn [app]. rewrite search_cons, rmatch_runs.
    by rewrite (offset_tail_runs_end [] x).
  - cbn [app]. rewrite search_cons, rmatch_runs.
    by rewrite (offset_tail_runs_end (c :: s) x).
Qed.

(** The normaliser leaves a string alone that starts on no blank and
    ends with a letter. *)
Lemma preprocessed_plain_ends a l x :
  PyStr.isspace a = false ->
  PyStr.isdecimal x = false -> PyStr.isspace x = false ->
  preprocessed (PyStr.str (a :: l ++ [x])) = PyStr.str (a :: l ++ [x]).
Proof.
  intros Ha Hd Hs. unfold preprocessed.
  rewrite strip_unchanged.
  - rewrite chars_str.
    change (a :: l ++ [x]) with ((a :: l) ++ [x])%list.
    by rewrite search_offset_tail_end.
  - done.
  - cbn [rev]. by rewrite rev_app_distr.
Qed.

(** A year and a day of the month cannot start on a letter; an offset
    can only with the letter Z. *)
Lemma runs_Y_other r c s g :
  PyStr.isdecimal c = false ->
  runs true (Re.Cat Strptime.re_Y r) (c :: s) g = [].
Proof.
  intros H. apply runs_none. unfold Strptime.re_Y, Strptime.d.
  rewrite runs_grp. cbn [Re.seq fold_right]. by rewrite runs_cls_other.
Qed.

Lemma runs_d_other r c s g :
  PyStr.isdecimal c = false -> PyStr.isspace c = false ->
  runs true (Re.Cat Strptime.re_d r) (c :: s) g = [].
Proof.
  intros Hd Hs. apply runs_none. revert Hd Hs s g.
  destruct c as [[] [] [] [] [] [] [] []]; intros Hd Hs;
    try discriminate Hd; try discriminate Hs; intros s g; eval_runs;
    reflexivity.
Qed.

Lemma runs_z_letter r c s g :
  Re.oneof "+-" c = false ->
  runs true (Re.Cat Strptime.re_z r) (c :: s) g
  = if Ascii.eqb "Z" c then runs true r s (("z", [c]) :: g) else [].
Proof.
  intros Hc. rewrite runs_cat. unfold Strptime.re_z.
  rewrite runs_grp, runs_alt. unfold Strptime.d, Strptime.cr.
  cbn [Re.seq fold_right]. rewrite runs_cls_other by done.
  change (runs true (Re.Sens (Re.Chr "Z")) (c :: s) g)
    with (if Ascii.eqb "Z" c then [(s, g)] else []).
  destruct (Ascii.eqb "Z" c); [|done].
  cbn [app map concat fst snd]. by rewrite captured_1, app_nil_r.
Qed.

(** The first match of a two-digit field that ends the pattern, with
    text left. *)
Lemma two_digit_head_more r name v s g :
  two_digit r name v ->
  head (runs true (Re.Cat r Re.Eps)
             (digit_char (v / 10) :: digit_char v :: s) g)
  = Some (s, (name, two v) :: g).
Proof.
  intros Hr. destruct (Hr s g) as (tl & Heq & _).
  by rewrite runs_cat, Heq.
Qed.

(** *** The last resort: a day, a month and a year in the string *)

Lemma runs_cls_at icase p c s g :
  runs icase (Re.Cls p) (c :: s) g = if p c then [(s, g)] else [].
Proof. reflexivity. Qed.

(** [(\d{1,2})\s+(\w{3})\s+(\d{4})] starts on a digit. *)
Lemma day_month_year_other c s :
  PyStr.isdecimal c = false ->
  Re.rmatch false PodcastRSSParser.day_month_year (c :: s) = None.
Proof.
  intros Hc. rewrite rmatch_runs.
  unfold PodcastRSSParser.day_month_year, PodcastRSSParser.digit.
  cbn [Re.seq fold_right]. rewrite runs_cat, runs_grp.
  by rewrite (runs_cls_other _ _ _ _ _ _ Hc).
Qed.

Ltac word_case :=
  intros r s g; cbn [nth Nat.sub PyStr.chars list_ascii_of_string app];
  rewrite runs_blank by reflexivity; rewrite runs_cat, runs_grp;
  cbn [Re.seq fold_right]; rewrite !runs_cls by reflexivity;
  rewrite runs_eps; cbn [map concat fst snd app];
  by rewrite captured_3, app_nil_r.

(** A blank and the name of a month are a blank and three letters. *)
Lemma runs_blank_word m :
  (1 <= m <= 12)%nat -> forall r s g,
  runs false
       (Re.Cat (Re.Plus PyStr.isspace)
          (Re.Cat (Re.Grp "2" (Re.seq [Re.Cls PyStr.isword;
                                       Re.Cls PyStr.isword;
                                       Re.Cls PyStr.isword])) r))
       (" "%char :: PyStr.chars (nth (m - 1) MONTHS "") ++ s)%list g
  = runs false r s (("2", PyStr.chars (nth (m - 1) MONTHS "")) :: g).
Proof.
  intros [H1 H2]. assert (m < 13)%nat as Hm by lia. revert m Hm H1 H2.
  unfold MONTHS.
  below_each ltac:(first [by intros ?; lia | intros _ _; word_case]).
Qed.

(** On a day, the name of a month and a year it takes the three. *)
Lemma day_month_year_here d m y rest :
  (1 <= m <= 12)%nat ->
  Re.rmatch false PodcastRSSParser.day_month_year
            (two d ++ " "%char :: PyStr.chars (nth (m - 1) MONTHS "")
             ++ " "%char :: four y ++ rest)%list
  = Some ([("3", four y); ("2", PyStr.chars (nth (m - 1) MONTHS ""));
           ("1", two d)], rest).
Proof.
  intros Hm. rewrite rmatch_head.
  unfold PodcastRSSParser.day_month_year, PodcastRSSParser.digit.
  cbn [Re.seq fold_right two four app].
  rewrite runs_cat, runs_grp. rewrite runs_cls by apply digit_isdecimal.
  unfold Re.opt at 1. rewrite runs_alt, runs_cls_at, digit_isdecimal, runs_eps.
  cbn [app map concat fst snd]. rewrite captured_2, captured_1.
  rewrite (runs_blank_other _ _ (digit_char d)) by apply digit_isspace.
  rewrite !app_nil_r. rewrite runs_blank_word by done.
  rewrite runs_blank by apply digit_isspace.
  rewrite runs_cat, runs_grp. rewrite !runs_cls by apply digit_isdecimal.
  rewrite runs_eps. cbn [map concat fst snd app].
  by rewrite captured_4.
Qed.

(** The search passes over what is no digit. *)
Lemma search_day_month_year pre d m y rest :
  Forall (fun c => PyStr.isdecimal c = false) pre -> (1 <= m <= 12)%nat ->
  Re.search PodcastRSSParser.day_month_year
            (pre ++ two d ++ " "%char :: PyStr.chars (nth (m - 1) MONTHS "")
             ++ " "%char :: four y ++ rest)%list
  = Some [("3", four y); ("2", PyStr.chars (nth (m - 1) MONTHS ""));
          ("1", two d)].
Proof.
  intros Hpre Hm. induction Hpre as [|c pre Hc _ IH].
  - cbn [app]. change (two d ++ ?l)%list
      with (digit_char (d / 10) :: digit_char d :: l).
    rewrite search_cons.
    change (digit_char (d / 10) :: digit_char d :: ?l)
      with (two d ++ l)%list.
    by rewrite day_month_year_here.
  - cbn [app]. by rewrite search_cons, day_month_year_other.
Qed.

(** The table of the last resort has the names of [strftime]. *)
Lemma month_lookup_name m :
  (1 <= m <= 12)%nat ->
  PodcastRSSParser.month_lookup
    (PyStr.str (PyStr.chars (nth (m - 1) MONTHS "")))
  = Some (Z.of_nat m).
Proof.
  intros [H1 H2]. assert (m < 13)%nat as Hm by lia. revert m Hm H1 H2.
  below_each ltac:(first [by intros ?; lia | intros _ _; reflexivity]).
Qed.

(** So a day, the name of a month and a year after text without a
    digit give midnight of that day, without a zone. *)
Lemma extract_date_part_found pre d m y rest :
  Forall (fun c => PyStr.isdecimal c = false) pre ->
  1 <= Z.of_nat y <= 9999 -> (1 <= m <= 12)%nat ->
  1 <= Z.of_nat d <= Datetime.days_in_month (Z.of_nat y) (Z.of_nat m) ->
  PodcastRSSParser.extract_date_part
    (PyStr.str (pre ++ two d ++ " "%char
                :: PyStr.chars (nth (m - 1) MONTHS "")
                ++ " "%char :: four y ++ rest))
  = ([], Ok (Some (Datetime.mk (Z.of_nat y) (Z.of_nat m) (Z.of_nat d)
                               0 0 0 0 None))).
Proof.
  intros Hpre Hy Hm Hd.
  assert (d < 100)%nat as Hd'
    by (pose proof (days_in_month_bound (Z.of_nat y) (Z.of_nat m)); lia).
  unfold PodcastRSSParser.extract_date_part.
  rewrite chars_str, search_day_month_year by done.
  find_groups. cbv beta iota. rewrite month_lookup_name by done.
  unfold Strptime.int_or_error. rewrite int_four, int_two by lia.
  unfold out_try, out_bind, out_lift, out_ret. cbn [app].
  by rewrite make_ok by lia.
Qed.

(** *** The names of [%Z] *)

(** A literal matches in one way at most. *)
Lemma runs_lit n s g :
  runs true (Re.lit n) s g
  = match after_prefix (PyStr.chars n) s with
    | Some s' => [(s', g)]
    | None => []
    end.
Proof.
  unfold Re.lit, Re.seq. generalize (PyStr.chars n). intros p. revert s.
  induction p as [|c p IH]; intros s; cbn [map fold_right after_prefix].
  - reflexivity.
  - destruct s as [|d s]; [reflexivity|].
    destruct (Re.chr_eq true c d) eqn:H.
    + rewrite runs_chr by done. apply IH.
    + by rewrite runs_chr_other.
Qed.

(** Alternatives are tried in their order. *)
Lemma runs_fold_alt icase rs : forall r s g,
  runs icase (fold_left Re.Alt rs r) s g
  = (runs icase r s g ++ concat (map (fun r' => runs icase r' s g) rs))%list.
Proof.
  induction rs as [|r' rs IH]; intros r s g; cbn [fold_left map concat].
  - by rewrite app_nil_r.
  - rewrite IH, runs_alt. by rewrite <- app_assoc.
Qed.

Lemma runs_alts icase rs s g :
  rs <> [] ->
  runs icase (Re.alts rs) s g = concat (map (fun r => runs icase r s g) rs).
Proof.
  destruct rs as [|r rs]; [done|]. intros _. apply runs_fold_alt.
Qed.

Lemma runs_cat_eps icase r s g :
  runs icase (Re.Cat r Re.Eps) s g = runs icase r s g.
Proof.
  rewrite runs_cat. induction (runs icase r s g) as [|[s' g'] l IH];
    [done|]. cbn [map concat fst snd].
  change (runs icase Re.Eps s' g') with [(s', g')]. cbn [app].
  by rewrite IH.
Qed.

Lemma after_prefix_length p : forall s s',
  after_prefix p s = Some s' -> length s = (length p + length s')%nat.
Proof.
  induction p as [|c p IH]; intros s s'; cbn [after_prefix].
  - by intros [= ->].
  - destruct s as [|d s]; [done|]. destruct (Re.chr_eq true c d); [|done].
    intros H%IH. simpl. lia.
Qed.

Lemma after_prefix_all p : forall s,
  after_prefix p s = Some []
  <-> map PyStr.lower_char p = map PyStr.lower_char s.
Proof.
  induction p as [|c p IH]; intros s; cbn [after_prefix map].
  - split; [by intros [= ->]|]. by destruct s.
  - destruct s as [|d s]; [done|]. cbn [map]. unfold Re.chr_eq.
    destruct (Ascii.eqb_spec (PyStr.lower_char c) (PyStr.lower_char d))
      as [Heq|Hne].
    + rewrite IH. split; [by intros ->; rewrite Heq|by intros [= _ ->]].
    + split; [done|]. by intros [= ? _].
Qed.

(** The names are sorted, the longest first, and none is lost. *)
Lemma insert_by_len_in x l n :
  In n (Strptime.insert_by_len x l) <-> n = x \/ In n l.
Proof.
  induction l as [|y l IH]; cbn [Strptime.insert_by_len].
  - simpl. intuition.
  - destruct (_ <=? _)%nat; simpl; [intuition|]. rewrite IH. intuition.
Qed.

Lemma sort_by_len_in l n : In n (Strptime.sort_by_len l) <-> In n l.
Proof.
  unfold Strptime.sort_by_len. induction l as [|x l IH]; [done|].
  cbn [fold_right]. rewrite insert_by_len_in, IH. simpl. intuition.
Qed.

Lemma insert_by_len_longest x l :
  longest_first l -> longest_first (Strptime.insert_by_len x l).
Proof.
  induction l as [|y l IH]; cbn [Strptime.insert_by_len longest_first].
  - intros _. by split; [constructor|].
  - intros [Hy Hl].
    destruct (Nat.leb_spec (String.length y) (String.length x)) as [Hle|Hgt];
      cbn [longest_first].
    + split; [|by split]. constructor; [done|].
      eapply List.Forall_impl; [|exact Hy]. cbv beta. intros; lia.
    + split; [|by apply IH]. apply List.Forall_forall.
      intros n [->|Hn]%insert_by_len_in; [lia|].
      rewrite List.Forall_forall in Hy. by apply Hy.
Qed.

Lemma sort_by_len_longest l : longest_first (Strptime.sort_by_len l).
Proof.
  unfold Strptime.sort_by_len. induction l as [|x l IH]; [done|].
  cbn [fold_right]. by apply insert_by_len_longest.
Qed.

Lemma length_chars s : length (PyStr.chars s) = String.length s.
Proof.
  unfold PyStr.chars. induction s as [|c s IH]; [done|]. simpl.
  by rewrite IH.
Qed.

(** The first name that matches the head of a text: it takes the whole
    text when some name does. *)
Lemma first_prefix_whole l s g n :
  longest_first l -> In n l ->
  after_prefix (PyStr.chars n) s = Some [] ->
  head (concat (map (fun x => runs true (Re.lit x) s g) l)) = Some ([], g).
Proof.
  intros Hl Hn Hall. induction l as [|y l IH]; [done|].
  cbn [map concat]. rewrite runs_lit. destruct Hl as [Hy Hl].
  destruct (after_prefix (PyStr.chars y) s) as [s'|] eqn:Hys.
  - cbn [app head]. f_equal. f_equal.
    apply after_prefix_length in Hys. apply after_prefix_length in Hall.
    assert (length (PyStr.chars n) <= length (PyStr.chars y))%nat as Hlen.
    { destruct Hn as [->|Hn]; [done|].
      rewrite List.Forall_forall in Hy. specialize (Hy n Hn).
      by rewrite !length_chars. }
    destruct s' as [|? ?]; [done|]. simpl in *. lia.
  - cbn [app]. apply IH; [done|].
    destruct Hn as [->|Hn]; [congruence|done].
Qed.

Lemma first_prefix_part l s g :
  (forall n, In n l -> after_prefix (PyStr.chars n) s <> Some []) ->
  match head (concat (map (fun x => runs true (Re.lit x) s g) l)) with
  | Some ([], _) => False
  | _ => True
  end.
Proof.
  intros Hl. induction l as [|y l IH]; [done|].
  cbn [map concat]. rewrite runs_lit.
  destruct (after_prefix (PyStr.chars y) s) as [s'|] eqn:Hys.
  - cbn [app head]. destruct s' as [|? ?]; [|done].
    apply (Hl y); [by left|done].
  - cbn [app]. apply IH. intros n Hn. apply Hl. by right.
Qed.

(** ** Days that do not exist *)

Lemma days_in_month_least y m : 28 <= Datetime.days_in_month y m.
Proof.
  unfold Datetime.days_in_month.
  repeat match goal with |- context [if ?b then _ else _] => destruct b end;
    lia.
Qed.

Lemma check_date_fields_no_day y m d :
  1 <= y <= 9999 -> 1 <= m <= 12 -> Datetime.days_in_month y m < d ->
  Datetime.check_date_fields y m d
  = Raise (Exn ValueError "day is out of range for month").
Proof.
  intros Hy Hm Hd. unfold Datetime.check_date_fields.
  replace (1 <=? y) with true by lia. replace (y <=? 9999) with true by lia.
  replace (1 <=? m) with true by lia. replace (m <=? 12) with true by lia.
  replace (d <=? Datetime.days_in_month y m) with false by lia.
  by rewrite andb_false_r.
Qed.

(** *** Where the last resort finds nothing *)

Lemma day_month_year_split :
  PodcastRSSParser.day_month_year
  = Re.Cat (Re.Grp "1" (Re.Cat PodcastRSSParser.digit
                               (Re.opt PodcastRSSParser.digit)))
           after_day.
Proof. reflexivity. Qed.

(** A month needs a blank before it. *)
Lemma quiet_end : quiet [].
Proof. by intros g. Qed.

Lemma quiet_no_blank c s : PyStr.isspace c = false -> quiet (c :: s).
Proof. intros H g. unfold after_day. by apply runs_blank_other. Qed.

(** One blank, then a time of day: the colon is no letter of a month. *)
Lemma quiet_time a b c s :
  PyStr.isspace a = false -> PyStr.isword c = false ->
  quiet (" "%char :: a :: b :: c :: s).
Proof.
  intros Ha Hc g. unfold after_day. cbn [Re.seq fold_right].
  rewrite runs_blank by done. apply runs_none. rewrite runs_grp.
  destruct (PyStr.isword a) eqn:Hwa;
    [rewrite (runs_cls _ _ _ _ _ _ Hwa)
    |by rewrite (runs_cls_other _ _ _ _ _ _ Hwa)].
  destruct (PyStr.isword b) eqn:Hwb;
    [rewrite (runs_cls _ _ _ _ _ _ Hwb)
    |by rewrite (runs_cls_other _ _ _ _ _ _ Hwb)].
  by rewrite (runs_cls_other _ _ _ _ _ _ Hc).
Qed.

(** No match starts where what follows one character, and what follows
    two, is quiet. *)
Lemma day_month_year_quiet c s :
  quiet s -> quiet (drop 1 s) ->
  Re.rmatch false PodcastRSSParser.day_month_year (c :: s) = None.
Proof.
  intros H1 H2. rewrite rmatch_runs, day_month_year_split, runs_cat, runs_grp.
  unfold PodcastRSSParser.digit.
  destruct (PyStr.isdecimal c) eqn:Hc;
    [rewrite (runs_cls _ _ _ _ _ _ Hc)
    |by rewrite (runs_cls_other _ _ _ _ _ _ Hc)].
  unfold Re.opt. rewrite runs_alt, runs_eps.
  destruct s as [|d s]; cbn [runs app map concat fst snd].
  - by rewrite H1.
  - destruct (PyStr.isdecimal d); cbn [app map concat fst snd];
      rewrite ?H1, ?H2; reflexivity.
Qed.

Lemma search_quiet s :
  (forall n, quiet (drop n s)) ->
  Re.search PodcastRSSParser.day_month_year s = None.
Proof.
  induction s as [|c s IH]; intros Hq.
  - reflexivity.
  - rewrite search_cons, day_month_year_quiet.
    + apply IH. intros n. apply (Hq (S n)).
    + apply (Hq 1%nat).
    + apply (Hq 2%nat).
Qed.

Lemma search_no_blank s :
  Forall (fun c => PyStr.isspace c = false) s ->
  Re.search PodcastRSSParser.day_month_year s = None.
Proof.
  intros Hs. apply search_quiet. intros n. revert n.
  induction Hs as [|c s Hc _ IH]; intros n.
  - rewrite drop_nil. apply quiet_end.
  - destruct n as [|n]; [by apply quiet_no_blank|apply IH].
Qed.

(** *** Where the last resort finds a day that does not exist *)

Lemma extract_date_part_no_day pre d m y rest :
  Forall (fun c => PyStr.isdecimal c = false) pre ->
  1 <= Z.of_nat y <= 9999 -> (1 <= m <= 12)%nat ->
  Datetime.days_in_month (Z.of_nat y) (Z.of_nat m) < Z.of_nat d <= 31 ->
  PodcastRSSParser.extract_date_part
    (PyStr.str (pre ++ two d ++ " "%char
                :: PyStr.chars (nth (m - 1) MONTHS "")
                ++ " "%char :: four y ++ rest))
  = ([], Ok None).
Proof.
  intros Hpre Hy Hm Hd.
  unfold PodcastRSSParser.extract_date_part.
  rewrite chars_str, search_day_month_year by done.
  find_groups. cbv beta iota. rewrite month_lookup_name by done.
  unfold Strptime.int_or_error. rewrite int_four, int_two by lia.
  unfold out_try, out_bind, out_lift, out_ret. cbn [app].
  unfold Datetime.make. by rewrite check_date_fields_no_day by lia.
Qed.

(** *** More ways for a layout not to match *)

(** A year and a day cannot start on the name of a day. *)
Lemma runs_Y_weekday w :
  (w < 7)%nat -> forall r s g,
  runs true (Re.Cat Strptime.re_Y r)
       (PyStr.chars (nth w WEEKDAYS "") ++ s)%list g = [].
Proof.
  intros Hw r s g.
  destruct (weekday_letters w Hw) as (a & b & c & -> & (_ & _ & Ha) & _).
  by apply runs_Y_other.
Qed.

Lemma runs_d_weekday w :
  (w < 7)%nat -> forall r s g,
  runs true (Re.Cat Strptime.re_d r)
       (PyStr.chars (nth w WEEKDAYS "") ++ s)%list g = [].
Proof.
  intros Hw r s g.
  destruct (weekday_letters w Hw) as (a & b & c & -> & (Hs & _ & Ha) & _).
  by apply runs_d_other.
Qed.

Ltac day_case :=
  intros c s g; eval_runs;
  repeat (apply List.Forall_cons; [first [by left | by right]|]);
  apply List.Forall_nil.

Ltac day_cases := each_decimal day_case.

(** A day followed by a blank does not match the start of a year. *)
Lemma runs_d_digits r a b c s g :
  PyStr.isdecimal a = true -> PyStr.isdecimal b = true ->
  PyStr.isdecimal c = true ->
  runs true (Re.Cat Strptime.re_d (Re.Cat (Re.Plus PyStr.isspace) r))
       (a :: b :: c :: s) g = [].
Proof.
  intros Ha Hb Hc. rewrite runs_cat.
  assert (forall x, PyStr.isdecimal x = true -> PyStr.isspace x = false)
    as Hsp by each_decimal ltac:(reflexivity).
  pose proof (Hsp b Hb) as Hsb. pose proof (Hsp c Hc) as Hsc.
  assert (Forall (fun m => fst m = c :: s \/ fst m = b :: c :: s)
                 (runs true Strptime.re_d (a :: b :: c :: s) g)) as Hall.
  { clear Hsp Hc Hsb Hsc. revert a Ha b Hb c s g.
    match goal with
    | |- forall c, PyStr.isdecimal c = true -> @?P c =>
      apply (isdecimal_cases P)
    end.
    repeat (apply List.Forall_cons; [cbv beta; day_cases|]).
    apply List.Forall_nil. }
  induction Hall as [|[s' g'] l Hm _ IH]; [done|].
  cbn [map concat fst snd]. rewrite IH.
  destruct Hm as [Hm|Hm]; simpl in Hm; subst s';
    by rewrite runs_blank_other.
Qed.

(** Names the fields of such a stamp and the facts known of them. *)
Ltac open_no_day t :=
  destruct t as [w y m d h mi s west oh om];
  unfold no_such_day;
  cbn [st_weekday st_year st_month st_day st_hour st_minute st_second
       st_west st_off_hours st_off_minutes];
  intros (Hw & Hy & Hm & Hd & Hh & Hmi & Hs & Hoh & Hom);
  assert (1 <= d <= 31)%nat as Hd'
    by (pose proof (days_in_month_least (Z.of_nat y) (Z.of_nat m)); lia).

(** *** The ten layouts *)

Section Layouts.

Import PodcastRSSParser Strptime.

Context (lz : local_zone).

(** What [TimeRE.pattern] makes of each layout. *)
Lemma layout_patterns :
  map (fun fmt => pattern lz false (PyStr.chars fmt)) formats
  = [ rfc_pattern [blanks; re_z];
      rfc_pattern [blanks; re_Z lz];
      rfc_pattern [];
      iso_pattern [Re.Chr "T"] [re_z];
      iso_pattern [Re.Chr "T"] [Re.Chr "Z"];
      iso_pattern [Re.Chr "T"] [];
      iso_pattern [blanks] [];
      date_pattern;
      day_first_pattern [blanks; re_H; Re.Chr ":"; re_M; Re.Chr ":"; re_S;
                         blanks; re_z];
      day_first_pattern [] ].
Proof. reflexivity. Qed.

(** Puts the pattern of a layout in place of its computation. *)
Ltac open_pattern :=
  lazymatch goal with
  | |- context [pattern lz false (PyStr.chars ?fmt)] =>
      let p := constr:(pattern lz false (PyStr.chars fmt)) in
      lazymatch fmt with
      | "%a, %d %b %Y %H:%M:%S %z" =>
          change p with (rfc_pattern [blanks; re_z])
      | "%a, %d %b %Y %H:%M:%S %Z" =>
          change p with (rfc_pattern [blanks; re_Z lz])
      | "%a, %d %b %Y %H:%M:%S" => change p with (rfc_pattern [])
      | "%Y-%m-%dT%H:%M:%S%z" =>
          change p with (iso_pattern [Re.Chr "T"] [re_z])
      | "%Y-%m-%dT%H:%M:%SZ" =>
          change p with (iso_pattern [Re.Chr "T"] [Re.Chr "Z"])
      | "%Y-%m-%dT%H:%M:%S" => change p with (iso_pattern [Re.Chr "T"] [])
      | "%Y-%m-%d %H:%M:%S" => change p with (iso_pattern [blanks] [])
      | "%Y-%m-%d" => change p with date_pattern
      | "%d %b %Y %H:%M:%S %z" =>
          change p with (day_first_pattern
                           [blanks; re_H; Re.Chr ":"; re_M; Re.Chr ":"; re_S;
                            blanks; re_z])
      | "%d %b %Y" => change p with (day_first_pattern [])
      end
  end;
  unfold rfc_pattern, iso_pattern, date_pattern, day_first_pattern, blanks;
  cbn [Re.seq fold_right app bind_result].

(** Follows a match field by field, as far as the text is known. *)
Ltac walk :=
  repeat first
    [ rewrite runs_Y
    | rewrite runs_a by assumption
    | rewrite runs_blank_b by assumption
    | rewrite (two_digit_then re_d "d")
        by first [by apply two_digit_d | auto with halts]
    | rewrite (two_digit_then re_m "m")
        by first [by apply two_digit_m | auto with halts]
    | rewrite (two_digit_then re_H "H")
        by first [by apply two_digit_H | auto with halts]
    | rewrite (two_digit_then re_M "M")
        by first [by apply two_digit_M | auto with halts]
    | rewrite (two_digit_then re_S "S")
        by first [by apply two_digit_S | auto with halts]
    | rewrite runs_chr by reflexivity
    | rewrite runs_blank by char_fact
    | rewrite runs_a_digit
    | rewrite runs_Y_day
    | rewrite runs_chr_other by reflexivity
    | rewrite runs_chr_end
    | rewrite runs_blank_end
    | rewrite runs_z_end ].

(** A layout that does not match, and one that does: the match, then
    the conversion of the groups. *)
Ltac start_match :=
  spell; unfold strptime; open_pattern; rewrite chars_str, rmatch_head.

Ltac fails := unfold fails_on; eexists; start_match; walk; reflexivity.

Ltac finish_match :=
  first [ rewrite (two_digit_head re_S "S") by (apply two_digit_S; assumption)
        | rewrite (two_digit_head re_d "d") by (apply two_digit_d; assumption)
        | rewrite runs_z_colon by first [reflexivity | assumption]
        | rewrite runs_z_zulu
        | rewrite runs_eps ];
  cbn [hd_error fmap option_fmap option_map fst snd].

Ltac convert :=
  read_groups;
  rewrite ?int_four by lia; rewrite ?int_two by lia;
  rewrite ?month_index by assumption;
  cbn [bind_result];
  try match goal with
      | |- context [Z.of_nat (?k - 1) + 1] =>
          replace (Z.of_nat (k - 1) + 1) with (Z.of_nat k) by lia
      end;
  first [ rewrite (gmtoff_colon true) by lia
        | rewrite (gmtoff_colon false) by lia
        | idtac ];
  cbv zeta;
  try change (gmtoff_of ["Z"%char]) with (Ok 0 : result Z);
  cbn [bind_result];
  rewrite check_date_fields_ok by lia; cbn [bind_result];
  rewrite ?timezone_ok by (unfold Datetime.day_us; lia);
  cbn [bind_result];
  rewrite make_ok by lia.

Ltac succeeds := start_match; walk; finish_match; convert; reflexivity.

(** One layout of the list: those before it fail, it succeeds. *)
Ltac settle pre w post :=
  let pre' := eval cbv in pre in
  let post' := eval cbv in post in
  exists pre', w, post'; eexists;
  split; [reflexivity|];
  split; [forall_cases fails|];
  split; [succeeds|reflexivity].

(** Each layout but the one with a zone name: on a string written in
    it, the layouts tried first fail, and the first to accept the
    string yields the value the string stands for, UTC assigned when
    the layout shows no offset. *)
Lemma winner_parses t fmt :
  well_formed t -> In fmt formats -> fmt <> NAMED_ZONE_LAYOUT ->
  exists pre w post dt,
    formats = (pre ++ w :: post)%list
    /\ Forall (fails_on lz (written_colon t fmt)) pre
    /\ strptime lz (written_colon t fmt) w = Ok dt
    /\ with_utc dt = encoded t fmt.
Proof.
  open_stamp t. intros Hin Hfmt. unfold formats in Hin.
  repeat (destruct Hin as [<-|Hin]; [try (by destruct Hfmt)|]);
    try (by destruct Hin); destruct west.
  - settle (@nil string) "%a, %d %b %Y %H:%M:%S %z" (skipn 1 formats).
  - settle (@nil string) "%a, %d %b %Y %H:%M:%S %z" (skipn 1 formats).
  - settle (firstn 2 formats) "%a, %d %b %Y %H:%M:%S" (skipn 3 formats).
  - settle (firstn 2 formats) "%a, %d %b %Y %H:%M:%S" (skipn 3 formats).
  - settle (firstn 3 formats) "%Y-%m-%dT%H:%M:%S%z" (skipn 4 formats).
  - settle (firstn 3 formats) "%Y-%m-%dT%H:%M:%S%z" (skipn 4 formats).
  - settle (firstn 3 formats) "%Y-%m-%dT%H:%M:%S%z" (skipn 4 formats).
  - settle (firstn 3 formats) "%Y-%m-%dT%H:%M:%S%z" (skipn 4 formats).
  - settle (firstn 5 formats) "%Y-%m-%dT%H:%M:%S" (skipn 6 formats).
  - settle (firstn 5 formats) "%Y-%m-%dT%H:%M:%S" (skipn 6 formats).
  - settle (firstn 6 formats) "%Y-%m-%d %H:%M:%S" (skipn 7 formats).
  - settle (firstn 6 formats) "%Y-%m-%d %H:%M:%S" (skipn 7 formats).
  - settle (firstn 7 formats) "%Y-%m-%d" (skipn 8 formats).
  - settle (firstn 7 formats) "%Y-%m-%d" (skipn 8 formats).
  - settle (firstn 8 formats) "%d %b %Y %H:%M:%S %z" (skipn 9 formats).
  - settle (firstn 8 formats) "%d %b %Y %H:%M:%S %z" (skipn 9 formats).
  - settle (firstn 9 formats) "%d %b %Y" (@nil string).
  - settle (firstn 9 formats) "%d %b %Y" (@nil string).
Qed.

(** Such a string is not empty. *)
Lemma written_nonempty t fmt :
  well_formed t -> In fmt formats -> fmt <> NAMED_ZONE_LAYOUT ->
  String.eqb (written t fmt) "" = false.
Proof.
  open_stamp t. intros Hin Hfmt. unfold formats in Hin.
  repeat (destruct Hin as [<-|Hin]; [try (by destruct Hfmt)|]);
    try (by destruct Hin); spell; letters; reflexivity.
Qed.

(** *** The layout with a zone name *)

(** The layout with an offset, on a string that ends with a name: it
    accepts the letter Z alone. *)
Lemma strptime_offset_layout_on_name t c rest :
  well_formed t -> plain_char c ->
  strptime lz (PyStr.str (written_chars false t
                            (PyStr.chars "%a, %d %b %Y %H:%M:%S ")
                          ++ c :: rest))
           "%a, %d %b %Y %H:%M:%S %z"
  = if Ascii.eqb "Z" c then
      match rest with
      | [] => Ok (encoded t "%a, %d %b %Y %H:%M:%S")
      | _ :: _ => Raise (Exn ValueError "unconverted data remains")
      end
    else Raise (Exn ValueError "time data does not match format").
Proof.
  open_stamp t. intros (Hc1 & Hc2 & Hc3).
  destruct (Ascii.eqb "Z" c) eqn:Hz.
  - apply Ascii.eqb_eq in Hz as <-.
    start_match. repeat (rewrite <- app_assoc; cbn [app]). walk.
    rewrite runs_z_letter by assumption. cbn [Ascii.eqb Bool.eqb].
    rewrite runs_eps. cbn [hd_error fmap option_fmap option_map fst snd].
    destruct rest as [|c' rest]; [|reflexivity].
    convert. reflexivity.
  - start_match. repeat (rewrite <- app_assoc; cbn [app]). walk.
    rewrite runs_z_letter by assumption. by rewrite Hz.
Qed.

(** A name is known when the pattern of [%Z] takes it whole. *)
Lemma name_matches zone :
  existsb (fun name => String.eqb (PyStr.lower name) (PyStr.lower zone))
          (zone_names lz) = true
  <-> exists n, In n (zone_names lz)
                /\ after_prefix (PyStr.chars n) (PyStr.chars zone) = Some [].
Proof.
  rewrite existsb_exists.
  split; intros (n & Hn & H); exists n; (split; [done|]).
  - apply after_prefix_all. apply String.eqb_eq in H. unfold PyStr.lower in H.
    apply (f_equal PyStr.chars) in H. by rewrite !chars_str in H.
  - apply String.eqb_eq. unfold PyStr.lower. f_equal.
    by apply after_prefix_all.
Qed.

(** The first match of [%Z] takes the whole of a name that is known,
    and of no other. *)
Lemma re_Z_head zone g :
  zone <> "" ->
  match head (runs true (re_Z lz) (PyStr.chars zone) g) with
  | Some ([], g') =>
      existsb (fun name => String.eqb (PyStr.lower name) (PyStr.lower zone))
              (zone_names lz) = true
      /\ g' = ("Z", PyStr.chars zone) :: g
  | _ =>
      existsb (fun name => String.eqb (PyStr.lower name) (PyStr.lower zone))
              (zone_names lz) = false
  end.
Proof.
  intros Hne.
  assert (PyStr.chars zone <> []) as Hcs by by destruct zone.
  destruct (existsb _ _) eqn:Hk.
  - apply name_matches in Hk as (n & Hn & Hall).
    rewrite <- sort_by_len_in in Hn. unfold re_Z, seqToRE.
    destruct (forallb _ _) eqn:Hempty.
    + rewrite forallb_forall in Hempty. apply Hempty in Hn.
      apply String.eqb_eq in Hn as <-. simpl in Hall. congruence.
    + rewrite runs_grp, runs_alts, map_map
        by (destruct (sort_by_len _); [destruct Hn|done]).
      pose proof (first_prefix_whole _ (PyStr.chars zone) g n
                    (sort_by_len_longest _) Hn Hall) as Hhead.
      destruct (concat _) as [|[s' g'] l]; [done|].
      injection Hhead as -> ->. cbn [map head fst snd].
      by rewrite captured_all.
  - unfold re_Z, seqToRE. destruct (forallb _ _) eqn:Hempty.
    + rewrite runs_eps. cbn [head]. by destruct (PyStr.chars zone).
    + assert (sort_by_len (zone_names lz) <> []) as Hsome
        by (intros Heq; by rewrite Heq in Hempty).
      rewrite runs_grp, runs_alts, map_map by (by destruct (sort_by_len _)).
      pose proof (first_prefix_part (sort_by_len (zone_names lz))
                    (PyStr.chars zone) g) as Hhead.
      destruct (concat _) as [|[[|c s'] g'] l]; try done.
      exfalso. apply Hhead. intros n Hn Hall.
      rewrite sort_by_len_in in Hn.
      assert (existsb (fun name =>
                         String.eqb (PyStr.lower name) (PyStr.lower zone))
                      (zone_names lz) = true) as Hyes
        by (apply name_matches; by exists n).
      congruence.
Qed.

(** The layout with a zone name, on such a string: it accepts a name
    that is known, and yields the day and the time without a zone. *)
Lemma strptime_name_layout t zone c rest :
  well_formed t -> PyStr.chars zone = c :: rest -> plain_char c ->
  forall r,
    r = strptime lz (PyStr.str (written_chars false t
                                  (PyStr.chars "%a, %d %b %Y %H:%M:%S ")
                                ++ c :: rest))
                 "%a, %d %b %Y %H:%M:%S %Z" ->
    if existsb (fun name => String.eqb (PyStr.lower name) (PyStr.lower zone))
               (zone_names lz)
    then r = Ok (Datetime.mk (Z.of_nat (st_year t)) (Z.of_nat (st_month t))
                             (Z.of_nat (st_day t)) (Z.of_nat (st_hour t))
                             (Z.of_nat (st_minute t)) (Z.of_nat (st_second t))
                             0 None)
    else exists msg, r = Raise (Exn ValueError msg).
Proof.
  open_stamp t. intros Hcs (Hc1 & Hc2 & Hc3) r.
  assert (zone <> "") as Hne by (intros ->; discriminate Hcs).
  pose proof (fun g => re_Z_head zone g Hne) as HZ. rewrite Hcs in HZ.
  start_match. repeat (rewrite <- app_assoc; cbn [app]). walk.
  rewrite runs_cat_eps. intros ->.
  match goal with
  | |- context [head (runs true (re_Z lz) _ ?g)] => specialize (HZ g)
  end.
  destruct (head _) as [[[|c' s'] g']|].
  - destruct HZ as [-> ->]. cbn [fmap option_fmap option_map fst snd].
    convert. reflexivity.
  - rewrite HZ. by eexists.
  - rewrite HZ. by eexists.
Qed.

(** The eight layouts that follow reject such a string. *)
Lemma later_layouts_on_name t c rest :
  well_formed t -> plain_char c ->
  Forall (fails_on lz (PyStr.str (written_chars false t
                                    (PyStr.chars "%a, %d %b %Y %H:%M:%S ")
                                  ++ c :: rest)))
         (skipn 2 formats).
Proof.
  open_stamp t. intros (Hc1 & Hc2 & Hc3). cbn [skipn formats].
  apply List.Forall_cons.
  { unfold fails_on. eexists. start_match.
    repeat (rewrite <- app_assoc; cbn [app]). walk.
    rewrite (two_digit_head_more re_S "S") by (by apply two_digit_S).
    reflexivity. }
  forall_cases
    ltac:(unfold fails_on; eexists; start_match; letters;
          first [rewrite runs_Y_other by assumption
                |rewrite runs_d_other by assumption];
          reflexivity).
Qed.

(** *** Days that do not exist, layout by layout *)

(** The groups [%Z] leaves: those before it, and its own at most. *)
Lemma re_Z_groups s g :
  match head (runs true (re_Z lz) s g) with
  | Some (_, g') => g' = g \/ exists p, g' = ("Z", p) :: g
  | None => True
  end.
Proof.
  unfold re_Z, seqToRE. destruct (forallb _ _); [by left|].
  rewrite runs_grp.
  destruct (decide (sort_by_len (zone_names lz) = [])) as [->|Hne];
    [by right; eexists|].
  rewrite runs_alts, map_map by (by destruct (sort_by_len _)).
  induction (sort_by_len (zone_names lz)) as [|x l IH]; [done|].
  cbn [map concat]. rewrite runs_lit.
  destruct (after_prefix _ _) as [s'|]; cbn [app map head fst snd].
  - right. by eexists.
  - destruct l as [|x' l']; [done|]. by apply IH.
Qed.

Ltac walk_on :=
  repeat first
    [ progress walk
    | rewrite runs_Y_weekday by assumption
    | rewrite runs_d_weekday by assumption
    | rewrite runs_blank_other by char_fact
    | rewrite runs_d_digits by apply digit_isdecimal ].

Ltac finish_on :=
  first [ rewrite (two_digit_head_more re_S "S")
            by (apply two_digit_S; assumption)
        | rewrite (two_digit_head_more re_d "d")
            by (apply two_digit_d; assumption)
        | rewrite runs_z_colon by first [reflexivity | assumption]
        | rewrite runs_z_zulu
        | rewrite runs_eps ];
  cbn [hd_error fmap option_fmap option_map fst snd].

(** The conversion of the groups stops at the check of the date. *)
Ltac no_day :=
  read_groups;
  rewrite ?int_four by lia; rewrite ?int_two by lia;
  rewrite ?month_index by assumption;
  cbn [bind_result];
  try match goal with
      | |- context [Z.of_nat (?k - 1) + 1] =>
          replace (Z.of_nat (k - 1) + 1) with (Z.of_nat k) by lia
      end;
  first [ rewrite (gmtoff_colon true) by lia
        | rewrite (gmtoff_colon false) by lia
        | idtac ];
  cbv zeta;
  try change (gmtoff_of ["Z"%char]) with (Ok 0 : result Z);
  cbn [bind_result];
  rewrite check_date_fields_no_day by lia.

Ltac rejects :=
  unfold fails_on; eexists; start_match; walk_on;
  lazymatch goal with
  | |- context [head []] => reflexivity
  | _ =>
      finish_on;
      lazymatch goal with
      | |- Raise _ = _ => reflexivity
      | _ => no_day; reflexivity
      end
  end.

(** The layout with a zone name, on a string that ends with an offset. *)
Lemma name_layout_on_offset t :
  no_such_day t ->
  forall r,
    r = strptime lz (written_colon t "%a, %d %b %Y %H:%M:%S %z")
                 "%a, %d %b %Y %H:%M:%S %Z" ->
    exists msg, r = Raise (Exn ValueError msg).
Proof.
  open_no_day t. intros r. destruct west.
  all: start_match; walk_on; rewrite runs_cat_eps; intros ->.
  all: match goal with
       | |- context [head (runs true (re_Z lz) ?s ?g)] =>
           pose proof (re_Z_groups s g) as HZ
       end.
  all: destruct (head _) as [[[|c' s'] g']|]; [|by eexists..].
  all: cbn [fmap option_fmap option_map fst snd].
  all: destruct HZ as [->|[p ->]]; no_day; by eexists.
Qed.

(** Every layout rejects a date whose day does not exist, and the last
    resort finds no date in it. *)
Lemma no_day_is_rejected t fmt :
  no_such_day t -> In fmt formats -> fmt <> NAMED_ZONE_LAYOUT ->
  Forall (fails_on lz (written_colon t fmt)) formats.
Proof.
  intros Ht. pose proof (name_layout_on_offset t Ht _ eq_refl) as Hname.
  revert Ht Hname. open_no_day t. intros Hname Hin Hfmt.
  unfold formats in Hin.
  repeat (destruct Hin as [<-|Hin]; [try (by destruct Hfmt)|]);
    try (by destruct Hin); destruct west.
  all: unfold formats; forall_cases
         ltac:(idtac;
               lazymatch goal with
               | |- fails_on _ (written_colon _ "%a, %d %b %Y %H:%M:%S %z")
                             "%a, %d %b %Y %H:%M:%S %Z" => exact Hname
               | _ => rejects
               end).
Qed.

Ltac found_no_day pre :=
  match goal with
  | Hy : 1 <= Z.of_nat ?y <= 9999, Hm : (1 <= ?m <= 12)%nat,
    Hd : Datetime.days_in_month (Z.of_nat ?y) (Z.of_nat ?m) < Z.of_nat ?d <= 31
    |- _ =>
      apply (extract_date_part_no_day pre d m y);
      [repeat constructor; assumption|assumption..]
  end.

Ltac finds_nothing :=
  unfold extract_date_part; rewrite chars_str;
  rewrite search_no_blank by (repeat constructor; char_fact);
  reflexivity.

Ltac quiet_after n :=
  destruct n as [|n];
  [simpl;
   first [ apply quiet_no_blank; char_fact
         | apply quiet_time; char_fact ]|].

(** The last resort on such a date: it finds none, or one that does
    not exist. *)
Lemma no_day_last_resort t fmt :
  no_such_day t -> In fmt formats -> fmt <> NAMED_ZONE_LAYOUT ->
  extract_date_part (written_colon t fmt) = ([], Ok None).
Proof.
  open_no_day t. intros Hin Hfmt. unfold formats in Hin.
  destruct (weekday_letters w Hw)
    as (a & b & c & Hletters & (_ & _ & Ha) & (_ & _ & Hb) & (_ & _ & Hc)).
  repeat (destruct Hin as [<-|Hin]; [try (by destruct Hfmt)|]);
    try (by destruct Hin); destruct west; spell; rewrite ?Hletters;
    cbn [app].
  1-4: found_no_day [a; b; c; ","%char; " "%char].
  1-6: finds_nothing.
  3-4: finds_nothing.
  3-6: found_no_day (@nil ascii).
  all: unfold extract_date_part; rewrite chars_str;
    (rewrite search_quiet; [reflexivity|]); intros n;
    do 19 quiet_after n; simpl; rewrite ?drop_nil; apply quiet_end.
Qed.

End Layouts.

(** X16.  Every string written in one of the nine layouts without a
    zone name is normalised to the value it stands for: the fields it
    shows, with its offset, or with UTC when it shows none. *)
Theorem parse_date_written lz t fmt :
  well_formed t ->
  In fmt PodcastRSSParser.formats -> fmt <> NAMED_ZONE_LAYOUT ->
  snd (PodcastRSSParser._parse_date lz (written t fmt))
  = Ok (Some (encoded t fmt)).
Proof.
  intros Ht Hin Hfmt.
  destruct (winner_parses lz t fmt Ht Hin Hfmt)
    as (pre & w & post & dt & Hformats & Hpre & Hok & Hdt).
  rewrite <- (preprocessed_written t fmt Ht Hin Hfmt) in Hpre, Hok.
  rewrite (parse_date_first_layout_wins lz _ pre w post dt
             (written_nonempty t fmt Ht Hin Hfmt) Hformats Hpre Hok).
  simpl. by rewrite Hdt.
Qed.

(** The strings the ten layouts write for one point in time. *)
Lemma written_samples :
  map (written sample_stamp) PodcastRSSParser.formats
  = ["Sun, 05 Oct 2025 19:25:37 -0700"; "Sun, 05 Oct 2025 19:25:37 ";
     "Sun, 05 Oct 2025 19:25:37"; "2025-10-05T19:25:37-0700";
     "2025-10-05T19:25:37Z"; "2025-10-05T19:25:37"; "2025-10-05 19:25:37";
     "2025-10-05"; "05 Oct 2025 19:25:37 -0700"; "05 Oct 2025"].
Proof. reflexivity. Qed.

(** ** Order of occurrence in lists *)

Lemma appears_before_map {A B} (f : A -> B) a b l :
  appears_before a b l -> appears_before (f a) (f b) (map f l).
Proof.
  intros (l1 & l2 & l3 & ->). exists (map f l1), (map f l2), (map f l3).
  rewrite map_app. simpl. by rewrite map_app.
Qed.

Lemma appears_before_filter {A} (P : A -> bool) a b l :
  appears_before a b l -> P a = true -> P b = true ->
  appears_before a b (List.filter P l).
Proof.
  intros (l1 & l2 & l3 & ->) Ha Hb.
  exists (List.filter P l1), (List.filter P l2), (List.filter P l3).
  rewrite List.filter_app. simpl. rewrite Ha. rewrite List.filter_app. simpl.
  by rewrite Hb.
Qed.

Lemma appears_before_app_l {A} (a b : A) l k :
  appears_before a b l -> appears_before a b (l ++ k).
Proof.
  intros (l1 & l2 & l3 & ->). exists l1, l2, (l3 ++ k)%list.
  by repeat (rewrite <- app_assoc; simpl).
Qed.

Lemma appears_before_app_r {A} (a b : A) l k :
  appears_before a b l -> appears_before a b (k ++ l).
Proof.
  intros (l1 & l2 & l3 & ->). exists (k ++ l1)%list, l2, l3.
  by repeat (rewrite <- app_assoc; simpl).
Qed.

Lemma appears_before_app {A} (a b : A) l k :
  In a l -> In b k -> appears_before a b (l ++ k).
Proof.
  intros (l1 & l2 & ->)%in_split (k1 & k2 & ->)%in_split.
  exists l1, (l2 ++ k1)%list, k2. by repeat (rewrite <- app_assoc; simpl).
Qed.

Lemma appears_before_concat_within {A} (a b : A) chunk chunks :
  In chunk chunks -> appears_before a b chunk ->
  appears_before a b (concat chunks).
Proof.
  intros (c1 & c2 & ->)%in_split Hab. rewrite concat_app. simpl.
  by apply appears_before_app_r, appears_before_app_l.
Qed.

Lemma appears_before_concat_across {A} (a b : A) c1 c2 chunks :
  appears_before c1 c2 chunks -> In a c1 -> In b c2 ->
  appears_before a b (concat chunks).
Proof.
  intros (k1 & k2 & k3 & ->) (x & y & ->)%in_split (u & v & ->)%in_split.
  exists (concat k1 ++ x)%list, (y ++ concat k2 ++ u)%list,
         (v ++ concat k3)%list.
  rewrite concat_app. simpl. rewrite concat_app. simpl.
  by repeat (rewrite <- app_assoc; simpl).
Qed.

(** The two occurrences can be read off as positions. *)
Lemma appears_before_lookup {A} (a b : A) l :
  appears_before a b l <->
  exists i j, (i < j)%nat /\ l !! i = Some a /\ l !! j = Some b.
Proof.
  split.
  - intros (l1 & l2 & l3 & ->).
    exists (length l1), (length l1 + S (length l2))%nat. split; [lia|]. split.
    + by rewrite list_lookup_middle.
    + rewrite lookup_app_r by lia.
      replace (length l1 + S (length l2) - length l1)%nat
        with (S (length l2)) by lia.
      simpl. by rewrite list_lookup_middle.
  - intros (i & j & Hij & Hi & Hj).
    apply list_elem_of_split_length in Hi as (l1 & r & -> & Hl1).
    rewrite lookup_app_r in Hj by lia.
    destruct (j - length l1)%nat as [|n] eqn:Hn; [lia|]. simpl in Hj.
    apply list_elem_of_split_length in Hj as (l2 & l3 & -> & _).
    by exists l1, l2, l3.
Qed.

(** ** The feed cache *)

Section FeedCache.

Import PodcastRSSParser.

Context (lz : Strptime.local_zone) (W : World) (feeds : list (string * string)).

(** The four ways a lookup can go. *)
Lemma get_feed_cases show st r st' :
  _get_feed W feeds show st = (r, st') ->
  (Etree.assoc show feeds = None /\ r = Ok None /\ st' = st)
  \/ (exists url root,
         Etree.assoc show feeds = Some url
         /\ _cached_feeds st !! show = Some root
         /\ r = Ok (Some root) /\ st' = st)
  \/ (exists url root evs,
         Etree.assoc show feeds = Some url
         /\ _cached_feeds st !! show = None
         /\ r = Ok (Some root)
         /\ st' = State (<[show := root]> (_cached_feeds st))
                        (log st ++ fetch_event url :: evs)%list)
  \/ (exists url evs,
         Etree.assoc show feeds = Some url
         /\ _cached_feeds st !! show = None
         /\ r = Ok None
         /\ st' = State (_cached_feeds st)
                        (log st ++ fetch_event url :: evs)%list).
Proof.
  unfold _get_feed. destruct (Etree.assoc show feeds) as [url|] eqn:Hurl.
  2:{ intros [= <- <-]. by left. }
  destruct (_cached_feeds st !! show) as [root|] eqn:Hc.
  { intros [= <- <-]. right; left. by eexists _, _. }
  unfold try_except, bind, fetch_feed, bind, read_file, http_get, logging,
    emit, lift, cache_store, ret, print, fetch_event.
  destruct (PyStr.startswith url "file://") eqn:Hsw; simpl.
  - destruct (open_read W _ _) as [content|e]; simpl.
    + destruct (fromstring W content) as [root|e]; simpl; intros [= <- <-].
      * right; right; left. eexists _, _, _. repeat split; try done.
        by rewrite Hsw, <- !app_assoc.
      * right; right; right. eexists _, _. repeat split; try done.
        by rewrite Hsw, <- !app_assoc.
    + intros [= <- <-]. right; right; right. eexists _, _.
      repeat split; try done. by rewrite Hsw, <- !app_assoc.
  - destruct (requests_get W _ _) as [content|e]; simpl.
    + destruct (fromstring W content) as [root|e]; simpl; intros [= <- <-].
      * right; right; left. eexists _, _, _. repeat split; try done.
        by rewrite Hsw, <- !app_assoc.
      * right; right; right. eexists _, _. repeat split; try done.
        by rewrite Hsw, <- !app_assoc.
    + intros [= <- <-]. right; right; right. eexists _, _.
      repeat split; try done. by rewrite Hsw, <- !app_assoc.
Qed.

Lemma get_feed_returns show st :
  exists o st', _get_feed W feeds show st = (Ok o, st').
Proof.
  destruct (_get_feed W feeds show st) as [r st'] eqn:H.
  destruct (get_feed_cases _ _ _ _ H)
    as [(_ & -> & _)|[(? & ? & _ & _ & -> & _)
       |[(? & ? & ? & _ & _ & -> & _)|(? & ? & _ & _ & -> & _)]]];
    by eexists _, _.
Qed.

Lemma get_feed_kept show st r st' :
  _get_feed W feeds show st = (r, st') -> cache_kept st st'.
Proof.
  intros H k v Hk.
  destruct (get_feed_cases _ _ _ _ H)
    as [(_ & _ & ->)|[(? & ? & _ & _ & _ & ->)
       |[(? & root & ? & _ & Hnone & _ & ->)|(? & ? & _ & _ & _ & ->)]]];
    simpl; try done.
  rewrite lookup_insert_ne; [done|]. intros <-. congruence.
Qed.

Lemma get_feed_other show st r st' k :
  _get_feed W feeds show st = (r, st') -> k <> show ->
  _cached_feeds st' !! k = _cached_feeds st !! k.
Proof.
  intros H Hk.
  destruct (get_feed_cases _ _ _ _ H)
    as [(_ & _ & ->)|[(? & ? & _ & _ & _ & ->)
       |[(? & root & ? & _ & Hnone & _ & ->)|(? & ? & _ & _ & _ & ->)]]];
    simpl; try done.
  by rewrite lookup_insert_ne.
Qed.

Lemma get_feed_some show st root st' :
  _get_feed W feeds show st = (Ok (Some root), st') ->
  cached_feed feeds st' show = Some root.
Proof.
  intros H. unfold cached_feed.
  destruct (get_feed_cases _ _ _ _ H)
    as [(_ & [=] & _)|[(? & ? & -> & Hc & [= <-] & ->)
       |[(? & ? & ? & -> & _ & [= <-] & ->)|(? & ? & _ & _ & [=] & _)]]];
    simpl; [done|]. by rewrite lookup_insert_eq.
Qed.

Lemma get_feed_none show st st' :
  _get_feed W feeds show st = (Ok None, st') ->
  cached_feed feeds st' show = None /\ _cached_feeds st' = _cached_feeds st.
Proof.
  intros H. unfold cached_feed.
  destruct (get_feed_cases _ _ _ _ H)
    as [(-> & _ & ->)|[(? & ? & _ & _ & [=] & _)
       |[(? & ? & ? & _ & _ & [=] & _)|(? & ? & -> & Hc & _ & ->)]]];
    simpl; done.
Qed.

Lemma cache_kept_refl st : cache_kept st st.
Proof. by intros k v. Qed.

Lemma cache_kept_trans st1 st2 st3 :
  cache_kept st1 st2 -> cache_kept st2 st3 -> cache_kept st1 st3.
Proof. intros H1 H2 k v Hk. by apply H2, H1. Qed.

Lemma cached_feed_kept st st' show root :
  cache_kept st st' -> cached_feed feeds st show = Some root ->
  cached_feed feeds st' show = Some root.
Proof.
  unfold cached_feed. destruct (Etree.assoc show feeds); [|done]. intros H. apply H.
Qed.

(** *** The loops of [search_episodes] *)

Section Loops.

Context (since_dt before_dt : option Datetime.datetime)
        (hosts : option (list string)) (text_search : option string).

(** The inner loop leaves the cache alone and appends, in order, the
    records that pass the filters. *)
Lemma items_loop_spec show items : forall results st r st',
  items_loop lz since_dt before_dt hosts text_search show items results st
  = (r, st') ->
  _cached_feeds st' = _cached_feeds st
  /\ forall res, r = Ok res ->
       res = (results
              ++ List.filter (kept lz since_dt before_dt hosts text_search)
                             (map (_parse_episode show) items))%list.
Proof.
  induction items as [|item items IH]; intros results st r st'; simpl.
  - intros [= <- <-]. split; [done|]. intros res [= <-]. by rewrite app_nil_r.
  - unfold bind at 1. unfold logging at 1. unfold kept at 1.
    destruct (snd (skips lz since_dt before_dt hosts text_search
                         (_parse_episode show item))) as [skip|e].
    + intros H. apply IH in H as [Hc Hres]. split; [done|].
      intros res ->%Hres. destruct skip; [done|].
      by rewrite <- app_assoc.
    + intros [= <- <-]. split; [done|]. by intros res [=].
Qed.

(** The outer loop: the records of each show, show after show. *)
Lemma shows_loop_spec shows : forall results st r st',
  NoDup shows ->
  shows_loop lz W feeds since_dt before_dt hosts text_search shows results st
  = (r, st') ->
  cache_kept st st'
  /\ (forall k, ~ In k shows -> _cached_feeds st' !! k = _cached_feeds st !! k)
  /\ forall res, r = Ok res ->
       res = (results
              ++ concat (map (show_records lz feeds st' since_dt before_dt
                                           hosts text_search) shows))%list.
Proof.
  induction shows as [|show shows IH]; intros results st r st' Hnd; simpl.
  - intros [= <- <-]. split; [apply cache_kept_refl|]. split; [done|].
    intros res [= <-]. by rewrite app_nil_r.
  - apply NoDup_cons in Hnd as [Hnotin Hnd].
    rewrite list_elem_of_In in Hnotin.
    unfold bind at 1.
    destruct (_get_feed W feeds show st) as [r1 st1] eqn:Hget.
    destruct (get_feed_returns show st) as (o & st1' & Hget').
    rewrite Hget in Hget'. injection Hget' as -> <-.
    pose proof (get_feed_kept _ _ _ _ Hget) as Hkept1.
    destruct o as [root|].
    + unfold bind at 1.
      destruct (items_loop _ _ _ _ _ _ _ _ st1) as [r2 st2] eqn:Hitems.
      apply items_loop_spec in Hitems as [Hc2 Hres2].
      destruct r2 as [results'|e].
      * intros Hrest. apply IH in Hrest as (Hkept & Hother & Hres); [|done].
        assert (cache_kept st1 st') as Hkept1'.
        { intros k v Hk. apply Hkept. by rewrite Hc2. }
        split; [by eapply cache_kept_trans|]. split.
        { intros k Hk. rewrite Hother by tauto. rewrite Hc2.
          eapply get_feed_other; [done|]. intros ->. apply Hk. by left. }
        intros res ->%Hres. rewrite (Hres2 _ eq_refl).
        rewrite <- app_assoc. f_equal. f_equal.
        unfold show_records.
        by rewrite (cached_feed_kept _ _ _ _ Hkept1' (get_feed_some _ _ _ _ Hget)).
      * intros [= <- <-]. split.
        { intros k v Hk. rewrite Hc2. by apply Hkept1. }
        split; [|by intros res [=]].
        intros k Hk. rewrite Hc2. eapply get_feed_other; [done|].
        intros ->. apply Hk. by left.
    + destruct (get_feed_none _ _ _ Hget) as [Hnone Hsame].
      intros Hrest. apply IH in Hrest as (Hkept & Hother & Hres); [|done].
      split; [by eapply cache_kept_trans|]. split.
      { intros k Hk. rewrite Hother by tauto. by rewrite Hsame. }
      intros res ->%Hres. f_equal.
      assert (show_records lz feeds st' since_dt before_dt hosts text_search
                           show = []) as ->; [|done].
      unfold show_records.
      assert (cached_feed feeds st' show = None) as ->; [|done].
      revert Hnone. unfold cached_feed.
      destruct (Etree.assoc show feeds); [|done].
      by rewrite (Hother show Hnotin).
Qed.

Lemma shows_loop_kept shows : forall results st r st',
  shows_loop lz W feeds since_dt before_dt hosts text_search shows results st
  = (r, st') ->
  cache_kept st st'.
Proof.
  induction shows as [|show shows IH]; intros results st r st'; simpl.
  - intros [= <- <-]. apply cache_kept_refl.
  - unfold bind at 1.
    destruct (_get_feed W feeds show st) as [r1 st1] eqn:Hget.
    destruct (get_feed_returns show st) as (o & st1' & Hget').
    rewrite Hget in Hget'. injection Hget' as -> <-.
    pose proof (get_feed_kept _ _ _ _ Hget) as Hkept1.
    destruct o as [root|].
    + unfold bind at 1.
      destruct (items_loop _ _ _ _ _ _ _ _ st1) as [r2 st2] eqn:Hitems.
      apply items_loop_spec in Hitems as [Hc2 _].
      assert (cache_kept st st2) as Hkept2.
      { intros k v Hk. rewrite Hc2. by apply Hkept1. }
      destruct r2 as [results'|e].
      * intros Hrest%IH. by eapply cache_kept_trans.
      * by intros [= <- <-].
    + intros Hrest%IH. by eapply cache_kept_trans.
Qed.

End Loops.

(** Normalising a date argument of a search cannot fail and leaves the
    cache alone. *)
Lemma search_bound date st :
  exists st1,
    (if truthy (of_opt_str date)
     then logging (_parse_date lz (default "" date)) else ret None) st
    = (Ok (bound_of lz date), st1)
    /\ _cached_feeds st1 = _cached_feeds st.
Proof.
  unfold bound_of. destruct (truthy (of_opt_str date)).
  - destruct (parse_date_returns lz (default "" date)) as (evs & o & Heq & _).
    unfold logging. rewrite Heq. simpl. by eexists.
  - by eexists.
Qed.

(** What a search returns: show after show of its scope, the records
    of the show's document that pass the filters, in document order. *)
Lemma search_spec show_name since_date before_date hosts text_search
      st results st' :
  NoDup (scoped feeds show_name) ->
  search_episodes lz W feeds show_name since_date before_date hosts
                  text_search st = (Ok results, st') ->
  results
  = concat (map (show_records lz feeds st' (bound_of lz since_date)
                              (bound_of lz before_date) hosts text_search)
                (scoped feeds show_name)).
Proof.
  intros Hnd. unfold search_episodes.
  destruct (negb (existsb truthy _)); [by intros [=]|].
  unfold bind at 1.
  destruct (search_bound since_date st) as (st1 & -> & _).
  unfold bind at 1.
  destruct (search_bound before_date st1) as (st2 & -> & _).
  intros H. apply shows_loop_spec in H as (_ & _ & H); [|done].
  by rewrite (H _ eq_refl).
Qed.

Lemma search_kept show_name since_date before_date hosts text_search st :
  cache_kept st (snd (search_episodes lz W feeds show_name since_date
                                      before_date hosts text_search st)).
Proof.
  unfold search_episodes.
  destruct (negb (existsb truthy _)); [apply cache_kept_refl|].
  unfold bind at 1.
  destruct (search_bound since_date st) as (st1 & -> & Hc1).
  unfold bind at 1.
  destruct (search_bound before_date st1) as (st2 & -> & Hc2).
  destruct (shows_loop _ _ _ _ _ _ _ _ _ st2) as [r st3] eqn:Hloop.
  apply shows_loop_kept in Hloop. simpl.
  intros k v Hk. apply Hloop. by rewrite Hc2, Hc1.
Qed.

Lemma get_episode_kept show number st :
  cache_kept st (snd (get_episode W feeds show number st)).
Proof.
  unfold get_episode, bind.
  destruct (_get_feed W feeds show st) as [r st1] eqn:Hget.
  pose proof (get_feed_kept _ _ _ _ Hget) as Hk.
  destruct r as [[root|]|e]; done.
Qed.

Lemma get_transcript_kept show number st :
  cache_kept st (snd (get_transcript W feeds show number st)).
Proof.
  unfold get_transcript. unfold bind at 1.
  pose proof (get_episode_kept show number st) as Hk.
  destruct (get_episode W feeds show number st) as [[[ep|]|e] st1];
    cbn [snd] in Hk; cbv beta iota; try exact Hk.
  destruct (negb (truthy (PyDict ep))); [exact Hk|].
  destruct (negb (truthy _)); [exact Hk|].
  unfold try_except.
  destruct (Dict.get_or_none "transcript_url" ep) as [|n|url|l|d];
    try exact Hk.
  unfold bind, http_get. destruct (requests_get W _ url); exact Hk.
Qed.

Lemma after_calls_kept calls : forall st,
  cache_kept st (after_calls lz W feeds calls st).
Proof.
  induction calls as [|c calls IH]; intros st; simpl; [apply cache_kept_refl|].
  eapply cache_kept_trans; [|apply IH].
  destruct c as [show|show since before hosts text|show number|show number];
    simpl.
  - destruct (_get_feed W feeds show st) as [r st1] eqn:Hget.
    by eapply get_feed_kept.
  - apply search_kept.
  - apply get_episode_kept.
  - apply get_transcript_kept.
Qed.

(** A lookup of a cached show answers from the cache and changes
    nothing. *)
Lemma get_feed_hit show url root st :
  Etree.assoc show feeds = Some url ->
  _cached_feeds st !! show = Some root ->
  _get_feed W feeds show st = (Ok (Some root), st).
Proof. intros Hurl Hc. unfold _get_feed. by rewrite Hurl, Hc. Qed.


End FeedCache.

(** What [_get_feed] does on a miss of the cache. *)
Lemma get_feed_miss (W : World) (feeds : list (string * string))
        (show url : string) (st : state) :
  Etree.assoc show feeds = Some url ->
  _cached_feeds st !! show = None ->
  let content :=
    if PyStr.startswith url "file://"
    then open_read W (length (log st)) (PyStr.drop_prefix 7 url)
    else requests_get W (length (log st)) url in
  let failed (evs : list event) (e : exn)
      : result (option Etree.Element) * state :=
    (Ok None,
     State (_cached_feeds st)
           (log st ++ fetch_event url :: evs
            ++ [EvPrint ("Error parsing feed for " ++ show ++ ": "
                         ++ message e)])) in
  PodcastRSSParser._get_feed W feeds show st
  = match content with
    | Raise e => failed [] e
    | Ok c =>
        match fromstring W c with
        | Raise e => failed [EvFromstring c] e
        | Ok root =>
            (Ok (Some root),
             State (<[show := root]> (_cached_feeds st))
                   (log st ++ [fetch_event url; EvFromstring c]))
        end
    end.
Proof.
  intros Hurl Hmiss content failed. subst content failed.
  unfold PodcastRSSParser._get_feed. rewrite Hurl, Hmiss.
  unfold try_except, bind, PodcastRSSParser.fetch_feed, bind, fetch_event.
  destruct (PyStr.startswith url "file://");
    unfold PodcastRSSParser.read_file, PodcastRSSParser.http_get; simpl.
  - destruct (open_read W _ _) as [c|e]; simpl.
    + unfold lift. destruct (fromstring W c) as [root|e]; simpl.
      * unfold cache_store, ret. simpl. by rewrite <- app_assoc.
      * unfold logging, ret. simpl. by rewrite <- !app_assoc.
    + unfold logging, ret. simpl. by rewrite <- !app_assoc.
  - destruct (requests_get W _ _) as [c|e]; simpl.
    + unfold lift. destruct (fromstring W c) as [root|e]; simpl.
      * unfold cache_store, ret. simpl. by rewrite <- app_assoc.
      * unfold logging, ret. simpl. by rewrite <- !app_assoc.
    + unfold logging, ret. simpl. by rewrite <- !app_assoc.
Qed.

Section CacheLink.

Import PodcastRSSParser.

Context (W : World) (feeds : list (string * string)).

(** A miss of the cache goes by what the collaborators answer: a
    document is stored and returned, an error leaves the cache as it
    is.  Either way the fetch is logged first. *)
Lemma get_feed_fetches show url st :
  Etree.assoc show feeds = Some url ->
  _cached_feeds st !! show = None ->
  exists evs,
    _get_feed W feeds show st
    = match fetch_and_parse W url st with
      | Ok doc =>
          (Ok (Some doc),
           State (<[show := doc]> (_cached_feeds st))
                 (log st ++ fetch_event url :: evs))
      | Raise e =>
          (Ok None,
           State (_cached_feeds st) (log st ++ fetch_event url :: evs))
      end.
Proof.
  intros Hurl Hmiss. rewrite (get_feed_miss W feeds show url st Hurl Hmiss).
  cbv zeta. unfold fetch_and_parse.
  destruct (if PyStr.startswith url "file://" then _ else _) as [c|e];
    cbn [bind_result]; [destruct (fromstring W c) as [root|e]|];
    by eexists.
Qed.

End CacheLink.

(** C4.  A lookup of a configured show never raises.  On a miss of the
    cache the show's locator is fetched and parsed: when that succeeds
    the document is returned and stored, and from then on every lookup
    of the show, whatever calls the process makes in between, returns
    the same document and leaves the state as it is, so nothing is
    fetched and nothing is logged; when it fails, nothing is returned,
    the cache is unchanged and holds no entry for the show, and the
    next lookup fetches the locator again and goes by what the
    collaborators answer then. *)
Theorem feed_cache_invariant (lz : Strptime.local_zone) (W : World)
        (feeds : list (string * string)) (show url : string)
        (st st1 : state) (r : result (option Etree.Element)) :
  Etree.assoc show feeds = Some url ->
  PodcastRSSParser._get_feed W feeds show st = (r, st1) ->
  (exists o, r = Ok o)
  /\ (forall doc,
        _cached_feeds st !! show = None ->
        fetch_and_parse W url st = Ok doc ->
        r = Ok (Some doc)
        /\ _cached_feeds st1 !! show = Some doc
        /\ exists evs, log st1 = (log st ++ fetch_event url :: evs)%list)
  /\ (forall doc, r = Ok (Some doc) ->
      forall calls,
        let st2 := after_calls lz W feeds calls st1 in
        PodcastRSSParser._get_feed W feeds show st2 = (Ok (Some doc), st2))
  /\ (forall e,
        _cached_feeds st !! show = None ->
        fetch_and_parse W url st = Raise e ->
        r = Ok None
        /\ _cached_feeds st1 = _cached_feeds st
        /\ _cached_feeds st1 !! show = None
        /\ exists evs,
             log (snd (PodcastRSSParser._get_feed W feeds show st1))
             = (log st1 ++ fetch_event url :: evs)%list
             /\ fst (PodcastRSSParser._get_feed W feeds show st1)
                = match fetch_and_parse W url st1 with
                  | Ok doc => Ok (Some doc)
                  | Raise _ => Ok None
                  end)
  /\ (r = Ok None ->
      _cached_feeds st1 = _cached_feeds st
      /\ _cached_feeds st1 !! show = None
      /\ exists r' st' evs,
           PodcastRSSParser._get_feed W feeds show st1 = (r', st')
           /\ log st' = (log st1 ++ fetch_event url :: evs)%list).
Proof.
  intros Hurl Hget. split; [|split; [|split; [|split]]].
  - destruct (get_feed_returns W feeds show st) as (o & st' & H).
    rewrite Hget in H. injection H as -> _. by exists o.
  - intros doc Hmiss Hok.
    destruct (get_feed_fetches W feeds show url st Hurl Hmiss) as [evs H].
    rewrite Hok, Hget in H. injection H as -> ->. cbn [_cached_feeds log].
    split; [done|]. split; [by rewrite lookup_insert_eq|by exists evs].
  - intros doc -> calls st2.
    apply get_feed_some in Hget. unfold cached_feed in Hget.
    rewrite Hurl in Hget.
    apply (get_feed_hit W feeds show url doc st2 Hurl).
    by apply (after_calls_kept lz W feeds calls st1).
  - intros e Hmiss Hfail.
    destruct (get_feed_fetches W feeds show url st Hurl Hmiss) as [evs H].
    rewrite Hfail, Hget in H. injection H as -> ->. cbn [_cached_feeds log].
    split; [done|]. split; [done|]. split; [done|].
    destruct (get_feed_fetches W feeds show url
                (State (_cached_feeds st) (log st ++ fetch_event url :: evs))
                Hurl Hmiss) as [evs' ->].
    exists evs'. clear Hfail. by destruct (fetch_and_parse W url _).
  - intros ->. destruct (get_feed_none _ _ _ _ _ Hget) as [Hnone Hsame].
    unfold cached_feed in Hnone. rewrite Hurl in Hnone.
    split; [done|]. split; [done|].
    destruct (PodcastRSSParser._get_feed W feeds show st1) as [r' st'] eqn:H'.
    exists r', st'.
    destruct (get_feed_cases _ _ _ _ _ _ H')
      as [(Hu & _)|[(? & ? & _ & Hc & _)
         |[(u & ? & evs & Hu & _ & _ & ->)|(u & evs & Hu & _ & _ & ->)]]];
      try congruence; exists evs; (split; [done|]); simpl; congruence.
Qed.

Lemma feed_cache_invariant_witness :
  let first := PodcastRSSParser._get_feed sample_world sample_feeds "LUP" st0 in
  let st2 :=
    after_calls lz_utc sample_world sample_feeds
                [CallSearch None None None None (Some "texas");
                 CallGetEpisode "Extras" "1"; CallGetTranscript "LUP" "g1";
                 CallGetFeed "LUP"] (snd first) in
  fst first = Ok (Some sample_root)
  /\ _cached_feeds (snd first) !! "LUP" = Some sample_root
  /\ PodcastRSSParser._get_feed sample_world sample_feeds "LUP" st2
     = (Ok (Some sample_root), st2).
Proof.
  intros first st2.
  destruct (feed_cache_invariant lz_utc sample_world sample_feeds "LUP"
              "file://tests/sample_rss.xml" st0 (snd first) (fst first)
              eq_refl eq_refl) as (_ & Hfetch & Hhit & _).
  destruct (Hfetch sample_root eq_refl eq_refl) as (Hr & Hc & _).
  split; [exact Hr|]. split; [exact Hc|]. exact (Hhit sample_root Hr _).
Defined.

(** A failed fetch is not cached: in [flaky_world] the first lookup
    fails, the second one fetches again and succeeds, the third one is
    answered from the cache without a fetch. *)
Lemma failed_fetch_is_retried :
  let get := PodcastRSSParser._get_feed flaky_world sample_feeds "LUP" in
  let '(r1, st1) := get st0 in
  let '(r2, st2) := get st1 in
  let '(r3, st3) := get st2 in
  r1 = Ok None /\ _cached_feeds st1 !! "LUP" = None
  /\ log st1 = [EvOpen "tests/sample_rss.xml";
                EvPrint "Error parsing feed for LUP: No such file or directory"]
  /\ r2 = Ok (Some sample_root)
  /\ log st2 = (log st1 ++ [EvOpen "tests/sample_rss.xml"; EvFromstring "<rss/>"])%list
  /\ r3 = Ok (Some sample_root) /\ st3 = st2.
Proof. vm_compute. repeat split. Qed.

(** ** Episode records *)

Section Records.

Import PodcastRSSParser.

Lemma fold_enclosures encl : forall a b c d e f g h hs ts es ch,
  fold_left add_enclosure encl
            (record_draft a b c d e f g h hs ts (PyList es) ch)
  = record_draft a b c d e f g h hs ts
                 (PyList (es ++ map enclosure_entry encl)) ch.
Proof.
  induction encl as [|x encl IH]; intros; simpl.
  - by rewrite app_nil_r.
  - unfold add_enclosure at 2.
    change (Dict.append "enclosures" ?v (record_draft ?a ?b ?c ?d ?e ?f ?g ?h ?hs ?ts (PyList ?es) ?ch))
      with (record_draft a b c d e f g h hs ts (PyList (es ++ [v])) ch).
    rewrite IH. by rewrite <- app_assoc.
Qed.

Lemma fold_persons persons : forall a b c d e f g h names ts es ch,
  exists names',
    fold_left add_person persons
              (record_draft a b c d e f g h (PyList (map PyStr names)) ts es ch)
    = record_draft a b c d e f g h (PyList (map PyStr names')) ts es ch.
Proof.
  induction persons as [|x persons IH]; intros; simpl; [by eexists|].
  unfold add_person at 2.
  destruct (String.eqb _ "host"); [|apply IH].
  destruct (Etree.text x) as [name|]; [|apply IH].
  destruct (truthy (PyStr name)); [|apply IH].
  change (Dict.append "hosts" ?v (record_draft ?a ?b ?c ?d ?e ?f ?g ?h (PyList ?hs) ?ts ?es ?ch))
    with (record_draft a b c d e f g h (PyList (hs ++ [v])) ts es ch).
  change [PyStr (PyStr.strip name)] with (map PyStr [PyStr.strip name]).
  rewrite <- map_app. apply IH.
Qed.

Lemma fold_transcripts transcripts : forall a b c d e f g h hs ts es ch,
  exists ts',
    fold_left add_transcript transcripts
              (record_draft a b c d e f g h hs (PyList ts) es ch)
    = record_draft a b c d e f g h hs (PyList ts') es ch.
Proof.
  induction transcripts as [|x transcripts IH]; intros; simpl; [by eexists|].
  unfold add_transcript at 2.
  destruct (truthy _); [|apply IH].
  change (Dict.append "transcript_urls" ?v (record_draft ?a ?b ?c ?d ?e ?f ?g ?h ?hs (PyList ?ts) ?es ?ch))
    with (record_draft a b c d e f g h hs (PyList (ts ++ [v])) es ch).
  apply IH.
Qed.

(** Every record has the same thirteen keys; the text fields hold what
    [get_text] and [get_cdata_content] return, the host list holds
    strings. *)
Lemma parse_episode_shape show item :
  exists names ts ch turl,
    _parse_episode show item
    = record_of
        (PyStr show)
        (py_or (get_text (Etree.find "guid" item))
               (get_text (Etree.find_deep (NS_PODCAST ++ "episode") item)))
        (get_text (Etree.find_deep (NS_PODCAST ++ "episode") item))
        (get_text (Etree.find "title" item))
        (get_cdata_content (Etree.find "description" item))
        (get_text (Etree.find "pubDate" item))
        (get_text (Etree.find "link" item))
        (get_text (Etree.find_deep (NS_ITUNES ++ "duration") item))
        (PyList (map PyStr names))
        (PyList ts)
        (PyList (map enclosure_entry (Etree.findall "enclosure" item)))
        ch turl.
Proof.
  unfold _parse_episode.
  change [("show_name", ?a); ("id", ?b); ("episode_number", ?c); ("title", ?d);
          ("description", ?e); ("published_date", ?f); ("link", ?g);
          ("duration", ?h); ("hosts", PyList []); ("transcript_urls", PyList []);
          ("enclosures", PyList []); ("chapters_url", PyNone)]
    with (record_draft a b c d e f g h (PyList (map PyStr [])) (PyList [])
                       (PyList []) PyNone).
  rewrite fold_enclosures. simpl app.
  edestruct fold_persons as [names ->].
  edestruct fold_transcripts as [ts ->].
  destruct (Etree.find_deep (NS_PODCAST ++ "chapters") item); by eexists _, _, _, _.
Qed.

Lemma parse_episode_keys show item :
  Dict.keys (_parse_episode show item) = RECORD_KEYS.
Proof. by destruct (parse_episode_shape show item) as (? & ? & ? & ? & ->). Qed.

End Records.

(** The part of C8 the code keeps: every record has every key, and a
    text field whose element is absent is the empty string. *)
Lemma parse_episode_absent_fields (show : string) (item : Etree.Element) :
  Dict.keys (PodcastRSSParser._parse_episode show item) = RECORD_KEYS
  /\ (Etree.find "title" item = None ->
      Dict.get "title" (PodcastRSSParser._parse_episode show item)
      = Some (PyStr ""))
  /\ (Etree.find "link" item = None ->
      Dict.get "link" (PodcastRSSParser._parse_episode show item)
      = Some (PyStr ""))
  /\ (Etree.find_deep (PodcastRSSParser.NS_ITUNES ++ "duration") item = None ->
      Dict.get "duration" (PodcastRSSParser._parse_episode show item)
      = Some (PyStr ""))
  /\ (exists s, Dict.get "description" (PodcastRSSParser._parse_episode show item)
                = Some (PyStr s)).
Proof.
  split; [apply parse_episode_keys|].
  destruct (parse_episode_shape show item) as (names & ts & ch & turl & ->).
  repeat split.
  - by intros ->.
  - by intros ->.
  - by intros ->.
  - simpl. unfold PodcastRSSParser.get_cdata_content.
    destruct (Etree.find "description" item) as [e|]; [|by eexists].
    destruct (Etree.text e) as [t|]; [|by eexists].
    destruct (truthy (PyStr t)); by eexists.
Qed.

(** C8 at its failing input.  For an entry whose [title], [link] and
    [itunes:duration] elements are present but empty, the record holds
    [None] under "title", "link" and "duration", not the empty string;
    only "description", read by [get_cdata_content], is the empty
    string. *)
Theorem parse_episode_empty_elements :
  let record := PodcastRSSParser._parse_episode "LUP" item_blank_title in
  Dict.get "title" record = Some PyNone
  /\ Dict.get "link" record = Some PyNone
  /\ Dict.get "duration" record = Some PyNone
  /\ Dict.get "description" record = Some (PyStr "").
Proof. repeat split. Qed.

(** The engine itself relies on the title being a string: a text search
    over a feed with such an entry fails with an [AttributeError], which
    the tool reports as a failed search. *)
Lemma text_search_fails_on_empty_title :
  fst (PodcastRSSParser.search_episodes lz_utc blank_title_world sample_feeds
         (Some "LUP") None None None (Some "texas") st0)
  = Raise (Exn AttributeError "'NoneType' object has no attribute 'lower'")
  /\ fst (Server.search_episodes lz_utc blank_title_world
            (Some "Linux Unplugged") None None None (Some "texas") 1 5 st0)
     = Ok (Server.error_value
             "Search failed: 'NoneType' object has no attribute 'lower'").
Proof. split; reflexivity. Qed.

(** ** The query engine *)

Section QueryEngine.

Import PodcastRSSParser.

Context (lz : Strptime.local_zone).

Lemma snd_out_bind {A B} (m : Out A) (f : A -> Out B) :
  snd (out_bind m f)
  = match snd m with
    | Ok a => snd (f a)
    | Raise e => Raise e
    end.
Proof.
  destruct m as [evs [a|e]]; simpl; [|done]. by destruct (f a).
Qed.

(** A date test does not skip a record whose date is empty, missing or
    not a date. *)
Lemma date_skips_unparseable bound beyond episode_data :
  let pub := Dict.get_or_none "published_date" episode_data in
  truthy pub = false \/ snd (_parse_date_of lz pub) = Ok None ->
  snd (date_skips lz bound beyond episode_data) = Ok false.
Proof.
  intros pub H. unfold date_skips. destruct bound as [bound_dt|]; [|done].
  fold pub. destruct (truthy pub); [|done].
  destruct H as [H|H]; [done|]. rewrite snd_out_bind. by rewrite H.
Qed.

Lemma skips_unparseable since_dt before_dt hosts text_search episode_data :
  let pub := Dict.get_or_none "published_date" episode_data in
  truthy pub = false \/ snd (_parse_date_of lz pub) = Ok None ->
  snd (skips lz since_dt before_dt hosts text_search episode_data)
  = snd (skips lz None None hosts text_search episode_data).
Proof.
  intros pub H. unfold skips. rewrite !snd_out_bind.
  rewrite !(date_skips_unparseable _ _ _ H). cbv iota.
  rewrite !snd_out_bind. rewrite !(date_skips_unparseable _ _ _ H). cbv iota.
  rewrite !snd_out_bind. reflexivity.
Qed.

Lemma scoped_NoDup feeds show_name :
  NoDup (get_shows feeds) -> NoDup (scoped feeds show_name).
Proof.
  intros H. unfold scoped. destruct (truthy _); [|done].
  apply NoDup_singleton.
Qed.

Lemma in_show_records feeds st since_dt before_dt hosts text_search show ep :
  In ep (show_records lz feeds st since_dt before_dt hosts text_search show) ->
  kept lz since_dt before_dt hosts text_search ep = true.
Proof.
  unfold show_records. destruct (cached_feed feeds st show); [|done].
  by intros [_ H]%List.filter_In.
Qed.

Lemma episode_loop_find show episode_number items :
  episode_loop show episode_number items
  = _parse_episode show <$> List.find (matches_episode episode_number) items.
Proof.
  induction items as [|item items IH]; simpl; [done|].
  unfold matches_episode at 1.
  destruct (text_is (Etree.find "guid" item) episode_number); simpl; [done|].
  destruct (text_is _ episode_number); simpl; [done|apply IH].
Qed.

Lemma find_first_match {A} (P : A -> bool) pre x post :
  forallb (fun y => negb (P y)) pre = true -> P x = true ->
  List.find P (pre ++ x :: post) = Some x.
Proof.
  induction pre as [|y pre IH]; simpl; intros Hpre Hx.
  - by rewrite Hx.
  - apply andb_prop in Hpre as [Hy Hpre].
    apply negb_true_iff in Hy. rewrite Hy. by apply IH.
Qed.

(** *** A search without a text filter always returns *)

Lemma bound_of_aware date : aware (bound_of lz date).
Proof.
  unfold bound_of, aware. destruct (truthy _); [|done].
  destruct (parse_date_returns lz (default "" date)) as (evs & o & -> & Ho).
  apply Ho.
Qed.

Lemma lower_all_strings names :
  lower_all (map PyStr names) = Ok (map PyStr.lower names).
Proof. induction names as [|n names IH]; simpl; [done|]. by rewrite IH. Qed.

Lemma any_host_returns hosts names :
  exists b, any_host hosts (PyList (map PyStr names)) = Ok b.
Proof.
  induction hosts as [|h hosts IH]; simpl; [by eexists|].
  rewrite lower_all_strings. simpl. destruct (existsb _ _); [by eexists|done].
Qed.

Lemma get_text_cases element :
  get_text element = PyNone \/ exists s, get_text element = PyStr s.
Proof.
  destruct element as [e|]; simpl; [|right; by eexists].
  destruct (Etree.text e); [right; by eexists|by left].
Qed.

Lemma date_skips_returns bound beyond show item :
  aware bound -> beyond = Datetime.lt \/ beyond = Datetime.gt ->
  exists b, snd (date_skips lz bound beyond (_parse_episode show item)) = Ok b.
Proof.
  intros Hbound Hbeyond. unfold date_skips.
  destruct bound as [bound_dt|]; [|by eexists].
  destruct (parse_episode_shape show item) as (names & ts & ch & turl & ->).
  change (Dict.get_or_none "published_date" (record_of ?a ?b ?c ?d ?e ?f ?g ?h ?i ?j ?k ?l ?m))
    with f.
  destruct (get_text_cases (Etree.find "pubDate" item)) as [->|[s ->]];
    [by eexists|].
  destruct (truthy (PyStr s)); [|by eexists].
  rewrite snd_out_bind. simpl.
  destruct (parse_date_returns lz s) as (evs & o & -> & Ho). simpl.
  destruct o as [dt|]; [|by eexists].
  specialize (Ho dt eq_refl). specialize (Hbound bound_dt eq_refl).
  destruct Hbeyond as [-> | ->]; unfold Datetime.lt, Datetime.gt, Datetime.cmp;
    destruct (Datetime.tzinfo dt); [|done| |done];
    destruct (Datetime.tzinfo bound_dt); try done; by eexists.
Qed.

Lemma hosts_skip_returns hosts show item :
  exists b, snd (hosts_skip hosts (_parse_episode show item)) = Ok b.
Proof.
  unfold hosts_skip. destruct (truthy _); [|by eexists].
  destruct (parse_episode_shape show item) as (names & ts & ch & turl & ->).
  change (Dict.get_default "hosts" ?x (record_of ?a ?b ?c ?d ?e ?f ?g ?h ?i ?j ?k ?l ?m))
    with i.
  rewrite snd_out_bind. simpl.
  destruct (any_host_returns (default [] hosts) names) as [b ->].
  by eexists.
Qed.

Lemma skips_returns_without_text since_dt before_dt hosts text_search show item :
  aware since_dt -> aware before_dt ->
  truthy (of_opt_str text_search) = false ->
  exists b,
    snd (skips lz since_dt before_dt hosts text_search (_parse_episode show item))
    = Ok b.
Proof.
  intros Hs Hb Ht. unfold skips. rewrite snd_out_bind.
  destruct (date_skips_returns since_dt Datetime.lt show item Hs) as [[] ->];
    [by left|by eexists|].
  rewrite snd_out_bind.
  destruct (date_skips_returns before_dt Datetime.gt show item Hb) as [[] ->];
    [by right|by eexists|].
  rewrite snd_out_bind.
  destruct (hosts_skip_returns hosts show item) as [[] ->]; [by eexists|].
  unfold text_skips. rewrite Ht. by eexists.
Qed.

Section Returns.

Context (W : World) (feeds : list (string * string)).
Context (since_dt before_dt : option Datetime.datetime)
        (hosts : option (list string)) (text_search : option string).

Hypothesis since_aware : aware since_dt.
Hypothesis before_aware : aware before_dt.
Hypothesis no_text : truthy (of_opt_str text_search) = false.

Lemma items_loop_returns show items : forall results st,
  exists res st',
    items_loop lz since_dt before_dt hosts text_search show items results st
    = (Ok res, st').
Proof.
  induction items as [|item items IH]; intros results st; simpl;
    [by eexists _, _|].
  unfold bind at 1. unfold logging at 1.
  destruct (skips_returns_without_text since_dt before_dt hosts text_search
              show item since_aware before_aware no_text) as [b ->].
  apply IH.
Qed.

Lemma shows_loop_returns shows : forall results st,
  exists res st',
    shows_loop lz W feeds since_dt before_dt hosts text_search shows results st
    = (Ok res, st').
Proof.
  induction shows as [|show shows IH]; intros results st; simpl;
    [by eexists _, _|].
  unfold bind at 1.
  destruct (get_feed_returns W feeds show st) as ([root|] & st1 & ->);
    [|apply IH].
  unfold bind at 1.
  destruct (items_loop_returns show (Etree.xpath_all "item" root) results st1)
    as (res & st2 & ->).
  apply IH.
Qed.

End Returns.

(** With at least one parameter and no text filter, a search returns
    its results: nothing in it can raise. *)
Lemma search_returns_without_text W feeds show_name since_date before_date
      hosts text_search st :
  existsb truthy [of_opt_str show_name; of_opt_str since_date;
                  of_opt_str before_date; of_opt_list hosts] = true ->
  truthy (of_opt_str text_search) = false ->
  exists results st',
    search_episodes lz W feeds show_name since_date before_date hosts
                    text_search st = (Ok results, st').
Proof.
  intros Hany Ht. unfold search_episodes.
  assert (existsb truthy [of_opt_str show_name; of_opt_str since_date;
                          of_opt_str before_date; of_opt_list hosts;
                          of_opt_str text_search] = true) as ->.
  { simpl in *. rewrite Ht. by rewrite !orb_false_r in *. }
  cbv [negb]. unfold bind at 1.
  destruct (search_bound lz since_date st) as (st1 & -> & _).
  unfold bind at 1.
  destruct (search_bound lz before_date st1) as (st2 & -> & _).
  apply shows_loop_returns; [apply bound_of_aware..|done].
Qed.

End QueryEngine.

(** C6.  A search without any of the five parameters raises the
    [ValueError] "At least one search parameter must be provided" before
    anything is fetched or logged; the tool returns that message as an
    error value, and whatever its arguments the tool returns a value
    and never raises. *)
Theorem search_without_parameters (lz : Strptime.local_zone) (W : World)
        (feeds : list (string * string)) (st : state) (page per_page : Z) :
  PodcastRSSParser.search_episodes lz W feeds None None None None None st
  = (Raise (Exn ValueError PodcastRSSParser.NO_PARAMETER), st)
  /\ Server.search_episodes lz W None None None None None page per_page st
     = (Ok (Server.error_value PodcastRSSParser.NO_PARAMETER), st)
  /\ forall show_name since_date before_date hosts text_search,
       exists v st',
         Server.search_episodes lz W show_name since_date before_date hosts
                                text_search page per_page st
         = (Ok v, st').
Proof.
  split; [reflexivity|]. split; [reflexivity|].
  intros show_name since_date before_date hosts text_search.
  unfold Server.search_episodes, try_except, bind.
  destruct (PodcastRSSParser.search_episodes _ _ _ _ _ _ _ _ st)
    as [[results|e] st1]; simpl.
  - by eexists _, _.
  - destruct (kind e); by eexists _, _.
Qed.

(** The tool without pages returns the same message, as the only
    element of a list. *)
Lemma jupiter_search_without_parameters (lz : Strptime.local_zone) (W : World)
      (st : state) :
  JupiterServer.search_episodes lz W None None None None None st
  = (Ok (PyList [Server.error_value PodcastRSSParser.NO_PARAMETER]), st).
Proof. reflexivity. Qed.

(** The same holds for parameters that are given but empty. *)
Lemma search_with_empty_parameters (lz : Strptime.local_zone) (W : World)
      (feeds : list (string * string)) (st : state) :
  PodcastRSSParser.search_episodes lz W feeds (Some "") (Some "") (Some "")
                                   (Some []) (Some "") st
  = (Raise (Exn ValueError PodcastRSSParser.NO_PARAMETER), st).
Proof. reflexivity. Qed.

(** C3, as amended.  [get_episode] returns the record of the first
    entry, in document order, whose unique id or whose episode number
    equals the query: an entry is returned when it matches and no entry
    before it does, whichever of the two tests it matches by. *)
Theorem get_episode_first_match (W : World) (feeds : list (string * string))
        (show episode_number : string) (st : state) (root : Etree.Element)
        (pre post : list Etree.Element) (item : Etree.Element) :
  fst (PodcastRSSParser._get_feed W feeds show st) = Ok (Some root) ->
  Etree.xpath_all "item" root = (pre ++ item :: post)%list ->
  forallb (fun it => negb (matches_episode episode_number it)) pre = true ->
  matches_episode episode_number item = true ->
  fst (PodcastRSSParser.get_episode W feeds show episode_number st)
  = Ok (Some (PodcastRSSParser._parse_episode show item)).
Proof.
  intros Hget Hitems Hpre Hitem.
  unfold PodcastRSSParser.get_episode, bind.
  destruct (PodcastRSSParser._get_feed W feeds show st) as [r st1].
  simpl in Hget. subst r. simpl.
  rewrite episode_loop_find, Hitems.
  by rewrite (find_first_match _ _ _ _ Hpre Hitem).
Qed.

Lemma get_episode_first_match_witness :
  fst (PodcastRSSParser.get_episode sample_world sample_feeds "LUP" "42" st0)
  = Ok (Some (PodcastRSSParser._parse_episode "LUP" item_texas)).
Proof.
  apply (get_episode_first_match sample_world sample_feeds "LUP" "42" st0
           sample_root [] [item_undated] item_texas); reflexivity.
Defined.

(** C3, as stated, fails when the entry matched by its episode number
    comes first: in the sample feed the query "42" is the episode number
    of the first entry and the unique id of the second, and the first
    entry is returned. *)
Lemma get_episode_prefers_document_order :
  PodcastRSSParser.text_is (Etree.find "guid" item_undated) "42" = true
  /\ PodcastRSSParser.text_is (Etree.find "guid" item_texas) "42" = false
  /\ matches_episode "42" item_texas = true
  /\ fst (PodcastRSSParser.get_episode sample_world sample_feeds "LUP" "42" st0)
     = Ok (Some (PodcastRSSParser._parse_episode "LUP" item_texas))
  /\ fst (PodcastRSSParser.get_episode sample_world sample_feeds "LUP" "42" st0)
     <> Ok (Some (PodcastRSSParser._parse_episode "LUP" item_undated)).
Proof. repeat split; try reflexivity. discriminate. Qed.

(** C7.  The results of a search are, show after show in the order of
    its scope (the configured order when no show is given), the records
    of the show's document that pass the filters, in document order.
    Hence two records of one show that both pass the filters come out
    in their document order, and the records of a show scoped earlier
    come out before those of a show scoped later; dates play no part in
    the order.  [feeds] is a [dict], so its keys are distinct.  A search
    that raises has no results; [search_returns_without_text] shows
    that a search without a text filter always returns. *)
Theorem search_order_preserved (lz : Strptime.local_zone) (W : World)
        (feeds : list (string * string))
        (show_name since_date before_date : option string)
        (hosts : option (list string)) (text_search : option string)
        (st st' : state) (results : list Dict.t) :
  NoDup (PodcastRSSParser.get_shows feeds) ->
  PodcastRSSParser.search_episodes lz W feeds show_name since_date before_date
                                   hosts text_search st = (Ok results, st') ->
  let keep := kept lz (bound_of lz since_date) (bound_of lz before_date)
                   hosts text_search in
  let records := show_records lz feeds st' (bound_of lz since_date)
                              (bound_of lz before_date) hosts text_search in
  results = concat (map records (scoped feeds show_name))
  /\ (truthy (of_opt_str show_name) = false ->
      scoped feeds show_name = map fst feeds)
  /\ (forall show root a b,
        In show (scoped feeds show_name) ->
        cached_feed feeds st' show = Some root ->
        appears_before a b (Etree.xpath_all "item" root) ->
        keep (PodcastRSSParser._parse_episode show a) = true ->
        keep (PodcastRSSParser._parse_episode show b) = true ->
        appears_before (PodcastRSSParser._parse_episode show a)
                       (PodcastRSSParser._parse_episode show b) results)
  /\ (forall s1 s2 r1 r2,
        appears_before s1 s2 (scoped feeds show_name) ->
        In r1 (records s1) -> In r2 (records s2) ->
        appears_before r1 r2 results).
Proof.
  intros Hnd Hsearch keep records.
  pose proof (search_spec lz W feeds _ _ _ _ _ _ _ _
                (scoped_NoDup _ show_name Hnd) Hsearch) as Hres.
  fold records in Hres.
  split; [done|]. split; [|split].
  - intros Hshow. unfold scoped. by rewrite Hshow.
  - intros show root a b Hshow Hroot Hab Ha Hb. rewrite Hres.
    apply (appears_before_concat_within _ _ (records show)).
    + by apply in_map.
    + unfold records, show_records. rewrite Hroot.
      apply appears_before_filter; [|done..].
      by apply appears_before_map.
  - intros s1 s2 r1 r2 Hs H1 H2. rewrite Hres.
    apply (appears_before_concat_across _ _ (records s1) (records s2));
      [|done..].
    by apply appears_before_map.
Qed.

Lemma search_order_preserved_witness :
  appears_before (PodcastRSSParser._parse_episode "LUP" item_texas)
                 (PodcastRSSParser._parse_episode "LUP" item_undated)
                 (results_of since_october).
Proof.
  assert (NoDup (PodcastRSSParser.get_shows sample_feeds)) as Hnd
    by (apply (bool_decide_unpack _); vm_compute; reflexivity).
  assert (since_october = (Ok (results_of since_october), snd since_october))
    as Hsearch by (vm_compute; reflexivity).
  apply (proj1 (proj2 (proj2
           (search_order_preserved lz_utc sample_world sample_feeds None
              (Some "2025-10-01") None None None st0 (snd since_october)
              (results_of since_october) Hnd Hsearch)))
           "LUP" sample_root item_texas item_undated).
  - vm_compute. tauto.
  - vm_compute. reflexivity.
  - exists [], [], []. reflexivity.
  - vm_compute. reflexivity.
  - vm_compute. reflexivity.
Defined.

(** C1, as amended.  A record whose published date is empty, missing or
    not a date is never excluded by a date filter: it is among the
    results exactly when the host and text filters keep it. *)
Theorem unparseable_date_is_not_filtered (lz : Strptime.local_zone) (W : World)
        (feeds : list (string * string))
        (show_name since_date before_date : option string)
        (hosts : option (list string)) (text_search : option string)
        (st st' : state) (results : list Dict.t)
        (show : string) (root item : Etree.Element) :
  NoDup (PodcastRSSParser.get_shows feeds) ->
  PodcastRSSParser.search_episodes lz W feeds show_name since_date before_date
                                   hosts text_search st = (Ok results, st') ->
  In show (scoped feeds show_name) ->
  cached_feed feeds st' show = Some root ->
  In item (Etree.xpath_all "item" root) ->
  let episode_data := PodcastRSSParser._parse_episode show item in
  let pub := Dict.get_or_none "published_date" episode_data in
  truthy pub = false \/ snd (PodcastRSSParser._parse_date_of lz pub) = Ok None ->
  In episode_data results <-> kept lz None None hosts text_search episode_data = true.
Proof.
  intros Hnd Hsearch Hshow Hroot Hitem episode_data pub Hpub.
  pose proof (search_spec lz W feeds _ _ _ _ _ _ _ _
                (scoped_NoDup _ show_name Hnd) Hsearch) as ->.
  assert (kept lz (bound_of lz since_date) (bound_of lz before_date) hosts
               text_search episode_data
          = kept lz None None hosts text_search episode_data) as Hkept.
  { unfold kept. by rewrite (skips_unparseable lz _ _ _ _ _ Hpub). }
  split.
  - intros (records & (s & <- & _)%in_map_iff & Hin)%in_concat.
    rewrite <- Hkept. by eapply in_show_records.
  - intros Hk. apply in_concat. eexists. split; [by apply in_map|].
    unfold show_records. rewrite Hroot. apply List.filter_In. split.
    + by apply in_map.
    + by rewrite Hkept.
Qed.

Lemma unparseable_date_is_not_filtered_witness :
  In (PodcastRSSParser._parse_episode "LUP" item_undated)
     (results_of since_october)
  <-> kept lz_utc None None None None
           (PodcastRSSParser._parse_episode "LUP" item_undated) = true.
Proof.
  apply (unparseable_date_is_not_filtered lz_utc sample_world sample_feeds None
           (Some "2025-10-01") None None None st0 (snd since_october)
           (results_of since_october) "LUP" sample_root item_undated).
  - apply (bool_decide_unpack _). vm_compute. reflexivity.
  - vm_compute. reflexivity.
  - vm_compute. tauto.
  - vm_compute. reflexivity.
  - vm_compute. tauto.
  - right. vm_compute. reflexivity.
Defined.

(** C1, as stated, fails: with a [since] filter, and likewise with a
    [before] filter, that is active, the record of the sample feed whose
    date is not a date is returned, so not every returned record has a
    date that normalises. *)
Lemma unparseable_date_is_returned :
  let undated := PodcastRSSParser._parse_episode "LUP" item_undated in
  bound_of lz_utc (Some "2025-10-01")
  = Some (Datetime.mk 2025 10 1 0 0 0 0 (Some Datetime.utc))
  /\ Dict.get "published_date" undated = Some (PyStr "to be announced")
  /\ snd (PodcastRSSParser._parse_date lz_utc "to be announced") = Ok None
  /\ fst since_october
     = Ok [PodcastRSSParser._parse_episode "LUP" item_texas; undated]
  /\ fst before_october = Ok [undated]
  /\ ~ Forall (date_normalizes lz_utc) (results_of since_october)
  /\ ~ Forall (date_normalizes lz_utc) (results_of before_october).
Proof.
  assert (~ date_normalizes lz_utc
            (PodcastRSSParser._parse_episode "LUP" item_undated)) as Hno.
  { intros [dt Hdt]. vm_compute in Hdt. discriminate. }
  assert (forall l,
            In (PodcastRSSParser._parse_episode "LUP" item_undated) l ->
            ~ Forall (date_normalizes lz_utc) l) as Hin.
  { intros l Hl H. exact (Hno (proj1 (List.Forall_forall _ _) H _ Hl)). }
  cbv zeta. do 4 (split; [vm_compute; reflexivity|]).
  split; [|split].
  - vm_compute. reflexivity.
  - apply Hin. vm_compute. right. left. reflexivity.
  - apply Hin. vm_compute. left. reflexivity.
Qed.

(** Two shows, both answering: the records come out show by show, in
    the configured order. *)
Lemma search_groups_shows_in_configured_order :
  fst (PodcastRSSParser.search_episodes lz_utc blank_title_world sample_feeds
         None (Some "2025-01-01") None None None st0)
  = Ok [PodcastRSSParser._parse_episode "LUP" item_blank_title;
        PodcastRSSParser._parse_episode "Extras" item_blank_title].
Proof. vm_compute. reflexivity. Qed.
(** ** The lists of a record *)

Section RecordLists.

Import PodcastRSSParser.

Lemma fold_persons_exact persons : forall a b c d e f g h names ts es ch,
  fold_left add_person persons
            (record_draft a b c d e f g h (PyList (map PyStr names)) ts es ch)
  = record_draft a b c d e f g h
                 (PyList (map PyStr (names ++ omap host_name persons)))
                 ts es ch.
Proof.
  induction persons as [|x persons IH]; intros; simpl.
  - by rewrite app_nil_r.
  - unfold add_person at 2. unfold host_name at 1.
    destruct (String.eqb _ "host"); [|apply IH].
    destruct (Etree.text x) as [name|]; [|apply IH].
    simpl truthy. destruct (String.eqb name ""); simpl; [apply IH|].
    change (Dict.append "hosts" ?v
              (record_draft ?a ?b ?c ?d ?e ?f ?g ?h (PyList ?hs) ?ts ?es ?ch))
      with (record_draft a b c d e f g h (PyList (hs ++ [v])) ts es ch).
    change [PyStr (PyStr.strip name)] with (map PyStr [PyStr.strip name]).
    rewrite <- map_app, IH. by rewrite <- app_assoc.
Qed.

Lemma fold_transcripts_exact transcripts : forall a b c d e f g h hs ts es ch,
  fold_left add_transcript transcripts
            (record_draft a b c d e f g h hs (PyList ts) es ch)
  = record_draft a b c d e f g h hs
                 (PyList (ts ++ omap transcript_entry transcripts)) es ch.
Proof.
  induction transcripts as [|x transcripts IH]; intros; simpl.
  - by rewrite app_nil_r.
  - unfold add_transcript at 2. unfold transcript_entry at 1.
    unfold transcript_locator.
    destruct (Etree.get x "url") as [url|]; simpl; [|apply IH].
    destruct (String.eqb url ""); simpl; [apply IH|].
    change (Dict.append "transcript_urls" ?v
              (record_draft ?a ?b ?c ?d ?e ?f ?g ?h ?hs (PyList ?ts) ?es ?ch))
      with (record_draft a b c d e f g h hs (PyList (ts ++ [v])) es ch).
    rewrite IH. by rewrite <- app_assoc.
Qed.

(** The first entry of the list of transcripts and the first locator. *)
Lemma first_transcript_entry transcripts :
  match omap transcript_entry transcripts with
  | [] => head (omap transcript_locator transcripts) = None
  | entry :: _ =>
      exists url t,
        entry = PyDict (("url", PyStr url) :: t)
        /\ head (omap transcript_locator transcripts) = Some url
        /\ url <> ""
  end.
Proof.
  induction transcripts as [|x transcripts IH]; simpl; [done|].
  unfold transcript_entry at 1.
  destruct (transcript_locator x) as [url|] eqn:Hx; simpl; [|apply IH].
  eexists _, _. split; [done|]. split; [done|].
  unfold transcript_locator in Hx. destruct (Etree.get x "url"); [|done].
  by destruct (String.eqb_spec s ""); [|injection Hx as <-].
Qed.

(** The record of an entry, field by field. *)
Lemma parse_episode_record show item :
  _parse_episode show item
  = record_of
      (PyStr show)
      (py_or (get_text (Etree.find "guid" item))
             (get_text (Etree.find_deep (NS_PODCAST ++ "episode") item)))
      (get_text (Etree.find_deep (NS_PODCAST ++ "episode") item))
      (get_text (Etree.find "title" item))
      (get_cdata_content (Etree.find "description" item))
      (get_text (Etree.find "pubDate" item))
      (get_text (Etree.find "link" item))
      (get_text (Etree.find_deep (NS_ITUNES ++ "duration") item))
      (PyList (map PyStr (host_names item)))
      (PyList (omap transcript_entry (transcripts_of item)))
      (PyList (map enclosure_entry (Etree.findall "enclosure" item)))
      (match Etree.find_deep (NS_PODCAST ++ "chapters") item with
       | Some chapters_elem => of_opt_str (Etree.get chapters_elem "url")
       | None => PyNone
       end)
      (of_opt_str (first_locator item)).
Proof.
  unfold _parse_episode.
  change [("show_name", ?a); ("id", ?b); ("episode_number", ?c); ("title", ?d);
          ("description", ?e); ("published_date", ?f); ("link", ?g);
          ("duration", ?h); ("hosts", PyList []);
          ("transcript_urls", PyList []);
          ("enclosures", PyList []); ("chapters_url", PyNone)]
    with (record_draft a b c d e f g h (PyList (map PyStr [])) (PyList [])
                       (PyList []) PyNone).
  rewrite fold_enclosures, fold_persons_exact, fold_transcripts_exact.
  simpl app. fold (host_names item). fold (transcripts_of item).
  unfold first_locator.
  pose proof (first_transcript_entry (transcripts_of item)) as Hfirst.
  destruct (omap transcript_entry (transcripts_of item)) as [|entry entries].
  - rewrite Hfirst.
    by destruct (Etree.find_deep (NS_PODCAST ++ "chapters") item).
  - destruct Hfirst as (url & t & -> & -> & _).
    by destruct (Etree.find_deep (NS_PODCAST ++ "chapters") item).
Qed.

End RecordLists.

(** X1.  The hosts of a record are the stripped texts of the
    [podcast:person] elements whose role is host and whose text is not
    empty, in document order; a person with another role, or without a
    role, is left out. *)
Theorem record_hosts (show : string) (item : Etree.Element) :
  Dict.get "hosts" (PodcastRSSParser._parse_episode show item)
  = Some (PyList (map PyStr (host_names item)))
  /\ forall name,
       In name (host_names item)
       <-> exists person text,
             In person
                (Etree.findall_deep (PodcastRSSParser.NS_PODCAST ++ "person")
                                    item)
             /\ Etree.get_default person "role" "" = "host"
             /\ Etree.text person = Some text /\ text <> ""
             /\ name = PyStr.strip text.
Proof.
  split; [by rewrite parse_episode_record|].
  intros name. unfold host_names. rewrite <- list_elem_of_In, list_elem_of_omap.
  split.
  - intros (person & Hin & Hname). exists person. unfold host_name in Hname.
    destruct (String.eqb_spec (Etree.get_default person "role" "") "host");
      [|done].
    destruct (Etree.text person) as [text|]; [|done].
    destruct (String.eqb_spec text ""); [done|].
    injection Hname as <-. exists text. by rewrite <- list_elem_of_In.
  - intros (person & text & Hin & Hrole & Htext & Hne & ->).
    exists person. rewrite list_elem_of_In. split; [done|].
    unfold host_name. rewrite Hrole, Htext. simpl.
    by destruct (String.eqb_spec text "").
Qed.

(** X2.  The transcripts of a record are those of the
    [podcast:transcript] elements that have a locator, with the type
    and the language defaulted; [transcript_url] is the locator of the
    first of them, and is [None] exactly when the list is empty. *)
Theorem record_transcripts (show : string) (item : Etree.Element) :
  let record := PodcastRSSParser._parse_episode show item in
  Dict.get "transcript_urls" record
  = Some (PyList (omap transcript_entry (transcripts_of item)))
  /\ Dict.get "transcript_url" record = Some (of_opt_str (first_locator item))
  /\ (Dict.get "transcript_url" record = Some PyNone
      <-> Dict.get "transcript_urls" record = Some (PyList []))
  /\ forall url, first_locator item = Some url ->
       exists t rest,
         Dict.get "transcript_urls" record
         = Some (PyList (PyDict (("url", PyStr url) :: t) :: rest)).
Proof.
  intros record. unfold record. rewrite parse_episode_record.
  split; [done|]. split; [done|].
  change (Dict.get "transcript_urls"
                   (record_of ?a ?b ?c ?d ?e ?f ?g ?h ?i ?j ?k ?l ?m))
    with (Some j).
  change (Dict.get "transcript_url"
                   (record_of ?a ?b ?c ?d ?e ?f ?g ?h ?i ?j ?k ?l ?m))
    with (Some m).
  unfold first_locator.
  pose proof (first_transcript_entry (transcripts_of item)) as Hfirst.
  destruct (omap transcript_entry (transcripts_of item)) as [|entry entries].
  - rewrite Hfirst. split; [done|]. by intros url.
  - destruct Hfirst as (url & t & -> & -> & Hurl). split.
    + split; by intros [=].
    + intros ? [= <-]. by eexists _, _.
Qed.

(** ** Looking an episode up *)

Section Lookup.

Import PodcastRSSParser.

Context (W : World) (feeds : list (string * string)).

(** [get_episode], from what [_get_feed] answers. *)
Lemma get_episode_unfold show number st :
  get_episode W feeds show number st
  = (Ok (match fst (_get_feed W feeds show st) with
         | Ok (Some root) =>
             episode_loop show number (Etree.xpath_all "item" root)
         | _ => None
         end),
     snd (_get_feed W feeds show st)).
Proof.
  unfold get_episode, bind.
  destruct (get_feed_returns W feeds show st) as (o & st' & ->).
  by destruct o.
Qed.

Lemma find_none_forallb {A} (P : A -> bool) l :
  List.find P l = None <-> forallb (fun x => negb (P x)) l = true.
Proof.
  induction l as [|x l IH]; simpl; [done|].
  destruct (P x); simpl; [|done]. split; intros; discriminate.
Qed.

(** A record found under a number carries it. *)
Lemma matching_record show number item :
  number <> "" -> matches_episode number item = true ->
  let record := _parse_episode show item in
  Dict.get "show_name" record = Some (PyStr show)
  /\ (Dict.get "id" record = Some (PyStr number)
      \/ Dict.get "episode_number" record = Some (PyStr number)).
Proof.
  intros Hne Hm record. unfold record. rewrite parse_episode_record.
  split; [done|]. unfold matches_episode in Hm.
  apply orb_prop in Hm as [Hm|Hm]; [left|right]; unfold text_is in Hm.
  - destruct (Etree.find "guid" item) as [e|]; [|done]. simpl get_text.
    destruct (Etree.text e) as [t|]; [|done].
    apply String.eqb_eq in Hm as ->. simpl. unfold py_or. simpl.
    by destruct (String.eqb_spec number "").
  - destruct (Etree.find_deep _ item) as [e|]; [|done]. simpl get_text.
    destruct (Etree.text e) as [t|]; [|done].
    by apply String.eqb_eq in Hm as ->.
Qed.

End Lookup.

(** X3.  When the feed of the show is at hand, [get_episode] answers
    [None] exactly when no entry has the number as its unique id or as
    its episode number. *)
Theorem get_episode_none_iff (W : World) (feeds : list (string * string))
        (show number : string) (st : state) (root : Etree.Element) :
  fst (PodcastRSSParser._get_feed W feeds show st) = Ok (Some root) ->
  fst (PodcastRSSParser.get_episode W feeds show number st) = Ok None
  <-> forallb (fun item => negb (matches_episode number item))
              (Etree.xpath_all "item" root) = true.
Proof.
  intros Hfeed. rewrite get_episode_unfold, Hfeed. simpl.
  rewrite episode_loop_find, <- find_none_forallb.
  destruct (List.find _ _); simpl; split; intros; congruence.
Qed.

Lemma get_episode_none_iff_witness :
  fst (PodcastRSSParser.get_episode sample_world sample_feeds "LUP" "g9" st0)
  = Ok None
  <-> forallb (fun item => negb (matches_episode "g9" item))
              (Etree.xpath_all "item" sample_root) = true.
Proof.
  apply (get_episode_none_iff sample_world sample_feeds "LUP" "g9" st0).
  reflexivity.
Defined.

(** X4.  The record [get_episode] returns for a number that is not
    empty belongs to the show asked for and carries the number, as its
    [id] or as its [episode_number]. *)
Theorem get_episode_carries_number (W : World)
        (feeds : list (string * string)) (show number : string) (st : state)
        (record : Dict.t) :
  number <> "" ->
  fst (PodcastRSSParser.get_episode W feeds show number st)
  = Ok (Some record) ->
  Dict.get "show_name" record = Some (PyStr show)
  /\ (Dict.get "id" record = Some (PyStr number)
      \/ Dict.get "episode_number" record = Some (PyStr number)).
Proof.
  intros Hne. rewrite get_episode_unfold. simpl.
  destruct (fst (PodcastRSSParser._get_feed W feeds show st)) as [[root|]|];
    [|done|done].
  rewrite episode_loop_find.
  destruct (List.find _ _) as [item|] eqn:Hfind; simpl; [|done].
  intros [= <-]. apply find_some in Hfind as [_ Hm].
  by apply matching_record.
Qed.

Lemma get_episode_carries_number_witness :
  Dict.get "show_name" (PodcastRSSParser._parse_episode "LUP" item_texas)
  = Some (PyStr "LUP")
  /\ (Dict.get "id" (PodcastRSSParser._parse_episode "LUP" item_texas)
      = Some (PyStr "42")
      \/ Dict.get "episode_number"
                  (PodcastRSSParser._parse_episode "LUP" item_texas)
         = Some (PyStr "42")).
Proof.
  apply (get_episode_carries_number sample_world sample_feeds "LUP" "42" st0).
  - discriminate.
  - vm_compute. reflexivity.
Defined.

(** ** A show that is not configured *)

(** X5.  For a name that is not among the configured shows no file is
    read, nothing is downloaded or parsed, and the cache is left as it
    is: [_get_feed], [get_episode] and [get_transcript] answer [None]
    and leave the state as it is, and every search scoped to the name
    finds nothing; all it logs is what normalising its two bounds
    logs, layouts tried and warnings, and so nothing without a
    bound. *)
Theorem unknown_show_is_not_fetched (lz : Strptime.local_zone) (W : World)
        (feeds : list (string * string)) (show number : string)
        (since_date before_date : option string)
        (hosts : option (list string)) (text_search : option string)
        (st : state) :
  Etree.assoc show feeds = None ->
  PodcastRSSParser._get_feed W feeds show st = (Ok None, st)
  /\ PodcastRSSParser.get_episode W feeds show number st = (Ok None, st)
  /\ PodcastRSSParser.get_transcript W feeds show number st = (Ok None, st)
  /\ (show <> "" ->
      PodcastRSSParser.search_episodes lz W feeds (Some show) since_date
                                       before_date hosts text_search st
      = (Ok [],
         State (_cached_feeds st)
               (log st ++ bound_log lz since_date
                ++ bound_log lz before_date))
      /\ Forall (fun ev =>
                   is_attempt ev = true \/ exists line, ev = EvPrint line)
                (bound_log lz since_date ++ bound_log lz before_date)
      /\ PodcastRSSParser.search_episodes lz W feeds (Some show) None None
                                          hosts text_search st
         = (Ok [], st)).
Proof.
  intros Hshow.
  assert (forall st,
            PodcastRSSParser._get_feed W feeds show st = (Ok None, st))
    as Hfeed.
  { intros st1. unfold PodcastRSSParser._get_feed. by rewrite Hshow. }
  assert (PodcastRSSParser.get_episode W feeds show number st = (Ok None, st))
    as Hep.
  { unfold PodcastRSSParser.get_episode, bind. by rewrite Hfeed. }
  split; [done|]. split; [done|]. split.
  { unfold PodcastRSSParser.get_transcript, bind. by rewrite Hep. }
  intros Hne.
  assert (forall since before,
            PodcastRSSParser.search_episodes lz W feeds (Some show) since
                                             before hosts text_search st
            = (Ok [],
               State (_cached_feeds st)
                     (log st ++ bound_log lz since ++ bound_log lz before)))
    as Hsearch.
  { intros since before. unfold PodcastRSSParser.search_episodes, bound_log.
    assert (truthy (of_opt_str (Some show)) = true) as Ht
      by (simpl; by destruct show).
    cbn [existsb]. rewrite Ht. cbn [orb negb].
    change (default "" (Some show)) with show.
    unfold bind at 1.
    assert (forall date st1,
              (if truthy (of_opt_str date)
               then logging (PodcastRSSParser._parse_date
                               lz (default "" date))
               else ret None) st1
              = (Ok (bound_of lz date),
                 State (_cached_feeds st1)
                       (log st1
                        ++ (if truthy (of_opt_str date)
                            then fst (PodcastRSSParser._parse_date
                                        lz (default "" date))
                            else [])))) as Hbound.
    { intros date st1. unfold bound_of. destruct (truthy (of_opt_str date)).
      - destruct (parse_date_returns lz (default "" date))
          as (evs & o & Heq & _).
        unfold logging. by rewrite Heq.
      - unfold ret. rewrite app_nil_r. by destruct st1. }
    rewrite Hbound. unfold bind at 1. rewrite Hbound.
    cbn [PodcastRSSParser.shows_loop]. unfold bind at 1. rewrite Hfeed.
    unfold ret. cbn [_cached_feeds log]. by rewrite <- app_assoc. }
  split; [apply Hsearch|]. split.
  - apply Forall_app. unfold bound_log.
    split; (destruct (truthy _); [apply parse_date_events|constructor]).
  - rewrite Hsearch. unfold bound_log. simpl. rewrite app_nil_r.
    by destruct st.
Qed.

Lemma unknown_show_is_not_fetched_witness :
  PodcastRSSParser._get_feed sample_world sample_feeds "Coder Radio" st0
  = (Ok None, st0)
  /\ PodcastRSSParser.get_episode sample_world sample_feeds "Coder Radio" "1"
                                  st0
     = (Ok None, st0)
  /\ PodcastRSSParser.get_transcript sample_world sample_feeds "Coder Radio"
                                     "1" st0
     = (Ok None, st0)
  /\ ("Coder Radio" <> "" ->
      PodcastRSSParser.search_episodes lz_utc sample_world sample_feeds
                                       (Some "Coder Radio")
                                       (Some "2025-10-01") (Some "someday")
                                       None (Some "texas") st0
      = (Ok [],
         State (_cached_feeds st0)
               (log st0 ++ bound_log lz_utc (Some "2025-10-01")
                ++ bound_log lz_utc (Some "someday")))
      /\ Forall (fun ev =>
                   is_attempt ev = true \/ exists line, ev = EvPrint line)
                (bound_log lz_utc (Some "2025-10-01")
                 ++ bound_log lz_utc (Some "someday"))
      /\ PodcastRSSParser.search_episodes lz_utc sample_world sample_feeds
                                          (Some "Coder Radio") None None None
                                          (Some "texas") st0
         = (Ok [], st0)).
Proof.
  apply (unknown_show_is_not_fetched lz_utc sample_world sample_feeds
           "Coder Radio" "1" (Some "2025-10-01") (Some "someday") None
           (Some "texas") st0).
  reflexivity.
Defined.

(** ** Transcripts *)

Section Transcripts.

Import PodcastRSSParser.

Context (W : World) (feeds : list (string * string)).

Lemma get_episode_returns show number st :
  get_episode W feeds show number st
  = (Ok (match fst (get_episode W feeds show number st) with
         | Ok o => o
         | Raise _ => None
         end),
     snd (get_episode W feeds show number st)).
Proof. by rewrite get_episode_unfold. Qed.

Lemma record_transcript_url show item :
  Dict.get_or_none "transcript_url" (_parse_episode show item)
  = of_opt_str (first_locator item).
Proof. by rewrite parse_episode_record. Qed.

Lemma first_locator_not_empty item url :
  first_locator item = Some url -> url <> "".
Proof.
  unfold first_locator.
  pose proof (first_transcript_entry (transcripts_of item)) as Hfirst.
  destruct (omap transcript_entry (transcripts_of item)).
  - by rewrite Hfirst.
  - destruct Hfirst as (url' & t & _ & -> & Hne). by intros [= <-].
Qed.

End Transcripts.

(** X6.  Without an episode, or for an episode whose entry names no
    transcript, [get_transcript] answers [None] and downloads nothing:
    it leaves the state as the lookup of the episode left it. *)
Theorem get_transcript_without_locator (W : World)
        (feeds : list (string * string)) (show number : string) (st : state) :
  let found := PodcastRSSParser.get_episode W feeds show number st in
  fst found = Ok None
  \/ (exists item,
        fst found = Ok (Some (PodcastRSSParser._parse_episode show item))
        /\ first_locator item = None) ->
  PodcastRSSParser.get_transcript W feeds show number st
  = (Ok None, snd found).
Proof.
  intros found H. unfold found in *.
  unfold PodcastRSSParser.get_transcript, bind.
  rewrite get_episode_returns.
  destruct H as [->|(item & -> & Hnone)]; [done|].
  rewrite record_transcript_url, Hnone.
  by rewrite parse_episode_record.
Qed.

Lemma get_transcript_without_locator_witness :
  PodcastRSSParser.get_transcript sample_world sample_feeds "LUP" "g9" st0
  = (Ok None,
     snd (PodcastRSSParser.get_episode sample_world sample_feeds "LUP" "g9"
                                       st0)).
Proof.
  apply (get_transcript_without_locator sample_world sample_feeds "LUP" "g9"
                                        st0).
  left. reflexivity.
Defined.

(** X7.  For an episode whose entry names transcripts, [get_transcript]
    downloads the first locator, once: it answers the text received, or
    prints the failure and answers [None]; it never raises, and it
    leaves the cache of feeds as the lookup left it. *)
Theorem get_transcript_downloads_first (W : World)
        (feeds : list (string * string)) (show number : string) (st : state)
        (item : Etree.Element) (url : string) :
  let found := PodcastRSSParser.get_episode W feeds show number st in
  fst found = Ok (Some (PodcastRSSParser._parse_episode show item)) ->
  first_locator item = Some url ->
  PodcastRSSParser.get_transcript W feeds show number st
  = match requests_get W (length (log (snd found))) url with
    | Ok text =>
        (Ok (Some text),
         State (_cached_feeds (snd found)) (log (snd found) ++ [EvGet url]))
    | Raise e =>
        (Ok None,
         State (_cached_feeds (snd found))
               (log (snd found)
                ++ [EvGet url;
                    EvPrint ("Error fetching transcript: " ++ message e)]))
    end.
Proof.
  intros found Hfound Hurl. unfold found in *.
  unfold PodcastRSSParser.get_transcript, bind at 1.
  rewrite get_episode_returns, Hfound.
  rewrite record_transcript_url, Hurl. simpl of_opt_str.
  pose proof (first_locator_not_empty _ _ Hurl) as Hne.
  replace (truthy (PyDict (PodcastRSSParser._parse_episode show item)))
    with true by by rewrite parse_episode_record.
  simpl. destruct (String.eqb_spec url ""); [done|]. simpl.
  unfold try_except, bind, PodcastRSSParser.http_get, ret, logging, print, emit.
  simpl.
  destruct (requests_get W _ url); simpl; [done|].
  by rewrite <- app_assoc.
Qed.

Lemma get_transcript_downloads_first_witness :
  PodcastRSSParser.get_transcript sample_world sample_feeds "LUP" "g1" st0
  = (Ok None,
     State (_cached_feeds
              (snd (PodcastRSSParser.get_episode sample_world sample_feeds
                                                 "LUP" "g1" st0)))
           (log (snd (PodcastRSSParser.get_episode sample_world sample_feeds
                                                   "LUP" "g1" st0))
            ++ [EvGet "http://t/1.vtt";
                EvPrint "Error fetching transcript: connection refused"])).
Proof.
  apply (get_transcript_downloads_first sample_world sample_feeds "LUP" "g1"
                                        st0 item_texas "http://t/1.vtt");
    reflexivity.
Defined.

(** ** The tools *)

Section ToolResults.

Context (W : World).

Lemma get_transcript_returns feeds show number st :
  exists o,
    fst (PodcastRSSParser.get_transcript W feeds show number st) = Ok o.
Proof.
  unfold PodcastRSSParser.get_transcript, bind.
  rewrite get_episode_returns.
  destruct (fst (PodcastRSSParser.get_episode W feeds show number st))
    as [[ep|]|]; [|by eexists..].
  destruct (negb (truthy (PyDict ep))); [by eexists|].
  destruct (negb (truthy _)); [by eexists|].
  unfold try_except.
  destruct (Dict.get_or_none "transcript_url" ep); simpl;
    try by eexists.
  unfold bind, PodcastRSSParser.http_get. 
  destruct (requests_get W _ _); simpl; by eexists.
Qed.

End ToolResults.

(** X8.  The tool [get_episode], of either server, returns the record
    the parser finds, as it is, and the message that the episode was
    not found otherwise; it never raises, and never reports a failure
    to retrieve. *)
Theorem tool_get_episode (W : World) (show number : string) (st : state) :
  let found := PodcastRSSParser.get_episode W Server.FEEDS show number st in
  let answer :=
    match fst found with
    | Ok (Some record) => PyDict record
    | _ => episode_not_found show number
    end in
  Server.get_episode W show number st = (Ok answer, snd found)
  /\ JupiterServer.get_episode W show number st = (Ok answer, snd found).
Proof.
  intros found answer. subst answer found.
  unfold Server.get_episode, JupiterServer.get_episode, try_except, bind.
  unfold JupiterServer.JB_FEEDS.
  rewrite get_episode_unfold. simpl.
  destruct (fst (PodcastRSSParser._get_feed W Server.FEEDS show st))
    as [[root|]|]; [|by split..].
  rewrite episode_loop_find.
  destruct (List.find _ _) as [item|]; simpl; [|by split].
  by rewrite parse_episode_record.
Qed.

(** X9.  The tool [get_transcript], of either server, returns the text
    the parser downloads when it is not empty; an empty text is
    reported like a missing transcript.  It never raises, and never
    reports a failure to retrieve. *)
Theorem tool_get_transcript (W : World) (show number : string) (st : state) :
  let got := PodcastRSSParser.get_transcript W Server.FEEDS show number st in
  let answer :=
    match fst got with
    | Ok (Some text) =>
        if String.eqb text "" then transcript_not_available show number
        else PyDict [("transcript", PyStr text)]
    | _ => transcript_not_available show number
    end in
  Server.get_transcript W show number st = (Ok answer, snd got)
  /\ JupiterServer.get_transcript W show number st = (Ok answer, snd got).
Proof.
  intros got answer. subst answer got.
  unfold Server.get_transcript, JupiterServer.get_transcript, try_except, bind.
  unfold JupiterServer.JB_FEEDS.
  destruct (get_transcript_returns W Server.FEEDS show number st) as [o Ho].
  destruct (PodcastRSSParser.get_transcript W Server.FEEDS show number st)
    as [r st']. simpl in Ho. subst r. simpl.
  destruct o as [text|]; [|by split]. simpl.
  by destruct (String.eqb text "").
Qed.

(** ** The pages of a search *)

Lemma chunks_take {A} (l : list A) (k : nat) : forall m,
  concat (map (fun i => take k (drop (i * k) l)) (seq 0 m)) = take (m * k) l.
Proof.
  induction m as [|m IH]; [done|].
  rewrite seq_S, map_app, concat_app, IH. simpl.
  rewrite app_nil_r, take_take_drop. f_equal. lia.
Qed.

Lemma page_window (results : list Dict.t) (page per_page : Z) :
  1 <= page -> 0 < per_page ->
  episodes_of (Server.paginate results page per_page)
  = map PyDict (take (Z.to_nat per_page)
                     (drop (Z.to_nat ((page - 1) * per_page)) results)).
Proof.
  intros Hpage Hper. rewrite paginate_unfold. unfold page_value. simpl.
  rewrite py_slice_nonneg by nia. rewrite index_slice_take_drop.
  do 3 f_equal; nia.
Qed.

(** X10.  With a positive page size every page reports the same
    number of pages, and the pages from 1 to that number hold, one
    after the other, every record of the search once and in order: no
    record is lost or repeated between two pages. *)
Theorem pages_cover_results (results : list Dict.t) (per_page : Z) :
  0 < per_page ->
  let total_pages := total_pages_of (Server.paginate results 1 per_page) in
  (forall page,
     total_pages_of (Server.paginate results page per_page) = total_pages)
  /\ concat (map (fun page =>
                    episodes_of (Server.paginate results page per_page))
                 (page_numbers total_pages))
     = map PyDict results.
Proof.
  intros Hper total_pages. split; [done|].
  assert (total_pages
          = (Z.of_nat (length results) + per_page - 1) / per_page) as ->.
  { subst total_pages. unfold Server.paginate, total_pages_of. simpl.
    by replace (0 <? per_page) with true by lia. }
  unfold page_numbers. rewrite map_map.
  rewrite (map_ext _ (fun i =>
                        map PyDict
                            (take (Z.to_nat per_page)
                                  (drop (i * Z.to_nat per_page) results)))).
  2: { intros i. rewrite page_window by lia. do 3 f_equal. nia. }
  rewrite <- (map_map (fun i => take (Z.to_nat per_page)
                                   (drop (i * Z.to_nat per_page) results))
                      (map PyDict)).
  rewrite <- concat_map, chunks_take. f_equal. apply take_ge.
  assert (0 <= (Z.of_nat (length results) + per_page - 1) / per_page
          /\ Z.of_nat (length results)
             <= (Z.of_nat (length results) + per_page - 1) / per_page
                * per_page) as [Hq Hn].
  { assert (0 <= Z.of_nat (length results)) as H0 by lia.
    revert H0. generalize (Z.of_nat (length results)). intros n H0.
    Z.to_euclidean_division_equations. nia. }
  rewrite <- Z2Nat.inj_mul by lia.
  apply Nat2Z.inj_le. by rewrite Z2Nat.id by (apply Z.mul_nonneg_nonneg; lia).
Qed.

Lemma pages_cover_results_witness :
  let total_pages := total_pages_of (Server.paginate twelve 1 5) in
  (forall page, total_pages_of (Server.paginate twelve page 5) = total_pages)
  /\ concat (map (fun page => episodes_of (Server.paginate twelve page 5))
                 (page_numbers total_pages))
     = map PyDict twelve.
Proof. apply (pages_cover_results twelve 5). lia. Defined.

(** ** What a search returns *)

Section Filters.

Import PodcastRSSParser.

Context (lz : Strptime.local_zone).

(** A record that is kept passes each of the four tests. *)
Lemma kept_filters since_dt before_dt hosts text_search episode_data :
  kept lz since_dt before_dt hosts text_search episode_data = true ->
  snd (date_skips lz since_dt Datetime.lt episode_data) = Ok false
  /\ snd (date_skips lz before_dt Datetime.gt episode_data) = Ok false
  /\ snd (hosts_skip hosts episode_data) = Ok false
  /\ snd (text_skips text_search episode_data) = Ok false.
Proof.
  unfold kept, skips. rewrite snd_out_bind.
  destruct (snd (date_skips lz since_dt Datetime.lt episode_data))
    as [[]|]; [done| |done].
  rewrite snd_out_bind.
  destruct (snd (date_skips lz before_dt Datetime.gt episode_data))
    as [[]|]; [done| |done].
  rewrite snd_out_bind.
  destruct (snd (hosts_skip hosts episode_data)) as [[]|]; [done| |done].
  by destruct (snd (text_skips text_search episode_data)) as [[]|].
Qed.

(** Every record of a search is the record of an entry of a scoped
    show, and is kept by the filters. *)
Lemma search_result_kept W feeds show_name since_date before_date hosts
      text_search st results st' episode_data :
  NoDup (get_shows feeds) ->
  search_episodes lz W feeds show_name since_date before_date hosts
                  text_search st = (Ok results, st') ->
  In episode_data results ->
  exists show root item,
    In show (scoped feeds show_name)
    /\ cached_feed feeds st' show = Some root
    /\ In item (Etree.xpath_all "item" root)
    /\ episode_data = _parse_episode show item
    /\ kept lz (bound_of lz since_date) (bound_of lz before_date) hosts
            text_search episode_data = true.
Proof.
  intros Hnd Hsearch Hin.
  rewrite (search_spec lz W feeds _ _ _ _ _ _ _ _
                       (scoped_NoDup feeds show_name Hnd) Hsearch) in Hin.
  apply in_concat in Hin as (l & Hl & Hin).
  apply in_map_iff in Hl as (show & <- & Hshow).
  exists show. unfold show_records in Hin.
  destruct (cached_feed feeds st' show) as [root|]; [|done].
  apply List.filter_In in Hin as [Hin Hkept].
  apply in_map_iff in Hin as (item & <- & Hitem).
  by exists root, item.
Qed.

(** The date of a record, when it has one. *)
Lemma record_date_aware episode_data dt :
  snd (_parse_date_of lz (Dict.get_or_none "published_date" episode_data))
  = Ok (Some dt) ->
  truthy (Dict.get_or_none "published_date" episode_data) = true
  /\ Datetime.tzinfo dt <> None.
Proof.
  destruct (Dict.get_or_none "published_date" episode_data) as [|n|s|l|d];
    simpl.
  - done.
  - by destruct (negb (n =? 0)).
  - destruct (parse_date_returns lz s) as (evs & o & Heq & Haware).
    rewrite Heq. simpl. intros [= ->]. split; [|by apply Haware].
    destruct (String.eqb_spec s ""); [|done]. subst s.
    by unfold _parse_date in Heq.
  - by destruct l.
  - by destruct d.
Qed.

End Filters.

Section Bounds.

Import PodcastRSSParser.

Context (lz : Strptime.local_zone).

(** A record that passes each of the four tests is kept. *)
Lemma filters_kept since_dt before_dt hosts text_search episode_data :
  snd (date_skips lz since_dt Datetime.lt episode_data) = Ok false ->
  snd (date_skips lz before_dt Datetime.gt episode_data) = Ok false ->
  snd (hosts_skip hosts episode_data) = Ok false ->
  snd (text_skips text_search episode_data) = Ok false ->
  kept lz since_dt before_dt hosts text_search episode_data = true.
Proof.
  intros H1 H2 H3 H4. unfold kept, skips.
  rewrite snd_out_bind, H1, snd_out_bind, H2, snd_out_bind, H3.
  by rewrite H4.
Qed.

(** The test of a bound on a record with a date: the comparison of the
    two values. *)
Lemma date_skips_compares bound beyond episode_data dt :
  snd (_parse_date_of lz (Dict.get_or_none "published_date" episode_data))
  = Ok (Some dt) ->
  snd (date_skips lz (Some bound) beyond episode_data) = beyond dt bound.
Proof.
  intros Hdate. destruct (record_date_aware lz _ _ Hdate) as [Htruthy _].
  unfold date_skips. by rewrite Htruthy, snd_out_bind, Hdate.
Qed.

(** Two values with a zone compare by their points in time. *)
Lemma lt_aware a b :
  Datetime.tzinfo a <> None -> Datetime.tzinfo b <> None ->
  Datetime.lt a b
  = Ok (Datetime.instant_us a <? Datetime.instant_us b).
Proof.
  intros Ha Hb. unfold Datetime.lt, Datetime.cmp.
  destruct (Datetime.tzinfo a); [|done].
  destruct (Datetime.tzinfo b); [|done]. simpl.
  unfold Z.ltb. by destruct (_ ?= _).
Qed.

Lemma gt_aware a b :
  Datetime.tzinfo a <> None -> Datetime.tzinfo b <> None ->
  Datetime.gt a b
  = Ok (Datetime.instant_us b <? Datetime.instant_us a).
Proof.
  intros Ha Hb. unfold Datetime.gt, Datetime.cmp.
  destruct (Datetime.tzinfo a); [|done].
  destruct (Datetime.tzinfo b); [|done]. simpl.
  unfold Z.ltb. rewrite (Z.compare_antisym (Datetime.instant_us a)).
  by destruct (_ ?= _).
Qed.

(** A record with a date passes the test of a bound exactly when it is
    not beyond it. *)
Lemma since_test date episode_data dt :
  snd (_parse_date_of lz (Dict.get_or_none "published_date" episode_data))
  = Ok (Some dt) ->
  snd (date_skips lz (bound_of lz date) Datetime.lt episode_data) = Ok false
  <-> forall bound, bound_of lz date = Some bound ->
        Datetime.instant_us bound <= Datetime.instant_us dt.
Proof.
  intros Hdate. destruct (record_date_aware lz _ _ Hdate) as [_ Haware].
  pose proof (bound_of_aware lz date) as Hb.
  destruct (bound_of lz date) as [bound|]; [|by split].
  rewrite (date_skips_compares _ _ _ _ Hdate).
  rewrite lt_aware by first [done | by apply Hb].
  split.
  - intros [= H] b [= <-]. lia.
  - intros H. f_equal. specialize (H bound eq_refl). lia.
Qed.

Lemma before_test date episode_data dt :
  snd (_parse_date_of lz (Dict.get_or_none "published_date" episode_data))
  = Ok (Some dt) ->
  snd (date_skips lz (bound_of lz date) Datetime.gt episode_data) = Ok false
  <-> forall bound, bound_of lz date = Some bound ->
        Datetime.instant_us dt <= Datetime.instant_us bound.
Proof.
  intros Hdate. destruct (record_date_aware lz _ _ Hdate) as [_ Haware].
  pose proof (bound_of_aware lz date) as Hb.
  destruct (bound_of lz date) as [bound|]; [|by split].
  rewrite (date_skips_compares _ _ _ _ Hdate).
  rewrite gt_aware by first [done | by apply Hb].
  split.
  - intros [= H] b [= <-]. lia.
  - intros H. f_equal. specialize (H bound eq_refl). lia.
Qed.

End Bounds.

(** X11.  A record a search returns, when its date can be read, is not
    earlier than the [since] bound and not later than the [before]
    bound, as points in time.  And the bounds are inclusive: the record
    of an entry of a show of the search whose date is not earlier than
    the one and not later than the other, and be it exactly at a
    bound, is returned when it passes the tests of the hosts and of
    the text. *)
Theorem search_results_within_bounds (lz : Strptime.local_zone) (W : World)
        (feeds : list (string * string))
        (show_name since_date before_date : option string)
        (hosts : option (list string)) (text_search : option string)
        (st st' : state) (results : list Dict.t) :
  NoDup (PodcastRSSParser.get_shows feeds) ->
  PodcastRSSParser.search_episodes lz W feeds show_name since_date before_date
                                   hosts text_search st = (Ok results, st') ->
  let date_of episode_data :=
    snd (PodcastRSSParser._parse_date_of
           lz (Dict.get_or_none "published_date" episode_data)) in
  let within dt :=
    (forall bound, bound_of lz since_date = Some bound ->
       Datetime.instant_us bound <= Datetime.instant_us dt)
    /\ (forall bound, bound_of lz before_date = Some bound ->
          Datetime.instant_us dt <= Datetime.instant_us bound) in
  (forall episode_data dt,
     In episode_data results -> date_of episode_data = Ok (Some dt) ->
     within dt)
  /\ (forall show root item dt,
        In show (scoped feeds show_name) ->
        cached_feed feeds st' show = Some root ->
        In item (Etree.xpath_all "item" root) ->
        let episode_data := PodcastRSSParser._parse_episode show item in
        date_of episode_data = Ok (Some dt) ->
        snd (PodcastRSSParser.hosts_skip hosts episode_data) = Ok false ->
        snd (PodcastRSSParser.text_skips text_search episode_data)
        = Ok false ->
        within dt ->
        In episode_data results).
Proof.
  intros Hnd Hsearch date_of within. split.
  - intros episode_data dt Hin Hdate.
    destruct (search_result_kept lz W feeds _ _ _ _ _ _ _ _ _ Hnd Hsearch Hin)
      as (show & root & item & _ & _ & _ & _ & Hkept).
    apply kept_filters in Hkept as (Hsince & Hbefore & _).
    split; [by apply (since_test lz since_date episode_data)
           |by apply (before_test lz before_date episode_data)].
  - intros show root item dt Hshow Hroot Hitem episode_data Hdate Hhosts
           Htext [Hsince Hbefore].
    rewrite (search_spec lz W feeds _ _ _ _ _ _ _ _
                         (scoped_NoDup feeds show_name Hnd) Hsearch).
    apply in_concat. eexists. split; [apply in_map, Hshow|].
    unfold show_records. rewrite Hroot. apply List.filter_In.
    split; [by apply in_map|].
    apply filters_kept; try done.
    + by apply (since_test lz since_date episode_data dt).
    + by apply (before_test lz before_date episode_data dt).
Qed.

Lemma search_results_within_bounds_witness :
  In (PodcastRSSParser._parse_episode "LUP" item_texas)
     (results_of at_texas_date).
Proof.
  destruct (search_results_within_bounds
              lz_utc sample_world sample_feeds None (Some texas_date)
              (Some texas_date) None None st0 (snd at_texas_date)
              (results_of at_texas_date)) as [_ Hreturned].
  - apply (bool_decide_unpack _). vm_compute. reflexivity.
  - vm_compute. reflexivity.
  - apply (Hreturned "LUP" sample_root item_texas
             (Datetime.mk 2025 10 5 19 25 37 0
                          (Some (-7 * 3600 * 1000000)))).
    + vm_compute. tauto.
    + vm_compute. reflexivity.
    + vm_compute. tauto.
    + vm_compute. reflexivity.
    + vm_compute. reflexivity.
    + vm_compute. reflexivity.
    + split; intros bound Hbound; vm_compute in Hbound;
        injection Hbound as <-; vm_compute; discriminate.
Defined.

Section HostsAndText.

Import PodcastRSSParser.

(** The test of the hosts, on a list of names. *)
Lemma any_host_names hosts names :
  any_host hosts (PyList (map PyStr names))
  = Ok (existsb (fun host =>
                   existsb (String.eqb (PyStr.lower host))
                           (map PyStr.lower names))
                hosts).
Proof.
  induction hosts as [|host hosts IH]; simpl; [done|].
  rewrite lower_all_strings. simpl.
  by destruct (existsb _ (map PyStr.lower names)).
Qed.

End HostsAndText.

(** X12.  With a list of hosts that is not empty, every record a search
    returns has a host whose name is, the case of letters apart, one of
    those asked for. *)
Theorem search_results_have_a_host (lz : Strptime.local_zone) (W : World)
        (feeds : list (string * string))
        (show_name since_date before_date : option string)
        (hosts : list string) (text_search : option string)
        (st st' : state) (results : list Dict.t) (episode_data : Dict.t) :
  NoDup (PodcastRSSParser.get_shows feeds) ->
  hosts <> [] ->
  PodcastRSSParser.search_episodes lz W feeds show_name since_date before_date
                                   (Some hosts) text_search st
  = (Ok results, st') ->
  In episode_data results ->
  exists show item host name,
    episode_data = PodcastRSSParser._parse_episode show item
    /\ In host hosts /\ In name (host_names item)
    /\ PyStr.lower host = PyStr.lower name.
Proof.
  intros Hnd Hne Hsearch Hin.
  destruct (search_result_kept lz W feeds _ _ _ _ _ _ _ _ _ Hnd Hsearch Hin)
    as (show & root & item & _ & _ & _ & -> & Hkept).
  apply kept_filters in Hkept as (_ & _ & Hhosts & _).
  exists show, item. unfold PodcastRSSParser.hosts_skip in Hhosts.
  replace (truthy (PodcastRSSParser.of_opt_list (Some hosts))) with true
    in Hhosts by by destruct hosts.
  rewrite parse_episode_record in Hhosts. simpl in Hhosts.
  unfold Dict.get_default in Hhosts. simpl in Hhosts.
  rewrite any_host_names in Hhosts. simpl in Hhosts.
  injection Hhosts as Hfound. apply negb_false_iff in Hfound.
  apply existsb_exists in Hfound as (host & Hhost & Hfound).
  apply existsb_exists in Hfound as (lowered & Hl & Heq).
  apply in_map_iff in Hl as (name & <- & Hname).
  apply String.eqb_eq in Heq. by exists host, name.
Qed.

Lemma search_results_have_a_host_witness :
  exists show item host name,
    PodcastRSSParser._parse_episode "LUP" item_texas
    = PodcastRSSParser._parse_episode show item
    /\ In host ["WES"] /\ In name (host_names item)
    /\ PyStr.lower host = PyStr.lower name.
Proof.
  apply (search_results_have_a_host lz_utc sample_world sample_feeds None
           None None ["WES"] None st0 (snd hosted_by_wes)
           (results_of hosted_by_wes)).
  - apply (bool_decide_unpack _). vm_compute. reflexivity.
  - discriminate.
  - vm_compute. reflexivity.
  - vm_compute. tauto.
Defined.

(** X13.  With a text that is not empty, every record a search returns
    has a title and a description that are strings, and the text
    occurs in one of them, the case of letters apart. *)
Theorem search_results_contain_text (lz : Strptime.local_zone) (W : World)
        (feeds : list (string * string))
        (show_name since_date before_date : option string)
        (hosts : option (list string)) (text_search : string)
        (st st' : state) (results : list Dict.t) (episode_data : Dict.t) :
  NoDup (PodcastRSSParser.get_shows feeds) ->
  text_search <> "" ->
  PodcastRSSParser.search_episodes lz W feeds show_name since_date before_date
                                   hosts (Some text_search) st
  = (Ok results, st') ->
  In episode_data results ->
  exists title description,
    Dict.get "title" episode_data = Some (PyStr title)
    /\ Dict.get "description" episode_data = Some (PyStr description)
    /\ occurs_ignoring_case text_search title
       || occurs_ignoring_case text_search description = true.
Proof.
  intros Hnd Hne Hsearch Hin.
  destruct (search_result_kept lz W feeds _ _ _ _ _ _ _ _ _ Hnd Hsearch Hin)
    as (show & root & item & _ & _ & _ & -> & Hkept).
  apply kept_filters in Hkept as (_ & _ & _ & Htext).
  unfold PodcastRSSParser.text_skips in Htext.
  replace (truthy (of_opt_str (Some text_search))) with true in Htext
    by (simpl; by destruct (String.eqb_spec text_search "")).
  rewrite parse_episode_record in *. unfold Dict.get_default in Htext.
  simpl in Htext.
  destruct (PodcastRSSParser.get_text (Etree.find "title" item))
    as [|?|title|?|?]; try done.
  simpl in Htext.
  destruct (PodcastRSSParser.get_cdata_content (Etree.find "description" item))
    as [|?|description|?|?]; try done.
  simpl in Htext. injection Htext as Htext.
  exists title, description. split; [done|]. split; [done|].
  unfold occurs_ignoring_case.
  destruct (PyStr.contains _ (PyStr.lower title)); [done|].
  by destruct (PyStr.contains _ (PyStr.lower description)).
Qed.

Lemma search_results_contain_text_witness :
  exists title description,
    Dict.get "title" (PodcastRSSParser._parse_episode "LUP" item_texas)
    = Some (PyStr title)
    /\ Dict.get "description"
                (PodcastRSSParser._parse_episode "LUP" item_texas)
       = Some (PyStr description)
    /\ occurs_ignoring_case "TEXAS" title
       || occurs_ignoring_case "TEXAS" description = true.
Proof.
  apply (search_results_contain_text lz_utc sample_world sample_feeds None
           None None None "TEXAS" st0 (snd about_texas)
           (results_of about_texas)).
  - apply (bool_decide_unpack _). vm_compute. reflexivity.
  - discriminate.
  - vm_compute. reflexivity.
  - vm_compute. tauto.
Defined.

(** X14.  A [since] or [before] date that [_parse_date] cannot read
    filters nothing: the search returns what it returns without that
    bound, and reports no error. *)
Theorem unreadable_bound_is_ignored (lz : Strptime.local_zone) (W : World)
        (feeds : list (string * string))
        (show_name since_date before_date : option string)
        (hosts : option (list string)) (text_search : option string)
        (st st' : state) (results : list Dict.t) :
  NoDup (PodcastRSSParser.get_shows feeds) ->
  PodcastRSSParser.search_episodes lz W feeds show_name since_date before_date
                                   hosts text_search st
  = (Ok results, st') ->
  let records since_dt before_dt :=
    concat (map (show_records lz feeds st' since_dt before_dt hosts
                              text_search)
                (scoped feeds show_name)) in
  (forall date, since_date = Some date ->
     snd (PodcastRSSParser._parse_date lz date) = Ok None ->
     results = records None (bound_of lz before_date))
  /\ (forall date, before_date = Some date ->
        snd (PodcastRSSParser._parse_date lz date) = Ok None ->
        results = records (bound_of lz since_date) None).
Proof.
  intros Hnd Hsearch records. unfold records.
  rewrite (search_spec lz W feeds _ _ _ _ _ _ _ _
                       (scoped_NoDup feeds show_name Hnd) Hsearch).
  assert (forall date, snd (PodcastRSSParser._parse_date lz date) = Ok None ->
                       bound_of lz (Some date) = None) as Hbound.
  { intros date Hnone. unfold bound_of. simpl. rewrite Hnone.
    by destruct (negb _). }
  split; intros date -> Hnone; by rewrite (Hbound date Hnone).
Qed.

Lemma unreadable_bound_is_ignored_witness :
  (forall date, Some "someday" = Some date ->
     snd (PodcastRSSParser._parse_date lz_utc date) = Ok None ->
     results_of since_someday
     = concat (map (show_records lz_utc sample_feeds (snd since_someday)
                                 None (bound_of lz_utc None) None None)
                   (scoped sample_feeds None)))
  /\ (forall date, @None string = Some date ->
        snd (PodcastRSSParser._parse_date lz_utc date) = Ok None ->
        results_of since_someday
        = concat (map (show_records lz_utc sample_feeds (snd since_someday)
                                    (bound_of lz_utc (Some "someday")) None
                                    None None)
                      (scoped sample_feeds None))).
Proof.
  apply (unreadable_bound_is_ignored lz_utc sample_world sample_feeds None
           (Some "someday") None None None st0 (snd since_someday)
           (results_of since_someday)).
  - apply (bool_decide_unpack _). vm_compute. reflexivity.
  - vm_compute. reflexivity.
Defined.

(** The search since a day that is no date returns both entries of the
    sample feed. *)
Lemma since_someday_returns_all :
  snd (PodcastRSSParser._parse_date lz_utc "someday") = Ok None
  /\ fst since_someday
     = Ok [PodcastRSSParser._parse_episode "LUP" item_texas;
           PodcastRSSParser._parse_episode "LUP" item_undated].
Proof. split; vm_compute; reflexivity. Qed.

(** ** Fetching a feed *)

(** X15.  [_get_feed] touches no locator but the one configured for
    the show: a [file://] locator is read from the file system, at the
    path after the prefix, and never downloaded; any other locator is
    downloaded and never opened as a file. *)
Theorem feed_is_read_where_configured (W : World)
        (feeds : list (string * string)) (show url : string) (st : state) :
  Etree.assoc show feeds = Some url ->
  exists evs,
    log (snd (PodcastRSSParser._get_feed W feeds show st))
    = (log st ++ evs)%list
    /\ (forall path, In (EvOpen path) evs ->
          PyStr.startswith url "file://" = true
          /\ path = PyStr.drop_prefix 7 url)
    /\ (forall u, In (EvGet u) evs ->
          PyStr.startswith url "file://" = false /\ u = url).
Proof.
  intros Hurl.
  destruct (_cached_feeds st !! show) as [root|] eqn:Hcache.
  { exists []. unfold PodcastRSSParser._get_feed. rewrite Hurl, Hcache.
    simpl. rewrite app_nil_r. by split; [|split; intros ? []]. }
  rewrite (get_feed_miss W feeds show url st Hurl Hcache). cbv zeta.
  unfold fetch_event.
  destruct (PyStr.startswith url "file://") eqn:Hfile.
  - destruct (open_read W _ _) as [c|e];
      [destruct (fromstring W c) as [root|e]|]; simpl;
      eexists; (split; [reflexivity|]); split; intros x Hx; simpl in Hx;
      intuition congruence.
  - destruct (requests_get W _ _) as [c|e];
      [destruct (fromstring W c) as [root|e]|]; simpl;
      eexists; (split; [reflexivity|]); split; intros x Hx; simpl in Hx;
      intuition congruence.
Qed.

Lemma feed_is_read_where_configured_witness :
  exists evs,
    log (snd (PodcastRSSParser._get_feed sample_world sample_feeds "LUP"
                                         st0))
    = (log st0 ++ evs)%list
    /\ (forall path, In (EvOpen path) evs ->
          PyStr.startswith "file://tests/sample_rss.xml" "file://" = true
          /\ path = PyStr.drop_prefix 7 "file://tests/sample_rss.xml")
    /\ (forall u, In (EvGet u) evs ->
          PyStr.startswith "file://tests/sample_rss.xml" "file://" = false
          /\ u = "file://tests/sample_rss.xml").
Proof.
  apply (feed_is_read_where_configured sample_world sample_feeds "LUP"
           "file://tests/sample_rss.xml" st0).
  reflexivity.
Defined.

(** ** More on the date normaliser *)

Lemma parse_date_written_witness :
  snd (PodcastRSSParser._parse_date
         lz_pacific (written sample_stamp "%a, %d %b %Y %H:%M:%S %z"))
  = Ok (Some (encoded sample_stamp "%a, %d %b %Y %H:%M:%S %z")).
Proof.
  apply (parse_date_written lz_pacific sample_stamp
                            "%a, %d %b %Y %H:%M:%S %z").
  - unfold well_formed, sample_stamp. simpl.
    repeat split; first [lia | by vm_compute].
  - simpl. tauto.
  - discriminate.
Defined.

(** A string whose offset has its colon already is left as it is. *)
Lemma preprocessed_written_colon t fmt :
  well_formed t ->
  In fmt PodcastRSSParser.formats -> fmt <> NAMED_ZONE_LAYOUT ->
  preprocessed (written_colon t fmt) = written_colon t fmt.
Proof.
  open_stamp t. destruct west.
  all: intros Hin Hfmt; unfold PodcastRSSParser.formats in Hin;
    repeat (destruct Hin as [<-|Hin]; [try (by destruct Hfmt)|]);
    try (by destruct Hin).
  all: preprocess.
Qed.

Lemma written_colon_nonempty t fmt :
  well_formed t ->
  In fmt PodcastRSSParser.formats -> fmt <> NAMED_ZONE_LAYOUT ->
  String.eqb (written_colon t fmt) "" = false.
Proof.
  open_stamp t. intros Hin Hfmt. unfold PodcastRSSParser.formats in Hin.
  repeat (destruct Hin as [<-|Hin]; [try (by destruct Hfmt)|]);
    try (by destruct Hin); spell; letters; reflexivity.
Qed.

(** X17.  An offset written with a colon, as in [-07:00], is read like
    the same offset without it: in each of the nine layouts the string
    is normalised to the value it stands for. *)
Theorem parse_date_written_colon (lz : Strptime.local_zone) (t : stamp)
        (fmt : string) :
  well_formed t ->
  In fmt PodcastRSSParser.formats -> fmt <> NAMED_ZONE_LAYOUT ->
  snd (PodcastRSSParser._parse_date lz (written_colon t fmt))
  = Ok (Some (encoded t fmt))
  /\ snd (PodcastRSSParser._parse_date lz (written_colon t fmt))
     = snd (PodcastRSSParser._parse_date lz (written t fmt)).
Proof.
  intros Ht Hin Hfmt.
  assert (snd (PodcastRSSParser._parse_date lz (written_colon t fmt))
          = Ok (Some (encoded t fmt))) as Hcolon.
  { destruct (winner_parses lz t fmt Ht Hin Hfmt)
      as (pre & w & post & dt & Hformats & Hpre & Hok & Hdt).
    rewrite <- (preprocessed_written_colon t fmt Ht Hin Hfmt) in Hpre, Hok.
    rewrite (parse_date_first_layout_wins lz _ pre w post dt
               (written_colon_nonempty t fmt Ht Hin Hfmt) Hformats Hpre Hok).
    simpl. by rewrite Hdt. }
  split; [done|].
  destruct (winner_parses lz t fmt Ht Hin Hfmt)
    as (pre & w & post & dt & Hformats & Hpre & Hok & Hdt).
  rewrite <- (preprocessed_written t fmt Ht Hin Hfmt) in Hpre, Hok.
  rewrite Hcolon.
  rewrite (parse_date_first_layout_wins lz _ pre w post dt
             (written_nonempty t fmt Ht Hin Hfmt) Hformats Hpre Hok).
  simpl. by rewrite Hdt.
Qed.

Lemma parse_date_written_colon_witness :
  snd (PodcastRSSParser._parse_date lz_utc "2025-10-05T19:25:37-07:00")
  = Ok (Some (encoded sample_stamp "%Y-%m-%dT%H:%M:%S%z"))
  /\ snd (PodcastRSSParser._parse_date lz_utc "2025-10-05T19:25:37-07:00")
     = snd (PodcastRSSParser._parse_date lz_utc "2025-10-05T19:25:37-0700").
Proof.
  apply (parse_date_written_colon lz_utc sample_stamp "%Y-%m-%dT%H:%M:%S%z").
  - unfold well_formed, sample_stamp. simpl.
    repeat split; first [lia | by vm_compute].
  - simpl. tauto.
  - discriminate.
Defined.

(** X18.  On a string that is not empty [_parse_date] tries the
    layouts in their order on the string stripped and with its offset
    rewritten, and stops at the first that accepts it: the layouts
    before it have rejected the string, no later one is tried, nothing
    is printed, and the value is the one of that layout, with UTC when
    it has no zone.  When every layout rejects the string, all have
    been tried, and the last resort decides; the warning is printed,
    once and last, exactly when it finds nothing.  A value returned
    always carries a time zone. *)
Theorem parse_date_outcome (lz : Strptime.local_zone) (s : string) :
  String.eqb s "" = false ->
  let text := preprocessed s in
  ((exists pre fmt post dt,
       PodcastRSSParser.formats = (pre ++ fmt :: post)%list
       /\ Forall (fails_on lz text) pre
       /\ Strptime.strptime lz text fmt = Ok dt
       /\ PodcastRSSParser._parse_date lz s
          = (map (EvStrptime text) (pre ++ [fmt])%list,
             Ok (Some (with_utc dt))))
   \/ (Forall (fails_on lz text) PodcastRSSParser.formats
       /\ exists o,
            PodcastRSSParser.extract_date_part text = ([], Ok o)
            /\ PodcastRSSParser._parse_date lz s
               = ((map (EvStrptime text) PodcastRSSParser.formats
                   ++ match o with
                      | Some _ => []
                      | None =>
                          [EvPrint ("Warning: Could not parse date: "
                                    ++ text)]
                      end)%list,
                  Ok (with_utc <$> o))))
  /\ forall dt,
       snd (PodcastRSSParser._parse_date lz s) = Ok (Some dt) ->
       Datetime.tzinfo dt <> None.
Proof.
  intros Hne text. split.
  - destruct (first_layout_that_parses lz text PodcastRSSParser.formats)
      as [(pre & fmt & post & dt & Hfmts & Hpre & Hok)|Hall].
    + left. exists pre, fmt, post, dt. repeat (split; [done|]).
      by apply (parse_date_first_layout_wins lz s pre fmt post dt).
    + right. split; [done|].
      destruct (extract_date_part_log text) as [o Hlast]. exists o.
      split; [done|]. by apply parse_date_all_fail.
  - intros dt Hdt.
    destruct (parse_date_returns lz s) as (evs & o & Heq & Haware).
    rewrite Heq in Hdt. injection Hdt as ->. by apply Haware.
Qed.

Lemma parse_date_outcome_witness :
  exists dt,
    Forall (fails_on lz_utc "2025-10-05") (take 7 PodcastRSSParser.formats)
    /\ Strptime.strptime lz_utc "2025-10-05" "%Y-%m-%d" = Ok dt
    /\ PodcastRSSParser._parse_date lz_utc "2025-10-05"
       = (map (EvStrptime "2025-10-05") (take 8 PodcastRSSParser.formats),
          Ok (Some (with_utc dt))).
Proof.
  destruct (parse_date_outcome lz_utc "2025-10-05" eq_refl)
    as [[(pre & fmt & post & dt & Hfmts & Hpre & Hok & Heq)|[Hall _]] _].
  - assert (pre = take 7 PodcastRSSParser.formats /\ fmt = "%Y-%m-%d")
      as [-> ->].
    { assert (fst (PodcastRSSParser._parse_date lz_utc "2025-10-05")
              = map (EvStrptime "2025-10-05")
                    (take 8 PodcastRSSParser.formats)) as Hlog
        by (vm_compute; reflexivity).
      rewrite Heq in Hlog. cbn [fst] in Hlog.
      apply (f_equal (map (fun ev => match ev with
                                     | EvStrptime _ f => f
                                     | _ => ""
                                     end))) in Hlog.
      rewrite !map_map, !map_id in Hlog.
      change (take 8 PodcastRSSParser.formats)
        with (take 7 PodcastRSSParser.formats ++ ["%Y-%m-%d"])%list in Hlog.
      by apply app_inj_tail in Hlog. }
    by exists dt.
  - exfalso. apply List.Forall_forall with (x := "%Y-%m-%d") in Hall.
    + destruct Hall as [msg Hmsg]. vm_compute in Hmsg. discriminate Hmsg.
    + vm_compute. tauto.
Defined.

Section Blanks.

(** [lstrip] drops the blanks a string starts with, and nothing after
    a character that is none. *)
Lemma lstrip_app_blanks l x :
  forallb PyStr.isspace l = true -> PyStr.lstrip (l ++ x) = PyStr.lstrip x.
Proof.
  induction l as [|c l IH]; simpl; [done|].
  intros [Hc Hl]%andb_prop. rewrite Hc. auto.
Qed.

Lemma lstrip_app x r :
  PyStr.lstrip x <> [] -> PyStr.lstrip (x ++ r) = (PyStr.lstrip x ++ r)%list.
Proof.
  induction x as [|c x IH]; simpl; [done|].
  destruct (PyStr.isspace c); [apply IH|done].
Qed.

Lemma lstrip_all_blanks x :
  PyStr.lstrip x = [] -> forallb PyStr.isspace x = true.
Proof.
  induction x as [|c x IH]; simpl; [done|].
  destruct (PyStr.isspace c); [apply IH|done].
Qed.

Lemma forallb_rev {A} (p : A -> bool) l :
  forallb p l = true -> forallb p (rev l) = true.
Proof.
  rewrite !forallb_forall. intros H x Hx. apply H. by apply in_rev.
Qed.

Lemma chars_app (a b : string) :
  PyStr.chars (a ++ b) = (PyStr.chars a ++ PyStr.chars b)%list.
Proof.
  unfold PyStr.chars. induction a as [|c a IH]; simpl; [done|].
  by rewrite IH.
Qed.

(** [strip] does not see the blanks around a string. *)
Lemma strip_blanks_around l s r :
  forallb PyStr.isspace (PyStr.chars l) = true ->
  forallb PyStr.isspace (PyStr.chars r) = true ->
  PyStr.strip (l ++ s ++ r) = PyStr.strip s.
Proof.
  intros Hl Hr. unfold PyStr.strip. f_equal.
  rewrite !chars_app.
  rewrite lstrip_app_blanks by done.
  destruct (PyStr.lstrip (PyStr.chars s)) as [|c x] eqn:Hs.
  - rewrite lstrip_app_blanks by by apply lstrip_all_blanks.
    by rewrite (lstrip_blank _ Hr).
  - rewrite lstrip_app by by rewrite Hs. rewrite Hs.
    rewrite rev_app_distr, lstrip_app_blanks by by apply forallb_rev.
    done.
Qed.

End Blanks.

(** X19.  Blanks before and after a date do not change how it is read:
    the layouts tried, what is printed and the value are those of the
    string without them. *)
Theorem parse_date_ignores_blanks (lz : Strptime.local_zone)
        (l s r : string) :
  forallb PyStr.isspace (PyStr.chars l) = true ->
  forallb PyStr.isspace (PyStr.chars r) = true ->
  String.eqb s "" = false ->
  PodcastRSSParser._parse_date lz (l ++ s ++ r)
  = PodcastRSSParser._parse_date lz s.
Proof.
  intros Hl Hr Hs. unfold PodcastRSSParser._parse_date.
  rewrite Hs, strip_blanks_around by done.
  replace (String.eqb (l ++ s ++ r) "") with false; [done|].
  destruct l; [|done]. by destruct s.
Qed.

Lemma parse_date_ignores_blanks_witness :
  PodcastRSSParser._parse_date lz_utc ("  " ++ "2025-10-05" ++ " ")
  = PodcastRSSParser._parse_date lz_utc "2025-10-05".
Proof.
  apply (parse_date_ignores_blanks lz_utc "  " "2025-10-05" " ");
    reflexivity.
Defined.

Section NamedZone.

Import PodcastRSSParser.

Context (lz : Strptime.local_zone).

(** When no layout accepts the string, the last resort decides. *)
Lemma parse_date_last_resort s dt :
  String.eqb s "" = false ->
  Forall (fails_on lz (preprocessed s)) formats ->
  extract_date_part (preprocessed s) = ([], Ok (Some dt)) ->
  _parse_date lz s
  = (map (EvStrptime (preprocessed s)) formats, Ok (Some (with_utc dt))).
Proof.
  intros Hne Hall Hlast. unfold _parse_date. rewrite Hne.
  fold (preprocessed s). rewrite (try_formats_all_fail _ _ _ Hall).
  unfold out_bind at 1. rewrite Hlast. simpl. by rewrite ?app_nil_r.
Qed.

(** The text of a date with a zone name: where it starts, and what the
    last resort finds in it. *)
Lemma zone_text_starts t l :
  well_formed t ->
  exists a rest,
    (written_chars false t (PyStr.chars "%a, %d %b %Y %H:%M:%S ") ++ l)%list
    = a :: rest
    /\ PyStr.isspace a = false.
Proof.
  open_stamp t. spell.
  destruct (weekday_letters w Hw) as (a & b & c & -> & (Ha & _) & _).
  cbn [app]. by eexists _, _.
Qed.

Lemma zone_text_date t l :
  well_formed t ->
  exists pre rest,
    (written_chars false t (PyStr.chars "%a, %d %b %Y %H:%M:%S ") ++ l)%list
    = (pre ++ two (st_day t) ++ " "%char
       :: PyStr.chars (nth (st_month t - 1) MONTHS "")
       ++ " "%char :: four (st_year t) ++ rest)%list
    /\ Forall (fun c => PyStr.isdecimal c = false) pre.
Proof.
  open_stamp t. spell.
  exists (PyStr.chars (nth w WEEKDAYS "") ++ [","; " "]%char)%list.
  eexists. split.
  - rewrite <- !app_assoc. cbn [app]. do 6 f_equal.
    rewrite <- !app_assoc. cbn [app]. reflexivity.
  - destruct (weekday_letters w Hw)
      as (a & b & c & -> & (_ & _ & Ha) & (_ & _ & Hb) & (_ & _ & Hc)).
    by repeat constructor.
Qed.

(** The normaliser leaves the string as it is. *)
Lemma preprocessed_written_zone t zone :
  well_formed t -> zone <> "" -> Forall plain_char (PyStr.chars zone) ->
  preprocessed (written_zone t zone) = written_zone t zone
  /\ String.eqb (written_zone t zone) "" = false.
Proof.
  intros Ht Hne Hz. unfold written_zone.
  destruct (PyStr.chars zone) as [|c cs] eqn:Hcs.
  { destruct zone; [done|discriminate Hcs]. }
  destruct (@exists_last _ (c :: cs)) as (l & x & Hl); [done|].
  rewrite Hl in *. apply Forall_app in Hz as [_ Hx].
  apply Forall_cons in Hx as [(Hx1 & _ & Hx3) _].
  rewrite app_assoc.
  destruct (zone_text_starts t l Ht) as (a & rest & -> & Ha).
  split; [by apply preprocessed_plain_ends|reflexivity].
Qed.

End NamedZone.

(** X20.  A date of RFC 2822 whose zone is given by a name, whatever
    the letters of the name.  A name that [strptime] knows (UTC, GMT,
    the names of the local zone of the process, the case of letters
    apart, and the letter Z) gives the day and the time of the string
    at UTC; any other name gives midnight UTC of the day.  The offset
    the name stands for has no part in the result. *)
Theorem parse_date_zone_name (lz : Strptime.local_zone) (t : stamp)
        (zone : string) :
  well_formed t -> zone <> "" -> Forall plain_char (PyStr.chars zone) ->
  snd (PodcastRSSParser._parse_date lz (written_zone t zone))
  = Ok (Some (encoded t (if zone_known lz zone
                         then "%a, %d %b %Y %H:%M:%S" else "%d %b %Y"))).
Proof.
  intros Ht Hne Hz.
  destruct (preprocessed_written_zone t zone Ht Hne Hz) as [Hpre Hnon].
  unfold written_zone in *.
  destruct (PyStr.chars zone) as [|c rest] eqn:Hcs.
  { destruct zone; [done|discriminate Hcs]. }
  apply Forall_cons in Hz as [Hc _].
  pose proof (strptime_offset_layout_on_name lz t c rest Ht Hc) as H1.
  pose proof (strptime_name_layout lz t zone c rest Ht Hcs Hc _ eq_refl)
    as H2.
  pose proof (later_layouts_on_name lz t c rest Ht Hc) as H3.
  destruct (zone_text_date t (c :: rest) Ht) as (pre & rest' & Htext & Hpre').
  set (text := PyStr.str _) in *.
  assert (zone = PyStr.str (c :: rest)) as Hzone
    by (rewrite <- Hcs; symmetry; apply string_of_list_ascii_of_string).
  unfold zone_known.
  destruct (String.eqb zone "Z") eqn:HZ.
  { apply String.eqb_eq in HZ. rewrite HZ in Hcs. injection Hcs as <- <-.
    rewrite (parse_date_first_layout_wins lz text [] _
               (skipn 1 PodcastRSSParser.formats) _ Hnon eq_refl
               (List.Forall_nil _)
               ltac:(rewrite Hpre; exact H1)).
    reflexivity. }
  assert (fails_on lz (preprocessed text) "%a, %d %b %Y %H:%M:%S %z") as Hf1.
  { rewrite Hpre. unfold fails_on. rewrite H1.
    destruct (Ascii.eqb_spec "Z" c) as [<-|]; [|by eexists].
    destruct rest; [|by eexists]. by rewrite Hzone in HZ. }
  cbn [orb]. destruct (existsb _ _).
  - rewrite (parse_date_first_layout_wins lz text
               ["%a, %d %b %Y %H:%M:%S %z"] _
               (skipn 2 PodcastRSSParser.formats) _ Hnon eq_refl
               ltac:(by constructor)
               ltac:(rewrite Hpre; exact H2)).
    reflexivity.
  - rewrite (parse_date_last_resort lz text
               (Datetime.mk (Z.of_nat (st_year t)) (Z.of_nat (st_month t))
                            (Z.of_nat (st_day t)) 0 0 0 0 None) Hnon).
    + reflexivity.
    + constructor; [done|]. rewrite Hpre. by constructor.
    + rewrite Hpre. unfold text. rewrite Htext.
      destruct Ht as (_ & Hy & Hm & Hd & _).
      by apply extract_date_part_found.
Qed.

Lemma parse_date_zone_name_witness :
  snd (PodcastRSSParser._parse_date lz_utc (written_zone sample_stamp "PDT"))
  = Ok (Some (encoded sample_stamp
                      (if zone_known lz_utc "PDT"
                       then "%a, %d %b %Y %H:%M:%S" else "%d %b %Y"))).
Proof.
  apply (parse_date_zone_name lz_utc sample_stamp "PDT").
  - unfold well_formed, sample_stamp. simpl.
    repeat split; first [lia | by vm_compute].
  - discriminate.
  - repeat constructor.
Defined.

(** ** The search tools *)

(** X21.  Without a text to look for, and with one of the other
    parameters given, the search tool of either server returns what
    the parser finds, and never an error value: the page of the
    results, or the list of the results. *)
Theorem tool_search_without_text (lz : Strptime.local_zone) (W : World)
        (show_name since_date before_date : option string)
        (hosts : option (list string)) (text_search : option string)
        (page per_page : Z) (st : state) :
  existsb truthy [of_opt_str show_name; of_opt_str since_date;
                  of_opt_str before_date; PodcastRSSParser.of_opt_list hosts] = true ->
  truthy (of_opt_str text_search) = false ->
  exists results st',
    PodcastRSSParser.search_episodes lz W Server.FEEDS show_name since_date
                                     before_date hosts text_search st
    = (Ok results, st')
    /\ Server.search_episodes lz W show_name since_date before_date hosts
                              text_search page per_page st
       = (Ok (Server.paginate results page per_page), st')
    /\ JupiterServer.search_episodes lz W show_name since_date before_date
                                     hosts text_search st
       = (Ok (PyList (map PyDict results)), st').
Proof.
  intros Hany Htext.
  destruct (search_returns_without_text lz W Server.FEEDS show_name
              since_date before_date hosts text_search st Hany Htext)
    as (results & st' & Hsearch).
  exists results, st'. split; [done|].
  unfold Server.search_episodes, JupiterServer.search_episodes,
    JupiterServer.JB_FEEDS, try_except, bind.
  by rewrite Hsearch.
Qed.

Lemma tool_search_without_text_witness :
  exists results st',
    PodcastRSSParser.search_episodes lz_utc sample_world Server.FEEDS
                                     (Some "Coder Radio") None None None None
                                     st0
    = (Ok results, st')
    /\ Server.search_episodes lz_utc sample_world (Some "Coder Radio") None
                              None None None 1 5 st0
       = (Ok (Server.paginate results 1 5), st')
    /\ JupiterServer.search_episodes lz_utc sample_world (Some "Coder Radio")
                                     None None None None st0
       = (Ok (PyList (map PyDict results)), st').
Proof.
  apply (tool_search_without_text lz_utc sample_world (Some "Coder Radio")
           None None None None 1 5 st0); reflexivity.
Defined.

(** ** A lookup and a search of the same show *)

Section LookupAndSearch.

Import PodcastRSSParser.

Context (lz : Strptime.local_zone) (W : World)
        (feeds : list (string * string)).

(** Without a filter every entry is kept, and nothing is printed. *)
Lemma items_loop_unfiltered show items : forall results st,
  items_loop lz None None None None show items results st
  = (Ok (results ++ map (_parse_episode show) items)%list, st).
Proof.
  induction items as [|item items IH]; intros results st; cbn [items_loop map].
  - unfold ret. by rewrite app_nil_r.
  - unfold bind at 1, logging at 1.
    change (skips lz None None None None (_parse_episode show item))
      with (@nil event, @Ok bool false).
    cbn [fst snd]. rewrite app_nil_r.
    replace (State (_cached_feeds st) (log st)) with st by by destruct st.
    rewrite IH. by rewrite <- app_assoc.
Qed.

(** A search of one show, with no other parameter: every entry of its
    feed. *)
Lemma search_one_show show st :
  show <> "" ->
  search_episodes lz W feeds (Some show) None None None None st
  = (Ok (match fst (_get_feed W feeds show st) with
         | Ok (Some root) =>
             map (_parse_episode show) (Etree.xpath_all "item" root)
         | _ => []
         end),
     snd (_get_feed W feeds show st)).
Proof.
  intros Hshow. unfold search_episodes.
  assert (truthy (of_opt_str (Some show)) = true) as Ht.
  { simpl. by destruct show. }
  cbn [existsb]. rewrite Ht. cbn [orb negb].
  change (default "" (Some show)) with show.
  change (truthy (of_opt_str None)) with false. cbv iota.
  unfold bind at 1, ret at 1. unfold bind at 1, ret at 1.
  cbn [shows_loop]. unfold bind at 1.
  destruct (get_feed_returns W feeds show st) as (o & st' & ->).
  destruct o as [root|]; cbn [fst snd].
  - unfold bind at 1. rewrite items_loop_unfiltered. reflexivity.
  - reflexivity.
Qed.

End LookupAndSearch.

(** X22.  An episode [get_episode] returns is one of the records that a
    search of its show, with no other parameter, returns from the same
    state; the two calls leave the same state. *)
Theorem get_episode_is_among_search_results (lz : Strptime.local_zone)
        (W : World) (feeds : list (string * string)) (show number : string)
        (st : state) (record : Dict.t) :
  show <> "" ->
  fst (PodcastRSSParser.get_episode W feeds show number st)
  = Ok (Some record) ->
  exists results,
    PodcastRSSParser.search_episodes lz W feeds (Some show) None None None
                                     None st
    = (Ok results, snd (PodcastRSSParser.get_episode W feeds show number st))
    /\ In record results.
Proof.
  intros Hshow Hfound. rewrite get_episode_unfold in Hfound |- *.
  rewrite search_one_show by done. cbn [fst snd] in *.
  destruct (fst (PodcastRSSParser._get_feed W feeds show st))
    as [[root|]|e]; try done.
  eexists. split; [reflexivity|].
  injection Hfound as Hloop. rewrite episode_loop_find in Hloop.
  destruct (List.find _ _) as [item|] eqn:Hfind; [|done].
  injection Hloop as <-. apply in_map. by apply find_some in Hfind as [? _].
Qed.

Lemma get_episode_is_among_search_results_witness :
  exists results,
    PodcastRSSParser.search_episodes lz_utc sample_world sample_feeds
                                     (Some "LUP") None None None None st0
    = (Ok results,
       snd (PodcastRSSParser.get_episode sample_world sample_feeds "LUP"
                                         "g1" st0))
    /\ In (PodcastRSSParser._parse_episode "LUP" item_texas) results.
Proof.
  apply (get_episode_is_among_search_results lz_utc sample_world sample_feeds
           "LUP" "g1" st0); [discriminate|].
  vm_compute. reflexivity.
Defined.

(** ** The shows of the results *)

Lemma assoc_in_keys k l v : Etree.assoc k l = Some v -> In k (map fst l).
Proof.
  induction l as [|[k' v'] l IH]; simpl; [done|].
  destruct (String.eqb_spec k' k) as [->|]; [by left|]. right. by apply IH.
Qed.

(** X23.  Every record a search returns names a configured show; when
    the search is scoped to a show, it names that show and no other. *)
Theorem search_results_are_in_scope (lz : Strptime.local_zone) (W : World)
        (feeds : list (string * string))
        (show_name since_date before_date : option string)
        (hosts : option (list string)) (text_search : option string)
        (st st' : state) (results : list Dict.t) (episode_data : Dict.t) :
  NoDup (PodcastRSSParser.get_shows feeds) ->
  PodcastRSSParser.search_episodes lz W feeds show_name since_date before_date
                                   hosts text_search st = (Ok results, st') ->
  In episode_data results ->
  exists show,
    Dict.get "show_name" episode_data = Some (PyStr show)
    /\ In show (PodcastRSSParser.get_shows feeds)
    /\ forall name, show_name = Some name -> name <> "" -> show = name.
Proof.
  intros Hnd Hsearch Hin.
  destruct (search_result_kept lz W feeds _ _ _ _ _ _ _ _ _ Hnd Hsearch Hin)
    as (show & root & item & Hshow & Hroot & _ & -> & _).
  exists show. split; [by rewrite parse_episode_record|]. split.
  - unfold cached_feed in Hroot.
    destruct (Etree.assoc show feeds) as [url|] eqn:Hurl; [|done].
    by apply assoc_in_keys in Hurl.
  - intros name -> Hname. unfold scoped in Hshow.
    assert (truthy (of_opt_str (Some name)) = true) as Ht
      by (simpl; by destruct name).
    rewrite Ht in Hshow. by destruct Hshow as [<-|[]].
Qed.

Lemma search_results_are_in_scope_witness :
  exists show,
    Dict.get "show_name" (PodcastRSSParser._parse_episode "LUP" item_texas)
    = Some (PyStr show)
    /\ In show (PodcastRSSParser.get_shows sample_feeds)
    /\ forall name, Some "LUP" = Some name -> name <> "" -> show = name.
Proof.
  apply (search_results_are_in_scope
           lz_utc sample_world sample_feeds (Some "LUP") None None None None
           st0 (snd (PodcastRSSParser.search_episodes
                       lz_utc sample_world sample_feeds (Some "LUP") None None
                       None None st0))
           (results_of (PodcastRSSParser.search_episodes
                          lz_utc sample_world sample_feeds (Some "LUP") None
                          None None None st0))).
  - apply (bool_decide_unpack _). vm_compute. reflexivity.
  - vm_compute. reflexivity.
  - vm_compute. tauto.
Defined.

Section NoSuchDay.

Import PodcastRSSParser.

Context (lz : Strptime.local_zone).

(** When no layout accepts the string and the last resort gives
    nothing, the warning is printed and nothing is returned. *)
Lemma parse_date_no_value s :
  String.eqb s "" = false ->
  Forall (fails_on lz (preprocessed s)) formats ->
  extract_date_part (preprocessed s) = ([], Ok None) ->
  _parse_date lz s
  = ((map (EvStrptime (preprocessed s)) formats
      ++ [EvPrint ("Warning: Could not parse date: " ++ preprocessed s)])%list,
     Ok None).
Proof.
  intros Hne Hall Hnone. unfold _parse_date. rewrite Hne.
  fold (preprocessed s). rewrite (try_formats_all_fail _ _ _ Hall).
  unfold out_bind at 1. rewrite Hnone. reflexivity.
Qed.

(** The normaliser prepares such a string like any other. *)
Lemma preprocessed_written_no_day t fmt :
  no_such_day t -> In fmt formats -> fmt <> NAMED_ZONE_LAYOUT ->
  preprocessed (written t fmt) = written_colon t fmt
  /\ String.eqb (written t fmt) "" = false.
Proof.
  open_no_day t. destruct west.
  all: intros Hin Hfmt; unfold formats in Hin;
    repeat (destruct Hin as [<-|Hin]; [try (by destruct Hfmt)|]);
    try (by destruct Hin).
  all: split; [preprocess|spell; letters; reflexivity].
Qed.

End NoSuchDay.

(** X24.  A date whose day is beyond the end of its month, as the 30th
    of February, written in any of the nine layouts without a zone
    name: every layout is tried and rejects it, the warning is printed
    and nothing is returned.  It is not moved to a day that exists. *)
Theorem parse_date_no_such_day (lz : Strptime.local_zone) (t : stamp)
        (fmt : string) :
  no_such_day t ->
  In fmt PodcastRSSParser.formats -> fmt <> NAMED_ZONE_LAYOUT ->
  PodcastRSSParser._parse_date lz (written t fmt)
  = ((map (EvStrptime (written_colon t fmt)) PodcastRSSParser.formats
      ++ [EvPrint ("Warning: Could not parse date: "
                   ++ written_colon t fmt)])%list,
     Ok None).
Proof.
  intros Ht Hin Hfmt.
  destruct (preprocessed_written_no_day t fmt Ht Hin Hfmt) as [Hpre Hne].
  rewrite (parse_date_no_value lz _ Hne); rewrite Hpre.
  - reflexivity.
  - by apply no_day_is_rejected.
  - by apply no_day_last_resort.
Qed.

Lemma parse_date_no_such_day_witness :
  PodcastRSSParser._parse_date lz_utc (written february_30 "%Y-%m-%d")
  = ((map (EvStrptime (written_colon february_30 "%Y-%m-%d"))
          PodcastRSSParser.formats
      ++ [EvPrint ("Warning: Could not parse date: "
                   ++ written_colon february_30 "%Y-%m-%d")])%list,
     Ok None).
Proof.
  apply (parse_date_no_such_day lz_utc february_30 "%Y-%m-%d").
  - unfold no_such_day, february_30. simpl.
    repeat split; first [lia | by vm_compute].
  - simpl. tauto.
  - discriminate.
Defined.
